(** * Authentication gates and error translation of the blog API

    A shallow embedding of the server's request pipeline:
    - [server/src/utils/auth.js]        token service and identity resolver,
    - [server/src/middleware/auth.js]   the authorization gates,
    - [server/src/middleware/errorHandler.js]  the error translator,
    - [server/src/routes/auth.js]       register / login / forgot-password,
    - [server/src/routes/posts.js], [server/src/routes/users.js]
                                        reading, liking and deleting,
    - [server/src/models/Post.js]       the hooks, methods and schema of a post,
    - [server/src/app.js]               the middleware stack.

    JavaScript values are modelled by the inductive [value]; a thrown value is
    a property bag; code that may throw returns a [result]; an [async]
    handler is a resumable program whose suspension points are its [await]s. *)

From Stdlib Require Import String Ascii List ZArith Bool Lia DecimalString BinaryString.
Import ListNotations.
Open Scope string_scope.

Set Warnings "-register-all".

(** ** JavaScript values *)

Module JS.

Inductive value : Type :=
| VUndefined
| VNull
| VBool (b : bool)
| VNum (z : Z)
| VStr (s : string)
| VArr (items : list value)
| VObj (props : list (string * value)).

(** Thrown values are objects; their visible properties (own and inherited,
    such as [name] of [Error.prototype]) are kept as a property bag. *)
Definition js_error := list (string * value).

Inductive result (A : Type) : Type :=
| Ok (a : A)
| Throw (e : js_error).
Arguments Ok {A} a.
Arguments Throw {A} e.

Definition bind {A B} (m : result A) (k : A -> result B) : result B :=
  match m with
  | Ok a => k a
  | Throw e => Throw e
  end.

Notation "x <- m ;; k" := (bind m (fun x => k))
  (at level 61, m at next level, right associativity).

Fixpoint mapM {A B} (f : A -> result B) (l : list A) : result (list B) :=
  match l with
  | [] => Ok []
  | x :: r => y <- f x ;; ys <- mapM f r ;; Ok (y :: ys)
  end.

(** [new Error(msg)] / [new TypeError(msg)] as seen through property reads. *)
Definition mkError (name msg : string) : js_error :=
  [("name", VStr name); ("message", VStr msg); ("stack", VStr (name ++ ": " ++ msg))].

Definition TypeError (msg : string) : js_error := mkError "TypeError" msg.
Definition Error (msg : string) : js_error := mkError "Error" msg.

(** ToBoolean. *)
Definition truthy (v : value) : bool :=
  match v with
  | VUndefined | VNull => false
  | VBool b => b
  | VNum z => negb (Z.eqb z 0)
  | VStr s => negb (String.eqb s "")
  | VArr _ | VObj _ => true
  end.

(** [a || b] *)
Definition js_or (a b : value) : value := if truthy a then a else b.

(** [v === 'lit'] and [v === n] against primitive literals. *)
Definition eq_str (v : value) (lit : string) : bool :=
  match v with
  | VStr s => String.eqb s lit
  | _ => false
  end.

Definition eq_num (v : value) (n : Z) : bool :=
  match v with
  | VNum z => Z.eqb z n
  | _ => false
  end.

Fixpoint lookup (k : string) (props : list (string * value)) : value :=
  match props with
  | [] => VUndefined
  | (k', v) :: r => if String.eqb k k' then v else lookup k r
  end.

Definition has_key (k : string) (props : list (string * value)) : bool :=
  existsb (fun kv => String.eqb k (fst kv)) props.

Definition index_string (i : nat) : string :=
  NilZero.string_of_uint (Nat.to_uint i).

Fixpoint index_lookup (k : string) (i : nat) (items : list value) : value :=
  match items with
  | [] => VUndefined
  | x :: r => if String.eqb k (index_string i) then x else index_lookup k (S i) r
  end.

Fixpoint chars (s : string) : list value :=
  match s with
  | EmptyString => []
  | String c r => VStr (String c EmptyString) :: chars r
  end.

(** [v[k]]: reading a property of [null] or [undefined] throws. *)
Definition get (v : value) (k : string) : result value :=
  match v with
  | VUndefined => Throw (TypeError ("Cannot read properties of undefined (reading '" ++ k ++ "')"))
  | VNull => Throw (TypeError ("Cannot read properties of null (reading '" ++ k ++ "')"))
  | VObj props => Ok (lookup k props)
  | VArr items => Ok (index_lookup k 0 items)
  | VStr s => Ok (index_lookup k 0 (chars s))
  | VBool _ | VNum _ => Ok VUndefined
  end.

Definition indices {A} (l : list A) : list string :=
  map index_string (seq 0 (length l)).

(** [Object.keys(v)] and [Object.values(v)]. *)
Definition Object_keys (v : value) : result (list string) :=
  match v with
  | VUndefined | VNull => Throw (TypeError "Cannot convert undefined or null to object")
  | VObj props => Ok (map fst props)
  | VArr items => Ok (indices items)
  | VStr s => Ok (indices (chars s))
  | VBool _ | VNum _ => Ok []
  end.

Definition Object_values (v : value) : result (list value) :=
  match v with
  | VUndefined | VNull => Throw (TypeError "Cannot convert undefined or null to object")
  | VObj props => Ok (map snd props)
  | VArr items => Ok items
  | VStr s => Ok (chars s)
  | VBool _ | VNum _ => Ok []
  end.

Definition join (sep : string) (l : list string) : string :=
  match l with
  | [] => ""
  | x :: r => fold_left (fun acc y => acc ++ sep ++ y) r x
  end.

(** *** Numbers

    [VNum] holds the integers among the Number values; an integer beyond
    2^53 stands for the double nearest to it.  The doubles are kept as
    [M * 2^p]. *)

(** [m * 10^e] as a fraction, for [0 < m]. *)
Definition ratio (m e : Z) : Z * Z :=
  if (0 <=? e)%Z then ((m * 10 ^ e)%Z, 1%Z) else (m, (10 ^ (- e))%Z).

(** Whether [2^b <= n / d]. *)
Definition reaches (n d b : Z) : bool :=
  if (0 <=? b)%Z then (d * 2 ^ b <=? n)%Z else (d <=? n * 2 ^ (- b))%Z.

(** The binary exponent of [n / d]: the [b] with [2^b <= n / d < 2^(b+1)]. *)
Definition binary_exponent (n d : Z) : Z :=
  let b := (Z.log2 n - Z.log2 d)%Z in
  if reaches n d b then b else (b - 1)%Z.

(** [a / b] rounded to the nearest integer, ties to the even one. *)
Definition half_even (a b : Z) : Z :=
  let q := (a / b)%Z in
  let r := (a mod b)%Z in
  if (2 * r <? b)%Z then q
  else if (b <? 2 * r)%Z then (q + 1)%Z
  else if Z.even q then q else (q + 1)%Z.

(** The double nearest to [m * 10^e] (for [0 <= m]) as [(M, p)], read
    [M * 2^p]: 53 significant bits, ties to even, gradual underflow; [None]
    when the rounding overflows to Infinity. *)
Definition round_double (m e : Z) : option (Z * Z) :=
  if (m =? 0)%Z then Some (0%Z, 0%Z)
  else
    let '(n, d) := ratio m e in
    let b := binary_exponent n d in
    let p := Z.max (b - 52) (- 1074) in
    let M := if (0 <=? p)%Z then half_even n (d * 2 ^ p) else half_even (n * 2 ^ (- p)) d in
    if (1024 <=? b)%Z || ((b =? 1023)%Z && (M =? 2 ^ 53)%Z) then None
    else Some (M, p).

(** The integer a non-negative integer of the model stands for. *)
Definition nearest_double (n : Z) : option Z :=
  if (n <? 2 ^ 53)%Z then Some n
  else
    match round_double n 0 with
    | Some (M, p) => Some (M * 2 ^ p)%Z
    | None => None
    end.

Definition digits_of (n : Z) : string := NilZero.string_of_int (Z.to_int n).

(** The candidate with [k] significant digits that is nearest to [v], when
    one of the two neighbours of [v] with that many digits reads back as
    [v]. *)
Definition with_digits (v : Z) (k : nat) : option Z :=
  let x := (Z.of_nat (String.length (digits_of v)) - Z.of_nat k)%Z in
  if (x <=? 0)%Z then Some v
  else
    let lo := (v / 10 ^ x * 10 ^ x)%Z in
    let hi := (lo + 10 ^ x)%Z in
    let reads c :=
      match nearest_double c with
      | Some w => (w =? v)%Z
      | None => false
      end in
    match reads lo, reads hi with
    | true, true =>
        if (v - lo <? hi - v)%Z then Some lo
        else if (hi - v <? v - lo)%Z then Some hi
        else if Z.even (lo / 10 ^ x) then Some lo else Some hi
    | true, false => Some lo
    | false, true => Some hi
    | false, false => None
    end.

(** The decimal number with the fewest significant digits that reads back as
    the double [v]. *)
Definition shortest (v : Z) : Z :=
  let fix search (ks : list nat) : Z :=
    match ks with
    | [] => v
    | k :: r =>
        match with_digits v k with
        | Some c => c
        | None => search r
        end
    end in
  search (seq 1 17).

Fixpoint strip_zeros (rev_digits : list ascii) : list ascii :=
  match rev_digits with
  | "0"%char :: r => strip_zeros r
  | _ => rev_digits
  end.

(** [d.ddde+x] for a digit string of more than 21 digits. *)
Definition exponent_form (digits : string) : string :=
  let significant := rev (strip_zeros (rev (list_ascii_of_string digits))) in
  let x := digits_of (Z.of_nat (String.length digits) - 1) in
  match significant with
  | [] => digits
  | d :: [] => String d ("e+" ++ x)
  | d :: r => String d ("." ++ string_of_list_ascii r ++ "e+" ++ x)
  end.

(** Number::toString on the integers. *)
Definition number_to_string (z : Z) : string :=
  let sign := if (z <? 0)%Z then "-" else "" in
  match nearest_double (Z.abs z) with
  | None => sign ++ "Infinity"
  | Some v =>
      if (v <? 2 ^ 53)%Z then sign ++ digits_of v
      else
        let digits := digits_of (shortest v) in
        if (String.length digits <=? 21)%nat then sign ++ digits
        else sign ++ exponent_form digits
  end.

(** ToString, as used by template literals. *)
Fixpoint to_js_string (v : value) : string :=
  match v with
  | VUndefined => "undefined"
  | VNull => "null"
  | VBool true => "true"
  | VBool false => "false"
  | VNum z => number_to_string z
  | VStr s => s
  | VArr items =>
      join "," (map (fun x => match x with
                            | VUndefined | VNull => ""
                            | _ => to_js_string x
                            end) items)
  | VObj _ => "[object Object]"
  end.

(** What ToNumber gives: not a number, an infinity, or the decimal
    [mantissa * 10^exponent] (with [0 <= mantissa]) before it is rounded to
    a double. *)
Inductive number : Type :=
| NaN
| Infinite (negative : bool)
| Decimal (negative : bool) (mantissa exponent : Z).

(** The white space of StringToNumber, on the ASCII range. *)
Definition is_blank (c : ascii) : bool :=
  ((9 <=? nat_of_ascii c)%nat && (nat_of_ascii c <=? 13)%nat) || Ascii.eqb c " ".

Fixpoint skip_blanks (s : string) : string :=
  match s with
  | EmptyString => EmptyString
  | String c r => if is_blank c then skip_blanks r else s
  end.

Definition string_rev (s : string) : string :=
  string_of_list_ascii (rev (list_ascii_of_string s)).

Definition trim_blanks (s : string) : string :=
  string_rev (skip_blanks (string_rev (skip_blanks s))).

(** The value of a digit in the given radix. *)
Definition digit_value (radix : Z) (c : ascii) : option Z :=
  let n := Z.of_nat (nat_of_ascii c) in
  let d := if (48 <=? n)%Z && (n <=? 57)%Z then (n - 48)%Z
           else if (97 <=? n)%Z && (n <=? 102)%Z then (n - 87)%Z
           else if (65 <=? n)%Z && (n <=? 70)%Z then (n - 55)%Z
           else 99%Z in
  if (d <? radix)%Z then Some d else None.

(** The leading run of decimal digits appended to [acc]: the new value, how
    many digits were read, and what follows them. *)
Fixpoint read_digits (acc count : Z) (s : string) : Z * Z * string :=
  match s with
  | EmptyString => (acc, count, s)
  | String c r =>
      match digit_value 10 c with
      | Some d => read_digits (acc * 10 + d) (count + 1) r
      | None => (acc, count, s)
      end
  end.

(** A string that is one or more digits of the radix, and nothing else. *)
Fixpoint all_digits (radix acc : Z) (s : string) : option Z :=
  match s with
  | EmptyString => Some acc
  | String c r =>
      match digit_value radix c with
      | Some d => all_digits radix (acc * radix + d) r
      | None => None
      end
  end.

Definition integer_literal (radix : Z) (s : string) : number :=
  match s with
  | EmptyString => NaN
  | _ =>
      match all_digits radix 0 s with
      | Some n => Decimal false n 0
      | None => NaN
      end
  end.

(** ExponentPart, or nothing, up to the end of the string. *)
Definition exponent_part (s : string) : option Z :=
  match s with
  | EmptyString => Some 0%Z
  | String c r =>
      if Ascii.eqb c "e" || Ascii.eqb c "E"
      then
        let '(negative, ds) :=
          match r with
          | String "+" r' => (false, r')
          | String "-" r' => (true, r')
          | _ => (false, r)
          end in
        match ds with
        | EmptyString => None
        | _ =>
            match all_digits 10 0 ds with
            | Some x => Some (if negative then (- x)%Z else x)
            | None => None
            end
        end
      else None
  end.

(** StrUnsignedDecimalLiteral *)
Definition unsigned_decimal (negative : bool) (s : string) : number :=
  if String.eqb s "Infinity" then Infinite negative
  else
    let '(i, ni, r1) := read_digits 0 0 s in
    let '(f, nf, r2) :=
      match r1 with
      | String "." r => read_digits i 0 r
      | _ => (i, 0%Z, r1)
      end in
    if (ni =? 0)%Z && (nf =? 0)%Z then NaN
    else
      match exponent_part r2 with
      | Some x => Decimal negative f (x - nf)
      | None => NaN
      end.

(** StringToNumber *)
Definition StringToNumber (s : string) : number :=
  match trim_blanks s with
  | EmptyString => Decimal false 0 0
  | String "0" (String c r) as t =>
      if Ascii.eqb c "x" || Ascii.eqb c "X" then integer_literal 16 r
      else if Ascii.eqb c "o" || Ascii.eqb c "O" then integer_literal 8 r
      else if Ascii.eqb c "b" || Ascii.eqb c "B" then integer_literal 2 r
      else unsigned_decimal false t
  | String "+" r => unsigned_decimal false r
  | String "-" r => unsigned_decimal true r
  | t => unsigned_decimal false t
  end.

(** ToPrimitive of an array or object, as the conversions to a number go
    through it.  The objects of the model hold no functions: one that has a
    [toString] key of its own cannot be converted, any other is
    '[object Object]', and an array is the join of its elements. *)
Fixpoint to_primitive (v : value) : result string :=
  match v with
  | VObj props =>
      if has_key "toString" props
      then Throw (TypeError "Cannot convert object to primitive value")
      else Ok "[object Object]"
  | VArr items =>
      parts <- mapM (fun x => match x with
                              | VUndefined | VNull => Ok ""
                              | _ => to_primitive x
                              end) items ;;
      Ok (join "," parts)
  | _ => Ok (to_js_string v)
  end.

(** A value that is no array and no object. *)
Definition primitive (v : value) : bool :=
  match v with
  | VArr _ | VObj _ => false
  | _ => true
  end.

(** ToNumber *)
Definition ToNumber (v : value) : result number :=
  match v with
  | VUndefined => Ok NaN
  | VNull => Ok (Decimal false 0 0)
  | VBool b => Ok (Decimal false (if b then 1 else 0) 0)
  | VNum z => Ok (Decimal (z <? 0)%Z (Z.abs z) 0)
  | VStr s => Ok (StringToNumber s)
  | VArr _ | VObj _ => s <- to_primitive v ;; Ok (StringToNumber s)
  end.

(** The integer part of a number once rounded to a double; 0 for NaN and
    the infinities. *)
Definition integer_part (x : number) : Z :=
  match x with
  | NaN | Infinite _ => 0%Z
  | Decimal negative m e =>
      match round_double m e with
      | None => 0%Z
      | Some (M, p) =>
          let t := if (0 <=? p)%Z then (M * 2 ^ p)%Z else (M / 2 ^ (- p))%Z in
          if negative then (- t)%Z else t
      end
  end.

(** ToInt32, the operand conversion of [x | 0]. *)
Definition ToInt32 (x : number) : Z :=
  ((integer_part x + 2 ^ 31) mod 2 ^ 32 - 2 ^ 31)%Z.

(** [x < k] for an integer [k]. *)
Definition less_than (x : number) (k : Z) : bool :=
  match x with
  | NaN => false
  | Infinite negative => negative
  | Decimal negative m e =>
      match round_double m e with
      | None => negative
      | Some (M, p) =>
          let M' := if negative then (- M)%Z else M in
          if (0 <=? p)%Z then (M' * 2 ^ p <? k)%Z else (M' <? k * 2 ^ (- p))%Z
      end
  end.

(** [keys[0]], the first element of an array of strings or [undefined]. *)
Definition first_key (keys : list string) : value :=
  match keys with
  | [] => VUndefined
  | k :: _ => VStr k
  end.

(** A property is populated when reading it does not give [undefined]. *)
Definition populated (k : string) (body : value) : bool :=
  match body with
  | VObj props =>
      match lookup k props with
      | VUndefined => false
      | _ => true
      end
  | _ => false
  end.

End JS.
Import JS.

(** ** Requests, responses and middleware outcomes *)

(** The user document as the gates read it: [_id], [role], [isActive] and the
    profile fields; [password] is present only when it was selected. *)
Record UserDoc : Type := mkUser {
  _id : string;
  username : string;
  email : string;
  password : option string;
  role : string;
  isActive : bool;
  firstName : option string;
  lastName : option string;
  lastLogin : option string
}.

Record Request : Type := mkReq {
  method : string;
  originalUrl : string;
  authorization : option string;       (* req.headers.authorization *)
  params : list (string * string);     (* req.params *)
  body : list (string * value);        (* req.body *)
  user : option UserDoc;               (* req.user *)
  requestId : value                    (* req.requestId *)
}.

(** [res.status(code).json(payload)] *)
Record Response : Type := mkRes {
  status : value;
  json : value
}.

(** What a middleware did: sent a response, called [next()], possibly after
    changing the request context, or called [next(err)]. *)
Inductive outcome : Type :=
| Responded (res : Response)
| Next (req : Request)
| NextErr (err : js_error) (req : Request).

(** ** middleware/errorHandler.js *)

Module ErrorHandler.

(** [class AppError extends Error] *)
Definition AppError (message : string) (statusCode : Z) (details : value) : js_error :=
  [("name", VStr "Error");
   ("message", VStr message);
   ("statusCode", VNum statusCode);
   ("details", details);
   ("isOperational", VBool true);
   ("stack", VStr ("Error: " ++ message))].

(** The three locals [statusCode], [message], [details]. *)
Definition triple : Type := (value * value * value)%type.

Definition default_triple : triple :=
  (VNum 500, VStr "Internal Server Error", VNull).

Definition is_name (err : js_error) (n : string) : bool := eq_str (lookup "name" err) n.
Definition is_code_str (err : js_error) (c : string) : bool := eq_str (lookup "code" err) c.

(** Array.prototype.map on [err.errors] of the express-validator branch. *)
Definition validator_details (errors : value) : result value :=
  match errors with
  | VArr items =>
      ds <- mapM (fun error =>
                    param <- get error "param" ;;
                    msg <- get error "msg" ;;
                    val <- get error "value" ;;
                    Ok (VObj [("field", param); ("message", msg); ("value", val)]))
                 items ;;
      Ok (VArr ds)
  | _ => Throw (TypeError "err.errors.map is not a function")
  end.

(** Lines 14-100 of errorHandler: the sequence of classification blocks. *)
Definition classify (err : js_error) : result triple :=
  let t := default_triple in
  (* Mongoose bad ObjectId *)
  let t :=
    if is_name err "CastError"
    then (VNum 400, VStr "Invalid resource ID format",
          VStr "The provided ID is not a valid MongoDB ObjectId")
    else t in
  (* Mongoose duplicate key error *)
  t <- (if eq_num (lookup "code" err) 11000
        then
          keys <- Object_keys (lookup "keyValue" err) ;;
          let field := first_key keys in
          value <- get (lookup "keyValue" err) (to_js_string field) ;;
          Ok (VNum 400, VStr "Duplicate field value",
              VStr (to_js_string field ++ " '" ++ to_js_string value ++ "' already exists"))
        else Ok t) ;;
  (* Mongoose validation error *)
  t <- (if is_name err "ValidationError"
        then
          vals <- Object_values (lookup "errors" err) ;;
          errors <- mapM (fun val => get val "message") vals ;;
          Ok (VNum 400, VStr "Validation Error", VArr errors)
        else Ok t) ;;
  (* JWT error *)
  let t :=
    if is_name err "JsonWebTokenError"
    then (VNum 401, VStr "Invalid token", VStr "Please provide a valid authentication token")
    else t in
  (* JWT expired error *)
  let t :=
    if is_name err "TokenExpiredError"
    then (VNum 401, VStr "Token expired", VStr "Please log in again")
    else t in
  (* Express validator error *)
  t <- (if eq_str (lookup "type" err) "ValidationError" && truthy (lookup "errors" err)
        then
          ds <- validator_details (lookup "errors" err) ;;
          Ok (VNum 400, VStr "Validation Error", ds)
        else Ok t) ;;
  (* File upload errors *)
  let t :=
    if is_code_str err "LIMIT_FILE_SIZE"
    then (VNum 400, VStr "File too large", VStr "Please upload a smaller file")
    else t in
  let t :=
    if is_code_str err "LIMIT_UNEXPECTED_FILE"
    then (VNum 400, VStr "Unexpected file field",
          VStr "Please check the file upload field name")
    else t in
  (* Database connection errors *)
  let t :=
    if is_name err "MongoNetworkError" || is_name err "MongoTimeoutError"
    then (VNum 503, VStr "Database connection error", VStr "Service temporarily unavailable")
    else t in
  (* Rate limiting error *)
  let t :=
    if eq_num (lookup "status" err) 429
    then (VNum 429, VStr "Too many requests", VStr "Please try again later")
    else t in
  (* Custom application errors *)
  let t :=
    if truthy (lookup "isOperational" err)
    then (js_or (lookup "statusCode" err) (VNum 400),
          lookup "message" err,
          js_or (lookup "details" err) VNull)
    else t in
  Ok t.

(** [process.env.NODE_ENV === lit] *)
Definition env_is (node_env : option string) (lit : string) : bool :=
  match node_env with
  | Some s => String.eqb s lit
  | None => false
  end.

(** [statusCode | 0], the code Node's [writeHead] works with. *)
Definition status_code (statusCode : value) : result Z :=
  n <- ToNumber statusCode ;; Ok (ToInt32 n).

Definition in_range (code : Z) : bool := (100 <=? code)%Z && (code <=? 999)%Z.

(** The status codes a response can be sent with. *)
Definition valid_status (statusCode : value) : bool :=
  match status_code statusCode with
  | Ok code => in_range code
  | Throw _ => false
  end.

(** Node's [ERR_HTTP_INVALID_STATUS_CODE].  The message ends with the code
    as [util.format('%s', code)] prints it: its ToString when it is a
    primitive.  An array or object is printed by [util.inspect], which is
    not modelled: of the error thrown for one, only the name and the code
    are meant. *)
Definition invalid_status_code (statusCode : value) : js_error :=
  [("name", VStr "RangeError");
   ("message", VStr ("Invalid status code: " ++ to_js_string statusCode));
   ("code", VStr "ERR_HTTP_INVALID_STATUS_CODE");
   ("stack", VStr ("RangeError [ERR_HTTP_INVALID_STATUS_CODE]: Invalid status code: "
                   ++ to_js_string statusCode))].

(** [res.status(statusCode).json(payload)]: Express 4 stores the code as it
    is given, and writing the head of the response throws unless
    [statusCode | 0] is between 100 and 999. *)
Definition res_status_json (statusCode payload : value) : result Response :=
  code <- status_code statusCode ;;
  if in_range code then Ok (mkRes statusCode payload)
  else Throw (invalid_status_code statusCode).

(** Lines 102-126: building and sending the response.  [node_env] is
    [process.env.NODE_ENV] and [now] is [new Date().toISOString()]. *)
Definition build_response (node_env : option string) (now : string)
    (err : js_error) (req : Request) (t : triple) : result Response :=
  let '(statusCode, message, details) := t in
  let errorResponse :=
    [("error", message);
     ("status", statusCode);
     ("timestamp", VStr now);
     ("path", VStr (originalUrl req));
     ("method", VStr (method req))] in
  let errorResponse :=
    if truthy details then (errorResponse ++ [("details", details)])%list else errorResponse in
  let errorResponse :=
    if truthy (requestId req)
    then (errorResponse ++ [("requestId", requestId req)])%list else errorResponse in
  let errorResponse :=
    if env_is node_env "development"
    then (errorResponse ++ [("stack", lookup "stack" err)])%list
    else errorResponse in
  res_status_json statusCode (VObj errorResponse).

(** [errorHandler(err, req, res, next)].  [logger.logError] only writes to
    the log and the copy [error] of lines 11-12 is never read, so neither
    shows in the response. *)
Definition errorHandler (node_env : option string) (now : string)
    (err : js_error) (req : Request) : result Response :=
  t <- classify err ;;
  build_response node_env now err req t.

(** [notFound]: forwards a pre-built 404 AppError. *)
Definition notFound (req : Request) : outcome :=
  let error :=
    AppError ("Route " ++ originalUrl req ++ " not found") 404
             (VStr ("Cannot " ++ method req ++ " " ++ originalUrl req)) in
  NextErr error req.

End ErrorHandler.

(** ** The signing library and the storage layer (collaborators) *)

(** The payload handed to [jwt.sign] and the claim set [jwt.verify] returns:
    [{id, username, email, role, iss, aud, exp, iat}]. *)
Record Payload : Type := mkPayload {
  p_id : option string;
  p_username : string;
  p_email : string;
  p_role : string
}.

Record Claims : Type := mkClaims {
  c_id : option string;
  c_username : string;
  c_email : string;
  c_role : string;
  c_iss : string;
  c_aud : string;
  c_exp : Z;
  c_iat : Z
}.

Record SignOptions : Type := mkSignOptions {
  expiresIn : string;
  s_issuer : string;
  s_audience : string
}.

Record VerifyOptions : Type := mkVerifyOptions {
  v_issuer : string;
  v_audience : string
}.

(** The [jsonwebtoken] package.  The clock reading (seconds) is an explicit
    argument; [timespan] is its reading of strings such as ['7d']. *)
Record JwtLib : Type := mkJwtLib {
  timespan : string -> option Z;
  jwt_sign : Payload -> string -> SignOptions -> Z -> result string;
  jwt_verify : string -> string -> VerifyOptions -> Z -> result Claims
}.

(** The package's contract: a token it signed verifies under the same secret,
    issuer and audience until its expiry, and decodes to the signed payload. *)
Definition jwt_contract (lib : JwtLib) : Prop :=
  forall payload secret opts t0 tok,
    jwt_sign lib payload secret opts t0 = Ok tok ->
    exists d,
      timespan lib (expiresIn opts) = Some d /\
      forall t1, (t0 <= t1 < t0 + d)%Z ->
        jwt_verify lib tok secret (mkVerifyOptions (s_issuer opts) (s_audience opts)) t1
        = Ok (mkClaims (p_id payload) (p_username payload) (p_email payload) (p_role payload)
                       (s_issuer opts) (s_audience opts) (t0 + d) t0).

(** Process configuration read once from [process.env]. *)
Record Config : Type := mkConfig {
  JWT_SECRET : string;
  JWT_EXPIRE : string;
  NODE_ENV : option string
}.

(** The users collection.  [down] is a storage fault: while it is set every
    query rejects with it. *)
Record Db : Type := mkDb {
  users : list UserDoc;
  down : option js_error
}.

Definition set_password (p : option string) (u : UserDoc) : UserDoc :=
  mkUser (_id u) (username u) (email u) p (role u) (isActive u)
         (firstName u) (lastName u) (lastLogin u).

Definition set_lastLogin (t : option string) (u : UserDoc) : UserDoc :=
  mkUser (_id u) (username u) (email u) (password u) (role u) (isActive u)
         (firstName u) (lastName u) t.

(** Modelled from the spec: the storage contract [findUserById(id) -> record|null]
    of the [User] model, which is not part of the sources at hand. *)
Definition User_findById (db : Db) (id : option string) : result (option UserDoc) :=
  match down db with
  | Some e => Throw e
  | None =>
      match id with
      | Some i => Ok (find (fun u => String.eqb (_id u) i) (users db))
      | None => Ok None
      end
  end.

(** [.select('-password')] *)
Definition select_minus_password (r : option UserDoc) : option UserDoc :=
  option_map (set_password None) r.

(** ** utils/auth.js *)

Module Auth.

(** The argument of [generateToken]: a user document or a plain object with
    [_id] or [id]. *)
Record Identity : Type := mkIdentity {
  i__id : option string;
  i_id : option string;
  i_username : string;
  i_email : string;
  i_role : string
}.

(** [user._id || user.id] *)
Definition subject_id (user : Identity) : option string :=
  match i__id user with
  | Some s => if truthy (VStr s) then Some s else i_id user
  | None => i_id user
  end.

(** A Mongoose document exposes [id] as the string form of [_id]. *)
Definition identity_of_doc (u : UserDoc) : Identity :=
  mkIdentity (Some (_id u)) (Some (_id u)) (username u) (email u) (role u).

Section TokenService.

Variable lib : JwtLib.
Variable cfg : Config.

Definition generateToken (now : Z) (user : Identity) : result string :=
  let payload :=
    mkPayload (subject_id user) (i_username user) (i_email user) (i_role user) in
  jwt_sign lib payload (JWT_SECRET cfg)
           (mkSignOptions (JWT_EXPIRE cfg) "mern-testing-app" "mern-testing-users") now.

Definition verifyToken (now : Z) (token : string) : result Claims :=
  match jwt_verify lib token (JWT_SECRET cfg)
                   (mkVerifyOptions "mern-testing-app" "mern-testing-users") now with
  | Ok decoded => Ok decoded
  | Throw error => Throw (Error "Invalid token")
  end.

(** [String|null] is an [option]. *)
Definition extractToken (req : Request) : option string :=
  match authorization req with
  | Some authHeader =>
      if truthy (VStr authHeader) && prefix "Bearer " authHeader
      then Some (substring 7 (String.length authHeader - 7) authHeader)
      else None
  | None => None
  end.

(** The [try]/[catch] of [getUserFromToken] logs and rethrows. *)
Definition getUserFromToken (db : Db) (now : Z) (token : string) : result UserDoc :=
  decoded <- verifyToken now token ;;
  found <- User_findById db (c_id decoded) ;;
  match select_minus_password found with
  | None => Throw (Error "User not found")
  | Some user =>
      if negb (isActive user)
      then Throw (Error "User account is deactivated")
      else Ok user
  end.

End TokenService.

Definition is_upper (c : ascii) : bool := (65 <=? nat_of_ascii c)%nat && (nat_of_ascii c <=? 90)%nat.
Definition is_lower (c : ascii) : bool := (97 <=? nat_of_ascii c)%nat && (nat_of_ascii c <=? 122)%nat.
Definition is_digit (c : ascii) : bool := (48 <=? nat_of_ascii c)%nat && (nat_of_ascii c <=? 57)%nat.

(** [/[class]/.test(s)] *)
Fixpoint test_class (p : ascii -> bool) (s : string) : bool :=
  match s with
  | EmptyString => false
  | String c r => p c || test_class p r
  end.

(** The result of [validatePassword] as the handlers read it; [strength]
    is informative only and is left out. *)
Record PasswordValidation : Type := mkPasswordValidation {
  isValid : bool;
  errors : list string
}.

Definition validatePassword (password : string) : PasswordValidation :=
  let minLength := 6%nat in
  let hasUpperCase := test_class is_upper password in
  let hasLowerCase := test_class is_lower password in
  let hasNumbers := test_class is_digit password in
  let errors :=
    ((if (String.length password <? minLength)%nat
      then ["Password must be at least 6 characters long"] else []) ++
     (if negb hasUpperCase
      then ["Password must contain at least one uppercase letter"] else []) ++
     (if negb hasLowerCase
      then ["Password must contain at least one lowercase letter"] else []) ++
     (if negb hasNumbers
      then ["Password must contain at least one number"] else []))%list in
  mkPasswordValidation (List.length errors =? 0)%nat errors.

End Auth.

(** ** middleware/auth.js *)

Module Gates.
Import Auth.

Definition set_user (u : UserDoc) (req : Request) : Request :=
  mkReq (method req) (originalUrl req) (authorization req) (params req)
        (body req) (Some u) (requestId req).

Definition deny (code : Z) (error message : string) : outcome :=
  Responded (mkRes (VNum code) (VObj [("error", VStr error); ("message", VStr message)])).

Section WithCollaborators.

Variable lib : JwtLib.
Variable cfg : Config.
Variable db : Db.
Variable now : Z.

(** [auth]: the [try] block is the [Ok] branch, the [catch] block the
    [Throw] branch ([logger.logError] only writes to the log). *)
Definition auth (req : Request) : outcome :=
  match extractToken req with
  | None => deny 401 "Access denied" "No token provided"
  | Some token =>
      if negb (truthy (VStr token))
      then deny 401 "Access denied" "No token provided"
      else
        match getUserFromToken lib cfg db now token with
        | Ok user => Next (set_user user req)
        | Throw error =>
            let statusCode := 401%Z in
            let message := "Invalid token" in
            let '(statusCode, message) :=
              if eq_str (lookup "message" error) "User not found"
              then (statusCode, "User not found")
              else if eq_str (lookup "message" error) "User account is deactivated"
              then (403%Z, "Account deactivated")
              else (statusCode, message) in
            deny statusCode "Authentication failed" message
        end
  end.

(** [optionalAuth]: a failed resolution is logged and swallowed. *)
Definition optionalAuth (req : Request) : outcome :=
  match extractToken req with
  | None => Next req
  | Some token =>
      if truthy (VStr token)
      then
        match getUserFromToken lib cfg db now token with
        | Ok user => Next (set_user user req)
        | Throw error => Next req
        end
      else Next req
  end.

End WithCollaborators.

Definition requireAdmin (req : Request) : outcome :=
  match user req with
  | None => deny 401 "Access denied" "Authentication required"
  | Some u =>
      if negb (String.eqb (role u) "admin")
      then deny 403 "Access denied" "Admin privileges required"
      else Next req
  end.

(** [req.params[resourceIdParam]] *)
Fixpoint param (k : string) (ps : list (string * string)) : option string :=
  match ps with
  | [] => None
  | (k', v) :: r => if String.eqb k k' then Some v else param k r
  end.

(** [a !== b] for a string against a string or [undefined]. *)
Definition differs (a : string) (b : option string) : bool :=
  match b with
  | Some s => negb (String.eqb a s)
  | None => true
  end.

Definition requireOwnership (resourceIdParam userIdField : string) (req : Request) : outcome :=
  match user req with
  | None => deny 401 "Access denied" "Authentication required"
  | Some u =>
      if String.eqb (role u) "admin"
      then Next req
      else if String.eqb userIdField "userId" || String.eqb userIdField "_id"
      then
        let resourceUserId := param resourceIdParam (params req) in
        if differs (_id u) resourceUserId
        then deny 403 "Access denied" "You can only access your own resources"
        else Next req
      else Next req
  end.

Definition requireRole (roles : list string) (req : Request) : outcome :=
  match user req with
  | None => deny 401 "Access denied" "Authentication required"
  | Some u =>
      if negb (existsb (String.eqb (role u)) roles)
      then deny 403 "Access denied"
                ("One of the following roles is required: " ++ join ", " roles)
      else Next req
  end.

End Gates.

(** ** Asynchronous handlers over the users collection *)

Module Async.

(** [{ $or: [{email}, {username}] }] or [{email}]; [withPassword] is
    [.select('+password')]. *)
Inductive query : Type :=
| ByEmailOrUsername (e u : string) (withPassword : bool)
| ByEmail (e : string).

(** [userData] handed to [User.create]. *)
Record NewUser : Type := mkNewUser {
  nu_username : string;
  nu_email : string;
  nu_password : string;
  nu_firstName : option string;
  nu_lastName : option string
}.

(** An [async] function body: it finishes, or waits on the storage layer and
    resumes with the reply.  A rejected operation is rethrown at the [await]. *)
Inductive prog : Type :=
| Done (r : result Response)
| AwaitFindOne (q : query) (k : option UserDoc -> prog)
| AwaitCreate (userData : NewUser) (k : UserDoc -> prog)
| AwaitSave (u : UserDoc) (k : unit -> prog).

(** Modelled from the spec: the [User] model (password hashing on save, the
    unique [email] and [username] indexes, default role and active flag),
    which is not part of the sources at hand. *)
Record UserModel : Type := mkUserModel {
  bcrypt_hash : string -> string;
  bcrypt_compare : string -> string -> bool;   (* candidate, stored hash *)
  new_id : list UserDoc -> string
}.

(** The storage layer's uniqueness-violation signal. *)
Definition duplicate_key (field val : string) : js_error :=
  [("name", VStr "MongoServerError");
   ("message", VStr ("E11000 duplicate key error dup key: { " ++ field ++ " }"));
   ("code", VNum 11000);
   ("keyValue", VObj [(field, VStr val)])].

Section Storage.

Variable model : UserModel.

Definition matches (q : query) (d : UserDoc) : bool :=
  match q with
  | ByEmailOrUsername e u _ => String.eqb (email d) e || String.eqb (username d) u
  | ByEmail e => String.eqb (email d) e
  end.

Definition projection (q : query) (d : UserDoc) : UserDoc :=
  match q with
  | ByEmailOrUsername _ _ true => d
  | _ => set_password None d
  end.

(** Modelled from the spec: [User.findOne] of the absent [User] model, the
    first document of the collection that satisfies the query. *)
Definition User_findOne (db : Db) (q : query) : result (option UserDoc) :=
  match down db with
  | Some e => Throw e
  | None => Ok (option_map (projection q) (find (matches q) (users db)))
  end.

(** Modelled from the spec: [User.create] of the absent [User] model; the
    unique indexes answer a second holder of an email or username with the
    uniqueness violation (code 11000 and the offending [keyValue]). *)
Definition User_create (db : Db) (d : NewUser) : result (UserDoc * Db) :=
  match down db with
  | Some e => Throw e
  | None =>
      if existsb (fun u => String.eqb (email u) (nu_email d)) (users db)
      then Throw (duplicate_key "email" (nu_email d))
      else if existsb (fun u => String.eqb (username u) (nu_username d)) (users db)
      then Throw (duplicate_key "username" (nu_username d))
      else
        let u := mkUser (new_id model (users db)) (nu_username d) (nu_email d)
                        (Some (bcrypt_hash model (nu_password d))) "user" true
                        (nu_firstName d) (nu_lastName d) None in
        Ok (u, mkDb (users db ++ [u]) None)
  end.

(** Modelled from the spec: [user.save()] of the absent [User] model on a
    loaded document; only the field the handlers change ([lastLogin]) is
    written back. *)
Definition User_save (db : Db) (u : UserDoc) : result Db :=
  match down db with
  | Some e => Throw e
  | None =>
      Ok (mkDb (map (fun d => if String.eqb (_id d) (_id u)
                              then set_lastLogin (lastLogin u) d else d) (users db))
               None)
  end.

(** Running one handler to completion against the collection. *)
Fixpoint run (p : prog) (db : Db) : Db * result Response :=
  match p with
  | Done r => (db, r)
  | AwaitFindOne q k =>
      match User_findOne db q with
      | Ok r => run (k r) db
      | Throw e => (db, Throw e)
      end
  | AwaitCreate d k =>
      match User_create db d with
      | Ok (u, db') => run (k u) db'
      | Throw e => (db, Throw e)
      end
  | AwaitSave u k =>
      match User_save db u with
      | Ok db' => run (k tt) db'
      | Throw e => (db, Throw e)
      end
  end.

(** One resumption: the pending operation is performed and the handler runs
    up to its next [await]. *)
Definition step (p : prog) (db : Db) : Db * prog :=
  match p with
  | Done r => (db, Done r)
  | AwaitFindOne q k =>
      match User_findOne db q with
      | Ok r => (db, k r)
      | Throw e => (db, Done (Throw e))
      end
  | AwaitCreate d k =>
      match User_create db d with
      | Ok (u, db') => (db', k u)
      | Throw e => (db, Done (Throw e))
      end
  | AwaitSave u k =>
      match User_save db u with
      | Ok db' => (db', k tt)
      | Throw e => (db, Done (Throw e))
      end
  end.

(** Two requests in flight on the event loop: the schedule says whose
    pending operation completes next ([true]: the first); when it is
    exhausted the first request is drained, then the second. *)
Fixpoint interleave (sched : list bool) (pA pB : prog) (db : Db)
  : Db * result Response * result Response :=
  match sched with
  | [] =>
      let '(db1, rA) := run pA db in
      let '(db2, rB) := run pB db1 in
      (db2, rA, rB)
  | true :: rest =>
      let '(db1, pA') := step pA db in interleave rest pA' pB db1
  | false :: rest =>
      let '(db1, pB') := step pB db in interleave rest pA pB' db1
  end.

End Storage.

End Async.

(** ** routes/auth.js *)

Module AuthRoutes.
Import Auth ErrorHandler Async.

Definition lower_char (c : ascii) : ascii :=
  if is_upper c then ascii_of_nat (nat_of_ascii c + 32) else c.

(** [s.toLowerCase()] on the ASCII range. *)
Fixpoint toLowerCase (s : string) : string :=
  match s with
  | EmptyString => EmptyString
  | String c r => String (lower_char c) (toLowerCase r)
  end.

(** [req.body[k]] read as a string.  The handlers are modelled on requests
    whose fields hold strings; a field that is absent or holds another kind
    of value reads as the empty string here, so a statement that depends on
    what a field holds says which string that is. *)
Definition field (k : string) (req : Request) : string :=
  match lookup k (body req) with
  | VStr s => s
  | _ => ""
  end.

(** An optional string field: [undefined] when absent. *)
Definition opt_field (k : string) (req : Request) : option string :=
  match lookup k (body req) with
  | VStr s => Some s
  | _ => None
  end.

(** [if (x) userData.x = x] *)
Definition keep_truthy (x : option string) : option string :=
  match x with
  | Some s => if truthy (VStr s) then Some s else None
  | None => None
  end.

Definition opt_value (x : option string) : value :=
  match x with
  | Some s => VStr s
  | None => VUndefined
  end.

(** Modelled from the spec: [toPublicJSON] of the [User] model, the public
    profile: the document without its secret field. *)
Definition toPublicJSON (u : UserDoc) : value :=
  VObj [("_id", VStr (_id u));
        ("username", VStr (username u));
        ("email", VStr (email u));
        ("firstName", opt_value (firstName u));
        ("lastName", opt_value (lastName u));
        ("role", VStr (role u));
        ("isActive", VBool (isActive u));
        ("lastLogin", opt_value (lastLogin u))].

Section Handlers.

Variable lib : JwtLib.
Variable cfg : Config.
Variable model : UserModel.
(** [validationResult(req).array()] of express-validator. *)
Variable validationResult : Request -> list value.
(** Clock readings: seconds for the token, ISO text for [new Date()]. *)
Variable now : Z.
Variable today : string.

Definition isEmpty (errors : list value) : bool :=
  match errors with
  | [] => true
  | _ => false
  end.

(** POST /api/auth/register: the handler, lines 45-99.  [req] is the
    request as the chains of lines 17-44 left it ([Chains.register_route]
    puts them in front). *)
Definition register (req : Request) : prog :=
  let errors' := validationResult req in
  if negb (isEmpty errors')
  then Done (Throw (AppError "Validation Error" 400 (VArr errors')))
  else
    let username' := field "username" req in
    let email' := field "email" req in
    let password' := field "password" req in
    let firstName' := opt_field "firstName" req in
    let lastName' := opt_field "lastName" req in
    let passwordValidation := validatePassword password' in
    if negb (isValid passwordValidation)
    then Done (Throw (AppError "Password does not meet requirements" 400
                               (VArr (map VStr (errors passwordValidation)))))
    else
      AwaitFindOne (ByEmailOrUsername (toLowerCase email') (toLowerCase username') false)
        (fun existingUser =>
           match existingUser with
           | Some existing =>
               let fld :=
                 if String.eqb (email existing) (toLowerCase email')
                 then "email" else "username" in
               Done (Throw (AppError "User already exists" 400
                              (VStr ("A user with this " ++ fld ++ " already exists"))))
           | None =>
               let userData :=
                 mkNewUser (toLowerCase username') (toLowerCase email') password'
                           (keep_truthy firstName') (keep_truthy lastName') in
               AwaitCreate userData
                 (fun user =>
                    match generateToken lib cfg now (identity_of_doc user) with
                    | Throw e => Done (Throw e)
                    | Ok token =>
                        let user := set_lastLogin (Some today) user in
                        AwaitSave user
                          (fun _ =>
                             Done (Ok (mkRes (VNum 201)
                                         (VObj [("message", VStr "User registered successfully");
                                                ("token", VStr token);
                                                ("user", toPublicJSON user)]))))
                    end)
           end).

(** The resumption points of [register]: after [User.findOne] and after
    [User.create]. *)
Definition register_after_create (user : UserDoc) : prog :=
  match generateToken lib cfg now (identity_of_doc user) with
  | Throw e => Done (Throw e)
  | Ok token =>
      let user := set_lastLogin (Some today) user in
      AwaitSave user
        (fun _ =>
           Done (Ok (mkRes (VNum 201)
                       (VObj [("message", VStr "User registered successfully");
                              ("token", VStr token);
                              ("user", toPublicJSON user)]))))
  end.

Definition register_after_lookup (req : Request) (existingUser : option UserDoc) : prog :=
  match existingUser with
  | Some existing =>
      let fld :=
        if String.eqb (email existing) (toLowerCase (field "email" req))
        then "email" else "username" in
      Done (Throw (AppError "User already exists" 400
                     (VStr ("A user with this " ++ fld ++ " already exists"))))
  | None =>
      AwaitCreate (mkNewUser (toLowerCase (field "username" req))
                             (toLowerCase (field "email" req))
                             (field "password" req)
                             (keep_truthy (opt_field "firstName" req))
                             (keep_truthy (opt_field "lastName" req)))
                  register_after_create
  end.

(** POST /api/auth/login: the handler, lines 116-160, on the request as the
    chains of lines 107-115 left it ([Chains.login_route]). *)
Definition login (req : Request) : prog :=
  let errors' := validationResult req in
  if negb (isEmpty errors')
  then Done (Throw (AppError "Validation Error" 400 (VArr errors')))
  else
    let login' := field "login" req in
    let password' := field "password" req in
    AwaitFindOne (ByEmailOrUsername (toLowerCase login') (toLowerCase login') true)
      (fun found =>
         match found with
         | None => Done (Throw (AppError "Invalid credentials" 401 (VStr "User not found")))
         | Some user =>
             if negb (isActive user)
             then Done (Throw (AppError "Account deactivated" 403
                                        (VStr "Your account has been deactivated")))
             else
               let isPasswordValid :=
                 match password user with
                 | Some hash => bcrypt_compare model password' hash
                 | None => false
                 end in
               if negb isPasswordValid
               then Done (Throw (AppError "Invalid credentials" 401 (VStr "Incorrect password")))
               else
                 match generateToken lib cfg now (identity_of_doc user) with
                 | Throw e => Done (Throw e)
                 | Ok token =>
                     let user := set_lastLogin (Some today) user in
                     AwaitSave user
                       (fun _ =>
                          Done (Ok (mkRes (VNum 200)
                                      (VObj [("message", VStr "Login successful");
                                             ("token", VStr token);
                                             ("user", toPublicJSON user)]))))
                 end
         end).

(** POST /api/auth/forgot-password: the reply is sent before the record is
    looked at; what follows only logs. *)
Definition forgot_password (req : Request) : prog :=
  let errors' := validationResult req in
  if negb (isEmpty errors')
  then Done (Throw (AppError "Validation Error" 400 (VArr errors')))
  else
    let email' := field "email" req in
    AwaitFindOne (ByEmail (toLowerCase email'))
      (fun found =>
         Done (Ok (mkRes (VNum 200)
                     (VObj [("message",
                             VStr "If an account with this email exists, a password reset link has been sent")])))).

End Handlers.

End AuthRoutes.

(** ** app.js: the middleware stack *)

Module App.
Import ErrorHandler Async.

(** A function handed to Express is told apart by its arity: three
    parameters make a request middleware, four an error middleware. *)
Inductive middleware : Type :=
| Plain (h : Request -> outcome)
| OnError (h : js_error -> Request -> result Response).

(** What [require] and the local bindings of app.js evaluate to. *)
Inductive jsarg : Type :=
| Undef
| Func (m : middleware)
| Path (p : string)
| Exports (fields : list (string * jsarg)).

(** [asyncHandler]: [Promise.resolve(fn(req, res, next)).catch(next)], once
    the promise has settled. *)
Definition settle (req : Request) (r : result Response) : outcome :=
  match r with
  | Ok res => Responded res
  | Throw e => NextErr e req
  end.

Definition asyncHandler (model : UserModel) (fn : Request -> prog)
    (req : Request) (db : Db) : Db * outcome :=
  let '(db', r) := run model (fn req) db in (db', settle req r).

(** [module.exports] of middleware/errorHandler.js. *)
Definition errorHandler_exports (node_env : option string) (now : string) : jsarg :=
  Exports [("errorHandler", Func (OnError (errorHandler node_env now)));
           ("asyncHandler", Exports []);
           ("AppError", Exports []);
           ("notFound", Func (Plain notFound))].

(** [const { name } = exports] *)
Fixpoint member (name : string) (fields : list (string * jsarg)) : jsarg :=
  match fields with
  | [] => Undef
  | (k, v) :: r => if String.eqb name k then v else member name r
  end.

Definition destructure (name : string) (exports : jsarg) : jsarg :=
  match exports with
  | Exports fields => member name fields
  | _ => Undef
  end.

Record layer : Type := mkLayer {
  mount : string;
  handle : middleware
}.

Fixpoint functions (mount_path : string) (args : list jsarg) : result (list layer) :=
  match args with
  | [] => Ok []
  | Func m :: r => ls <- functions mount_path r ;; Ok (mkLayer mount_path m :: ls)
  | _ :: _ => Throw (TypeError "Router.use() requires a middleware function but got a Object")
  end.

(** Express's [app.use(...)]: a first argument that is not a function is
    taken as the mount path, and at least one function must remain. *)
Definition app_use (args : list jsarg) : result (list layer) :=
  match args with
  | [] => Throw (TypeError "app.use() requires a middleware function")
  | Func m :: _ => functions "/" args
  | _ :: [] => Throw (TypeError "app.use() requires a middleware function")
  | Path p :: rest => functions p rest
  | _ :: rest => functions "/" rest
  end.

(** [app.get(path, handler)] *)
Definition app_get (p : string) (m : middleware) : result (list layer) :=
  Ok [mkLayer p m].

(** The 404 catch-all of app.js, lines 74-79. *)
Definition route_not_found (req : Request) : outcome :=
  Responded (mkRes (VNum 404)
               (VObj [("error", VStr "Route not found");
                      ("message", VStr ("Cannot " ++ method req ++ " " ++ originalUrl req))])).

Section Stack.

(** Third-party middleware and the routers. *)
Variables helmet limiter cors morgan json_parser urlencoded : middleware.
Variables authRoutes userRoutes postRoutes health root : middleware.
Variable node_env : option string.
Variable now : string.

Fixpoint script (calls : list (result (list layer))) : result (list layer) :=
  match calls with
  | [] => Ok []
  | call :: r => ls <- call ;; rest <- script r ;; Ok (ls ++ rest)%list
  end.

Definition logging : list (result (list layer)) :=
  if negb (env_is node_env "test") then [app_use [Func morgan]] else [].

(** Lines 13-79 with [errorHandler] standing for the binding of line 10. *)
Definition stack_with (errorHandler : jsarg) : result (list layer) :=
  script ([app_use [Func helmet]; app_use [Func limiter]; app_use [Func cors]] ++
          logging ++
          [app_use [Func json_parser];
           app_use [Func urlencoded];
           app_use [Path "/api/auth"; Func authRoutes];
           app_use [Path "/api/users"; Func userRoutes];
           app_use [Path "/api/posts"; Func postRoutes];
           app_get "/health" health;
           app_get "/" root;
           app_use [errorHandler];
           app_use [Path "*"; Func (Plain route_not_found)]])%list.

(** app.js as written: line 10 binds [errorHandler] to the whole exports
    object of the module, and line 71 hands that binding to [app.use]. *)
Definition app_js : result (list layer) :=
  let errorHandler := errorHandler_exports node_env now in
  stack_with errorHandler.

(** The same stack with the binding destructured, the way routes/auth.js and
    routes/posts.js import from that module. *)
Definition app_js_destructured : result (list layer) :=
  let errorHandler := destructure "errorHandler" (errorHandler_exports node_env now) in
  stack_with errorHandler.

End Stack.

(** Express's dispatch over the layers that follow the current one: after
    [next(err)] only error middleware is eligible. *)
Fixpoint on_error (stack : list layer) (err : js_error) (req : Request)
  : option (result Response) :=
  match stack with
  | [] => None
  | l :: rest =>
      match handle l with
      | OnError h => Some (h err req)
      | Plain _ => on_error rest err req
      end
  end.

Fixpoint dispatch (stack : list layer) (req : Request) : option (result Response) :=
  match stack with
  | [] => None
  | l :: rest =>
      match handle l with
      | OnError _ => dispatch rest req
      | Plain h =>
          match h req with
          | Responded res => Some (Ok res)
          | Next req' => dispatch rest req'
          | NextErr e req' => on_error rest e req'
          end
      end
  end.

(** What the layers after a route make of that route's outcome; [None] is
    Express's built-in final handler. *)
Definition continue_with (stack : list layer) (o : outcome) : option (result Response) :=
  match o with
  | Responded res => Some (Ok res)
  | Next req => dispatch stack req
  | NextErr e req => on_error stack e req
  end.

(** Lines 70-79 with the translator function itself mounted. *)
Definition tail (node_env : option string) (now : string) : list layer :=
  [mkLayer "/" (OnError (errorHandler node_env now));
   mkLayer "*" (Plain route_not_found)].

(** The client-visible result of an [asyncHandler]-wrapped route. *)
Definition serve (node_env : option string) (now : string) (model : UserModel)
    (fn : Request -> prog) (req : Request) (db : Db) : Db * option (result Response) :=
  let '(db', o) := asyncHandler model fn req db in
  (db', continue_with (tail node_env now) o).

(** Two registrations in flight, each answered through the tail. *)
Definition register_race (node_env : option string) (iso : string) (lib : JwtLib)
    (cfg : Config) (model : UserModel) (validationResult : Request -> list value)
    (now : Z) (today : string) (sched : list bool) (reqA reqB : Request) (db : Db)
  : option (result Response) * option (result Response) :=
  let handler := AuthRoutes.register lib cfg validationResult now today in
  let '(_, rA, rB) := interleave model sched (handler reqA) (handler reqB) db in
  (continue_with (tail node_env iso) (settle reqA rA),
   continue_with (tail node_env iso) (settle reqB rB)).

End App.

(** ** A reference implementation of the signing library

    Tokens are length-prefixed field lists followed by a keyed tag.  It is
    used to instantiate [JwtLib] on concrete inputs. *)

Module RefJwt.

Fixpoint ones (n : nat) : string :=
  match n with
  | O => EmptyString
  | S k => String "1" (ones k)
  end.

Definition put (s rest : string) : string :=
  ones (String.length s) ++ String "0" (s ++ rest).

Fixpoint count_ones (s : string) : nat * string :=
  match s with
  | EmptyString => (O, EmptyString)
  | String c r =>
      if Ascii.eqb c "1"
      then let '(n, t) := count_ones r in (S n, t)
      else (O, r)
  end.

Fixpoint split_at (n : nat) (s : string) : string * string :=
  match n, s with
  | S k, String c r => let '(a, b) := split_at k r in (String c a, b)
  | _, _ => (EmptyString, s)
  end.

Definition take (s : string) : string * string :=
  let '(n, t) := count_ones s in split_at n t.

Definition encode (c : Claims) (tag : string) : string :=
  put (match c_id c with Some _ => "S" | None => "N" end)
  (put (match c_id c with Some i => i | None => "" end)
  (put (c_username c)
  (put (c_email c)
  (put (c_role c)
  (put (c_iss c)
  (put (c_aud c)
  (put (BinaryString.of_Z (c_exp c))
  (put (BinaryString.of_Z (c_iat c))
  (put tag ""))))))))).

Definition decode (tok : string) : Claims * string :=
  let '(flag, r) := take tok in
  let '(i, r) := take r in
  let '(u, r) := take r in
  let '(e, r) := take r in
  let '(ro, r) := take r in
  let '(iss, r) := take r in
  let '(aud, r) := take r in
  let '(exp, r) := take r in
  let '(iat, r) := take r in
  let '(tag, _) := take r in
  (mkClaims (if String.eqb flag "S" then Some i else None) u e ro iss aud
            (BinaryString.to_Z exp) (BinaryString.to_Z iat), tag).

Definition mac (secret : string) (c : Claims) : string :=
  secret ++ "/" ++ encode c "".

Definition span (s : string) : option Z :=
  if String.eqb s "7d" then Some 604800%Z
  else if String.eqb s "1h" then Some 3600%Z
  else None.

Definition sign (p : Payload) (secret : string) (o : SignOptions) (t0 : Z) : result string :=
  match span (expiresIn o) with
  | None =>
      Throw (Error "expiresIn should be a number of seconds or string representing a timespan")
  | Some d =>
      let c := mkClaims (p_id p) (p_username p) (p_email p) (p_role p)
                        (s_issuer o) (s_audience o) (t0 + d) t0 in
      Ok (encode c (mac secret c))
  end.

Definition verify (tok secret : string) (o : VerifyOptions) (t1 : Z) : result Claims :=
  let '(c, tag) := decode tok in
  if negb (String.eqb tag (mac secret c))
  then Throw (mkError "JsonWebTokenError" "invalid signature")
  else if (c_exp c <=? t1)%Z
  then Throw (mkError "TokenExpiredError" "jwt expired")
  else if negb (String.eqb (c_aud c) (v_audience o))
  then Throw (mkError "JsonWebTokenError" "jwt audience invalid")
  else if negb (String.eqb (c_iss c) (v_issuer o))
  then Throw (mkError "JsonWebTokenError" "jwt issuer invalid")
  else Ok c.

Definition lib : JwtLib := mkJwtLib span sign verify.

End RefJwt.

(** ** The classification rules as a table *)

Module Taxonomy.
Import ErrorHandler.

(** One block of the translator: the signal it tests and what it assigns to
    [statusCode], [message] and [details]. *)
Record rule : Type := mkRule {
  signal : js_error -> bool;
  effect : js_error -> result triple
}.

Definition constant (c : js_error -> bool) (t : triple) : rule :=
  mkRule c (fun _ => Ok t).

(** The blocks of lines 19-100, in source order. *)
Definition rule_table : list rule :=
  [ constant (fun err => is_name err "CastError")
      (VNum 400, VStr "Invalid resource ID format",
       VStr "The provided ID is not a valid MongoDB ObjectId");
    mkRule (fun err => eq_num (lookup "code" err) 11000)
      (fun err =>
         keys <- Object_keys (lookup "keyValue" err) ;;
         let field := first_key keys in
         value <- get (lookup "keyValue" err) (to_js_string field) ;;
         Ok (VNum 400, VStr "Duplicate field value",
             VStr (to_js_string field ++ " '" ++ to_js_string value ++ "' already exists")));
    mkRule (fun err => is_name err "ValidationError")
      (fun err =>
         vals <- Object_values (lookup "errors" err) ;;
         errors <- mapM (fun val => get val "message") vals ;;
         Ok (VNum 400, VStr "Validation Error", VArr errors));
    constant (fun err => is_name err "JsonWebTokenError")
      (VNum 401, VStr "Invalid token", VStr "Please provide a valid authentication token");
    constant (fun err => is_name err "TokenExpiredError")
      (VNum 401, VStr "Token expired", VStr "Please log in again");
    mkRule (fun err => eq_str (lookup "type" err) "ValidationError" && truthy (lookup "errors" err))
      (fun err =>
         ds <- validator_details (lookup "errors" err) ;;
         Ok (VNum 400, VStr "Validation Error", ds));
    constant (fun err => is_code_str err "LIMIT_FILE_SIZE")
      (VNum 400, VStr "File too large", VStr "Please upload a smaller file");
    constant (fun err => is_code_str err "LIMIT_UNEXPECTED_FILE")
      (VNum 400, VStr "Unexpected file field",
       VStr "Please check the file upload field name");
    constant (fun err => is_name err "MongoNetworkError" || is_name err "MongoTimeoutError")
      (VNum 503, VStr "Database connection error", VStr "Service temporarily unavailable");
    constant (fun err => eq_num (lookup "status" err) 429)
      (VNum 429, VStr "Too many requests", VStr "Please try again later");
    mkRule (fun err => truthy (lookup "isOperational" err))
      (fun err =>
         Ok (js_or (lookup "statusCode" err) (VNum 400),
             lookup "message" err,
             js_or (lookup "details" err) VNull)) ].

(** Running the blocks one after the other over the three locals. *)
Fixpoint run_rules (rs : list rule) (err : js_error) (t : triple) : result triple :=
  match rs with
  | [] => Ok t
  | r :: rest =>
      t' <- (if signal r err then effect r err else Ok t) ;;
      run_rules rest err t'
  end.

Definition last_match (err : js_error) : option rule :=
  find (fun r => signal r err) (rev rule_table).

(** The reading under which the first matching rule decides. *)
Definition first_match (err : js_error) : option rule :=
  find (fun r => signal r err) rule_table.

Definition nullish (v : value) : bool :=
  match v with
  | VUndefined | VNull => true
  | _ => false
  end.

Definition all_objects (vs : list value) : bool :=
  forallb (fun v => negb (nullish v)) vs.

(** The shapes under which no block throws: a duplicate-key error carries
    [keyValue], a schema-validation error carries [errors] whose entries are
    objects, and express-validator results are an array of objects. *)
Definition shape_ok (err : js_error) : bool :=
  implb (eq_num (lookup "code" err) 11000) (negb (nullish (lookup "keyValue" err)))
  && implb (is_name err "ValidationError")
           (match Object_values (lookup "errors" err) with
            | Ok vals => all_objects vals
            | Throw _ => false
            end)
  && implb (eq_str (lookup "type" err) "ValidationError" && truthy (lookup "errors" err))
           (match lookup "errors" err with
            | VArr items => all_objects items
            | _ => false
            end).

(** An operational error whose [message] is [undefined] would leave the
    [error] field of the envelope undefined. *)
Definition has_message (err : js_error) : bool :=
  negb (truthy (lookup "isOperational" err)) || match lookup "message" err with VUndefined => false | _ => true end.

(** The status an error is answered with is one the response can be sent
    with: the blocks for the known kinds assign fixed codes, an operational
    error brings its own [statusCode] (400 when that is falsy), and Node
    must accept it. *)
Definition status_ok (err : js_error) : bool :=
  negb (truthy (lookup "isOperational" err))
  || valid_status (js_or (lookup "statusCode" err) (VNum 400)).

(** The five mandatory fields of the envelope. *)
Definition envelope_complete (body : value) : bool :=
  populated "error" body && populated "status" body && populated "timestamp" body
  && populated "path" body && populated "method" body.

Definition status_of (t : triple) : value := fst (fst t).
Definition message_of (t : triple) : value := snd (fst t).
Definition details_of (t : triple) : value := snd t.

End Taxonomy.

(** ** Two registrations racing for one email: states of the race *)

Module Race.
Import Auth ErrorHandler Async AuthRoutes.

(** The 201 reply of [register]. *)
Definition registered (token : string) (u : UserDoc) : Response :=
  mkRes (VNum 201)
        (VObj [("message", VStr "User registered successfully");
               ("token", VStr token);
               ("user", toPublicJSON u)]).

(** What the existence check of [register] throws for a taken email. *)
Definition conflict_error : js_error :=
  AppError "User already exists" 400 (VStr "A user with this email already exists").

Section States.

Variable lib : JwtLib.
Variable cfg : Config.
Variable validationResult : Request -> list value.
Variable now : Z.
Variable today : string.
(** The contested email and the two usernames, lower-cased. *)
Variables e uA uB : string.

(** A well-formed registration for the contested email. *)
Definition party (req : Request) : Prop :=
  validationResult req = [] /\
  isValid (validatePassword (field "password" req)) = true /\
  toLowerCase (field "email" req) = e /\
  (toLowerCase (field "username" req) = uA \/ toLowerCase (field "username" req) = uB).

(** The collection answers, and only holders of [e] use the two usernames. *)
Definition consistent (db : Db) : Prop :=
  down db = None /\
  forall d, In d (users db) -> username d = uA \/ username d = uB -> email d = e.

Definition fresh (db : Db) : Prop :=
  consistent db /\ existsb (fun u => String.eqb (email u) e) (users db) = false.

Definition taken (db : Db) : Prop :=
  consistent db /\ existsb (fun u => String.eqb (email u) e) (users db) = true.

(** Before its insertion: at the start, or past the existence check. *)
Definition early (req : Request) (p : prog) : Prop :=
  p = register lib cfg validationResult now today req \/
  p = register_after_lookup lib cfg now today req None.

(** Past a successful insertion. *)
Definition winner (p : prog) : Prop :=
  (exists u, email u = e /\ p = register_after_create lib cfg now today u) \/
  (exists token u, email u = e /\ p = Done (Ok (registered token u))).

Definition loser (req : Request) (p : prog) : Prop :=
  early req p \/
  p = Done (Throw conflict_error) \/
  p = Done (Throw (duplicate_key "email" e)).

Definition invariant (reqA reqB : Request) (pA pB : prog) (db : Db) : Prop :=
  (fresh db /\ early reqA pA /\ early reqB pB) \/
  (taken db /\ winner pA /\ loser reqB pB) \/
  (taken db /\ loser reqA pA /\ winner pB).

Definition won (r : result Response) : Prop :=
  exists token u, email u = e /\ r = Ok (registered token u).

Definition lost (r : result Response) : Prop :=
  r = Throw conflict_error \/ r = Throw (duplicate_key "email" e).

Definition decided (x : Db * result Response * result Response) : Prop :=
  (won (snd (fst x)) /\ lost (snd x)) \/ (lost (snd (fst x)) /\ won (snd x)).

End States.

End Race.

(** ** The readings of the specification that are compared with the code *)

Module Stated.
Import ErrorHandler Taxonomy Gates.


(** "The first rule whose signal matches determines the field's value":
    status and message are those of the first matching block. *)
Definition first_match_decides : Prop :=
  forall err t r t1,
    classify err = Ok t ->
    first_match err = Some r ->
    effect r err = Ok t1 ->
    status_of t = status_of t1 /\ message_of t = message_of t1.

(** "Every failure path produces an envelope with all non-optional fields
    populated", read on the halting responses of the require-auth gate. *)
Definition gate_sends_envelope : Prop :=
  forall lib cfg db now req res,
    auth lib cfg db now req = Responded res ->
    envelope_complete (json res) = true.

(** A malformed-identifier error that also carries the
    rate limiter's status. *)
Definition cast_and_rate_limited : js_error :=
  [("name", VStr "CastError"); ("message", VStr "Cast to ObjectId failed");
   ("status", VNum 429)].

(** A registration answered with 201, a token and the public profile of a
    user holding [e]. *)
Definition created (e : string) (r : option (result Response)) : Prop :=
  exists token u,
    email u = e /\
    r = Some (Ok (mkRes (VNum 201)
                    (VObj [("message", VStr "User registered successfully");
                           ("token", VStr token);
                           ("user", AuthRoutes.toPublicJSON u)]))).

(** A request answered with the given status, error and details. *)
Definition rejected_with (code : Z) (error details : string)
    (r : option (result Response)) : Prop :=
  exists res,
    r = Some (Ok res) /\
    status res = VNum code /\
    get (json res) "error" = Ok (VStr error) /\
    get (json res) "details" = Ok (VStr details).

(** A registration answered with 400 and the given error and details. *)
Definition rejected (error details : string) (r : option (result Response)) : Prop :=
  rejected_with 400 error details r.

(** Sample inputs. *)
Definition sample_config : Config :=
  mkConfig "fallback-secret-key-for-testing" "7d" (Some "production").

Definition empty_db : Db := mkDb [] None.

Definition sample_model : Async.UserModel :=
  Async.mkUserModel (fun pw => "h:" ++ pw)
                    (fun candidate hash => String.eqb ("h:" ++ candidate) hash)
                    (fun docs => "id" ++ index_string (List.length docs)).

Definition no_validation_errors (req : Request) : list value := [].

Definition register_request (name mail : string) : Request :=
  mkReq "POST" "/api/auth/register" None []
        [("username", VStr name); ("email", VStr mail); ("password", VStr "Passw0rd")]
        None VUndefined.

Definition login_request (who pw : string) : Request :=
  mkReq "POST" "/api/auth/login" None []
        [("login", VStr who); ("password", VStr pw)] None VUndefined.

(** A collection holding one account, [carol] with password "Passw0rd". *)
Definition carol : UserDoc :=
  mkUser "id0" "carol" "carol@example.com" (Some "h:Passw0rd") "user" true None None None.

Definition carol_db : Db := mkDb [carol] None.

Definition sample_race (sched : list bool)
  : option (result Response) * option (result Response) :=
  App.register_race (Some "production") "2025-01-01T00:00:00.000Z" RefJwt.lib
    sample_config sample_model no_validation_errors 0 "2025-01-01"
    sched (register_request "dave" "d@example.com")
    (register_request "dan" "D@example.com") empty_db.

(** "The other receives 400 with message 'User already exists'", whichever
    way the two requests interleave. *)
Definition race_loser_told_user_already_exists : Prop :=
  forall sched,
    (created "d@example.com" (fst (sample_race sched)) /\
     rejected "User already exists" "A user with this email already exists"
              (snd (sample_race sched))) \/
    (created "d@example.com" (snd (sample_race sched)) /\
     rejected "User already exists" "A user with this email already exists"
              (fst (sample_race sched))).

Definition alice : UserDoc :=
  mkUser "64b7f0c2a1" "alice" "alice@example.com" (Some "$2a$10$hash") "user" true
         (Some "Alice") None None.

Definition dormant : UserDoc :=
  mkUser "64b7f0c2a2" "bob" "bob@example.com" (Some "$2a$10$hash") "user" false
         None None None.

Definition sample_db : Db := mkDb [alice; dormant] None.

(** The token issued to [alice] at time 0 by the reference library. *)
Definition alice_token : string :=
  match Auth.generateToken RefJwt.lib sample_config 0 (Auth.identity_of_doc alice) with
  | Ok tok => tok
  | Throw _ => ""
  end.

Definition dormant_token : string :=
  match Auth.generateToken RefJwt.lib sample_config 0 (Auth.identity_of_doc dormant) with
  | Ok tok => tok
  | Throw _ => ""
  end.

Definition bearer (tok : string) : Request :=
  mkReq "GET" "/api/users/me" (Some ("Bearer " ++ tok)) [] [] None VUndefined.

Definition with_header (h : option string) : Request :=
  mkReq "GET" "/" h [] [] None VUndefined.

(** A request whose credential header uses another scheme. *)
Definition basic_auth_request : Request :=
  mkReq "GET" "/api/posts" (Some "Basic dXNlcjpwdw==") [] [] None VUndefined.

(** [GET /api/users/:id] as seen by [requireOwnership('id', 'userId')]. *)
Definition own_profile : Request :=
  mkReq "GET" "/api/users/64b7f0c2a1" None [("id", "64b7f0c2a1")] []
        (Some (set_password None alice)) VUndefined.

Definition anonymous_post : Request :=
  mkReq "POST" "/api/posts" None [] [("title", VStr "Four")] None VUndefined.

End Stated.

(** ** Route chains *)

Module Pipeline.

(** The middleware listed in front of a route handler ([router.get(path,
    [auth, requireAdmin], handler)]): each runs on the request context the
    previous one passed on, and the first that does not call [next()] ends
    the chain. *)
Fixpoint chain (gates : list (Request -> outcome)) (req : Request) : outcome :=
  match gates with
  | [] => Next req
  | g :: rest =>
      match g req with
      | Next req' => chain rest req'
      | halted => halted
      end
  end.

End Pipeline.

(** Further sample inputs. *)

Module Samples.
Import ErrorHandler Stated.

(** An application error that also looks like an upload and a cast failure. *)
Definition mixed_operational : js_error :=
  [("name", VStr "CastError"); ("code", VStr "LIMIT_FILE_SIZE");
   ("message", VStr "Quota exceeded"); ("statusCode", VNum 413);
   ("isOperational", VBool true)].

(** An application error whose status is an object with a [toString] key of
    its own. *)
Definition opaque_status : js_error :=
  [("name", VStr "Error"); ("message", VStr "odd");
   ("statusCode", VObj [("toString", VNull)]); ("isOperational", VBool true)].

(** A uniqueness violation that lost its [keyValue]. *)
Definition bare_duplicate : js_error :=
  [("name", VStr "MongoServerError"); ("message", VStr "E11000"); ("code", VNum 11000)].

Definition traced_request : Request :=
  mkReq "GET" "/api/posts/xyz" None [("id", "xyz")] [] None (VStr "req-42").

Definition outage : js_error := mkError "MongoNetworkError" "connection refused".

Definition unreachable_db : Db := mkDb [alice; dormant] (Some outage).

Definition root : UserDoc :=
  mkUser "64b7f0c2a0" "root" "root@example.com" (Some "$2a$10$hash") "admin" true
         None None None.

Definition staffed_db : Db := mkDb [root; alice; dormant] None.

Definition root_token : string :=
  match Auth.generateToken RefJwt.lib sample_config 0 (Auth.identity_of_doc root) with
  | Ok tok => tok
  | Throw _ => ""
  end.

(** [GET /api/users/:id] carrying a credential. *)
Definition profile_request (id tok : string) : Request :=
  mkReq "GET" ("/api/users/" ++ id) (Some ("Bearer " ++ tok)) [("id", id)] []
        None VUndefined.

End Samples.

(** ** utils/auth.js: password strength *)

Module Strength.
Import Auth.

(** The character class of [hasSpecialChar]: the twenty punctuation marks
    listed in the source, the double quote among them. *)
Definition is_special (c : ascii) : bool :=
  existsb (Ascii.eqb c)
    ["!"; "@"; "#"; "$"; "%"; "^"; "&"; "*"; "("; ")"; ","; "."; "?";
     ascii_of_nat 34; ":"; "{"; "}"; "|"; "<"; ">"]%char.

(** [.] matches every character but a line terminator. *)
Definition dot (c : ascii) : bool :=
  negb (Ascii.eqb c (ascii_of_nat 10) || Ascii.eqb c (ascii_of_nat 13)).

(** [/(.)\1{2,}/.test(s)]: some character three times in a row. *)
Fixpoint has_repeat (s : string) : bool :=
  match s with
  | EmptyString => false
  | String a t =>
      match t with
      | String b (String c _) => (dot a && Ascii.eqb a b && Ascii.eqb b c) || has_repeat t
      | _ => false
      end
  end.

(** [s.includes(pat)] *)
Fixpoint contains (pat s : string) : bool :=
  prefix pat s ||
  match s with
  | EmptyString => false
  | String _ r => contains pat r
  end.

(** [/123|abc|qwe/i.test(s)] *)
Definition has_common_sequence (s : string) : bool :=
  let l := AuthRoutes.toLowerCase s in
  contains "123" l || contains "abc" l || contains "qwe" l.

Definition point (b : bool) : nat := if b then 1 else 0.

(** The local [score] of [calculatePasswordStrength]. *)
Definition score (password : string) : nat :=
  (* Length *)
  point (8 <=? String.length password)%nat
  + point (12 <=? String.length password)%nat
  (* Character variety *)
  + point (test_class is_lower password)
  + point (test_class is_upper password)
  + point (test_class is_digit password)
  + point (test_class is_special password)
  (* Patterns *)
  + point (negb (has_repeat password))
  + point (negb (has_common_sequence password)).

Definition calculatePasswordStrength (password : string) : string :=
  if (score password <? 3)%nat then "weak"
  else if (score password <? 6)%nat then "medium"
  else "strong".

End Strength.

(** ** Derived notions used in the statements *)

Module Derived.
Import Async AuthRoutes.

(** The account [register] hands to [User.create] for a request, as the
    collection stores it. *)
Definition inserted (model : UserModel) (req : Request) (db : Db) : UserDoc :=
  mkUser (new_id model (users db)) (toLowerCase (field "username" req))
         (toLowerCase (field "email" req))
         (Some (bcrypt_hash model (field "password" req))) "user" true
         (keep_truthy (opt_field "firstName" req))
         (keep_truthy (opt_field "lastName" req)) None.

End Derived.

(** ** routes/auth.js: the validator chains in front of the handlers

    A handler sees the request as the [express-validator] chain of its
    route left it.  The package is not part of the sources at hand: its two
    sanitisers are kept as a record, each giving what a field holds after
    it ran. *)

Module Chains.
Import Auth AuthRoutes Async.

Record Sanitisers : Type := mkSanitisers {
  trim : value -> value;
  normalizeEmail : value -> value
}.

(** [obj[k] = v] *)
Fixpoint set_field (k : string) (v : value) (props : list (string * value))
  : list (string * value) :=
  match props with
  | [] => [(k, v)]
  | (k', v') :: r =>
      if String.eqb k k' then (k, v) :: r else (k', v') :: set_field k v r
  end.

Definition with_body (b : list (string * value)) (req : Request) : Request :=
  mkReq (method req) (originalUrl req) (authorization req) (params req) b
        (user req) (requestId req).

(** The sanitisers of one chain, composed into [f], rewrite the field the
    chain is declared for; a field that was and stays [undefined] is not
    written. *)
Definition sanitise (k : string) (f : value -> value) (req : Request) : Request :=
  match lookup k (body req), f (lookup k (body req)) with
  | VUndefined, VUndefined => req
  | _, v => with_body (set_field k v (body req)) req
  end.

(** [.optional()]: the rest of the chain is skipped for an [undefined]
    field. *)
Definition optional (f : value -> value) (v : value) : value :=
  match v with
  | VUndefined => VUndefined
  | _ => f v
  end.

Section Routes.

Variable san : Sanitisers.

(** Lines 17-44: the chains of POST /register; [password] has no
    sanitiser. *)
Definition register_chain (req : Request) : Request :=
  let req := sanitise "username" (trim san) req in
  let req := sanitise "email" (fun v => normalizeEmail san (trim san v)) req in
  let req := sanitise "firstName" (optional (trim san)) req in
  sanitise "lastName" (optional (trim san)) req.

(** Lines 107-115: the chains of POST /login. *)
Definition login_chain (req : Request) : Request :=
  sanitise "login" (trim san) req.

Variable lib : JwtLib.
Variable cfg : Config.
Variable model : UserModel.
(** The errors the chains recorded for a request as it arrived. *)
Variable chain_errors : Request -> list value.
Variable now : Z.
Variable today : string.

(** POST /api/auth/register: the chains, then the handler. *)
Definition register_route (raw : Request) : prog :=
  register lib cfg (fun _ => chain_errors raw) now today (register_chain raw).

(** POST /api/auth/login: the chains, then the handler. *)
Definition login_route (raw : Request) : prog :=
  login lib cfg model (fun _ => chain_errors raw) now today (login_chain raw).

End Routes.

(** A reference instance of the sanitisers, in the manner of validator.js
    with its default options: [trim] strips the blanks around the text of
    the field, [normalizeEmail] lowercases an address and drops the dots of
    a gmail.com local part. *)
Module Reference.

Definition text (v : value) : string :=
  match v with
  | VUndefined | VNull => ""
  | _ => to_js_string v
  end.

Fixpoint before_at (s : string) : string :=
  match s with
  | EmptyString => EmptyString
  | String c r => if Ascii.eqb c "@" then EmptyString else String c (before_at r)
  end.

Fixpoint from_at (s : string) : string :=
  match s with
  | EmptyString => EmptyString
  | String c r => if Ascii.eqb c "@" then s else from_at r
  end.

Fixpoint without_dots (s : string) : string :=
  match s with
  | EmptyString => EmptyString
  | String c r => if Ascii.eqb c "." then without_dots r else String c (without_dots r)
  end.

Definition normalise (address : string) : string :=
  let a := toLowerCase address in
  if String.eqb (from_at a) "@gmail.com"
  then without_dots (before_at a) ++ from_at a
  else a.

Definition lib : Sanitisers :=
  mkSanitisers (fun v => VStr (trim_blanks (text v)))
               (fun v => VStr (normalise (text v))).

End Reference.

End Chains.

(** ** models/Post.js and models/Category.js *)

Module PostModel.
Import Auth.

(** *** The slug of a title or category name *)

Definition is_word (c : ascii) : bool :=
  is_lower c || is_upper c || is_digit c || Ascii.eqb c "_".

(** [\s] on the ASCII range: tab, line feed, vertical tab, form feed,
    carriage return, space. *)
Definition is_space (c : ascii) : bool :=
  ((9 <=? nat_of_ascii c)%nat && (nat_of_ascii c <=? 13)%nat)
  || Ascii.eqb c " ".

Definition is_hyphen (c : ascii) : bool := Ascii.eqb c "-".

Fixpoint trimStart (s : string) : string :=
  match s with
  | EmptyString => EmptyString
  | String c r => if is_space c then trimStart r else s
  end.

(** Dropping the trailing run of characters of class [p]. *)
Fixpoint dropEnd (p : ascii -> bool) (s : string) : string :=
  match s with
  | EmptyString => EmptyString
  | String c r =>
      match dropEnd p r with
      | EmptyString => if p c then EmptyString else String c EmptyString
      | r' => String c r'
      end
  end.

(** [s.trim()] *)
Definition trim (s : string) : string := dropEnd is_space (trimStart s).

(** [s.replace(/[^\w\s-]/g, '')] *)
Fixpoint removeSpecial (s : string) : string :=
  match s with
  | EmptyString => EmptyString
  | String c r =>
      if is_word c || is_space c || is_hyphen c
      then String c (removeSpecial r)
      else removeSpecial r
  end.

Definition is_separator (c : ascii) : bool :=
  is_space c || Ascii.eqb c "_" || is_hyphen c.

(** [s.replace(/[\s_-]+/g, '-')]: [inRun] tells that the run containing the
    previous character has been replaced already. *)
Fixpoint hyphenate (inRun : bool) (s : string) : string :=
  match s with
  | EmptyString => EmptyString
  | String c r =>
      if is_separator c
      then if inRun then hyphenate true r else String "-" (hyphenate true r)
      else String c (hyphenate false r)
  end.

Fixpoint dropStart (p : ascii -> bool) (s : string) : string :=
  match s with
  | EmptyString => EmptyString
  | String c r => if p c then dropStart p r else s
  end.

(** [s.replace(/^-+|-+$/g, '')] *)
Definition trimHyphens (s : string) : string :=
  dropEnd is_hyphen (dropStart is_hyphen s).

(** The slug computed by the [pre('save')] hook of posts and categories. *)
Definition slugify (title : string) : string :=
  trimHyphens (hyphenate false (removeSpecial (trim (AuthRoutes.toLowerCase title)))).

(** *** The excerpt of a post *)

Fixpoint has_gt (s : string) : bool :=
  match s with
  | EmptyString => false
  | String c r => Ascii.eqb c ">" || has_gt r
  end.

(** [s.replace(/<[^>]*>/g, '')]: [inTag] tells that an opening [<] with a
    closing [>] ahead has been met. *)
Fixpoint stripTags (inTag : bool) (s : string) : string :=
  match s with
  | EmptyString => EmptyString
  | String c r =>
      if inTag
      then if Ascii.eqb c ">" then stripTags false r else stripTags true r
      else if Ascii.eqb c "<" && has_gt r
      then stripTags true r
      else String c (stripTags false r)
  end.

(** The excerpt hook: [if (!this.excerpt && this.content)]. *)
Definition generateExcerpt (excerpt : option string) (content : string) : option string :=
  if negb (truthy (match excerpt with Some e => VStr e | None => VUndefined end))
     && truthy (VStr content)
  then
    let plainText := stripTags false content in
    Some (substring 0 150 plainText
          ++ (if (150 <? String.length plainText)%nat then "..." else ""))
  else excerpt.

(** *** Documents and instance methods *)

Record Like : Type := mkLike {
  like_user : string;
  likedAt : string
}.

Record PostDoc : Type := mkPost {
  post_id : string;
  title : string;
  content : string;
  excerpt : option string;
  slug : option string;
  author : string;
  category : string;
  post_status : string;
  views : Z;
  likes : list Like;
  publishedAt : option string
}.

Definition with_likes (ls : list Like) (p : PostDoc) : PostDoc :=
  mkPost (post_id p) (title p) (content p) (excerpt p) (slug p) (author p)
         (category p) (post_status p) (views p) ls (publishedAt p).

Definition with_views (v : Z) (p : PostDoc) : PostDoc :=
  mkPost (post_id p) (title p) (content p) (excerpt p) (slug p) (author p)
         (category p) (post_status p) v (likes p) (publishedAt p).

Definition with_excerpt (e : option string) (p : PostDoc) : PostDoc :=
  mkPost (post_id p) (title p) (content p) e (slug p) (author p)
         (category p) (post_status p) (views p) (likes p) (publishedAt p).

(** The three [pre('save')] hooks for a save that modified neither the
    title nor the status (the saves of [incrementViews] and [toggleLike]):
    only the excerpt hook can act. *)
Definition preSave (p : PostDoc) : PostDoc :=
  with_excerpt (generateExcerpt (excerpt p) (content p)) p.

(** The virtual [likeCount]. *)
Definition likeCount (p : PostDoc) : Z := Z.of_nat (List.length (likes p)).

(** [likes.some(like => like.user.toString() === userId.toString())] *)
Definition likedBy (userId : string) (p : PostDoc) : bool :=
  existsb (fun like => String.eqb (like_user like) userId) (likes p).

(** The [views += 1] of [incrementViews]. *)
Definition viewed (p : PostDoc) : PostDoc := with_views (views p + 1) p.

(** The change [toggleLike(userId)] makes to [likes]; [now] is the
    [likedAt] default. *)
Definition toggled (now : string) (userId : string) (p : PostDoc) : PostDoc :=
  let existingLike := find (fun like => String.eqb (like_user like) userId) (likes p) in
  match existingLike with
  | Some _ =>
      with_likes (filter (fun like => negb (String.eqb (like_user like) userId))
                         (likes p)) p
  | None => with_likes (likes p ++ [mkLike userId now]) p
  end.

(** The document a successful [incrementViews] leaves: the change, then the
    hooks of the save. *)
Definition incrementViews (p : PostDoc) : PostDoc := preSave (viewed p).

(** The document a successful [toggleLike(userId)] leaves: the change, then
    the hooks of the save. *)
Definition toggleLike (now : string) (userId : string) (p : PostDoc) : PostDoc :=
  preSave (toggled now userId p).

(** *** Saving a loaded document

    [save] first validates every path of the document against the schema of
    lines 3-73, and only then runs the hooks and writes. *)

Record Failure : Type := mkFailure {
  path : string;
  kind : string;
  held : value;
  message : string
}.

Definition is_status (s : string) : bool :=
  String.eqb s "draft" || String.eqb s "published" || String.eqb s "archived".

(** The first validator that fails on each path, the paths in schema
    order. *)
Definition validate (p : PostDoc) : list Failure :=
  (if String.eqb (title p) ""
   then [mkFailure "title" "required" (VStr (title p)) "Title is required"]
   else if (String.length (title p) <? 5)%nat
   then [mkFailure "title" "minlength" (VStr (title p))
                   "Title must be at least 5 characters long"]
   else if (200 <? String.length (title p))%nat
   then [mkFailure "title" "maxlength" (VStr (title p))
                   "Title cannot exceed 200 characters"]
   else [])
  ++ (if String.eqb (content p) ""
      then [mkFailure "content" "required" (VStr (content p)) "Content is required"]
      else if (String.length (content p) <? 10)%nat
      then [mkFailure "content" "minlength" (VStr (content p))
                      "Content must be at least 10 characters long"]
      else [])
  ++ (match excerpt p with
      | Some e =>
          if (500 <? String.length e)%nat
          then [mkFailure "excerpt" "maxlength" (VStr e)
                          "Excerpt cannot exceed 500 characters"]
          else []
      | None => []
      end)
  ++ (if is_status (post_status p) then []
      else [mkFailure "status" "enum" (VStr (post_status p))
                      ("`" ++ post_status p
                       ++ "` is not a valid enum value for path `status`.")])
  ++ (if (views p <? 0)%Z
      then [mkFailure "views" "min" (VNum (views p))
                      ("Path `views` (" ++ to_js_string (VNum (views p))
                       ++ ") is less than minimum allowed value (0).")]
      else []).

(** Mongoose's ValidationError for a post. *)
Definition ValidationError (failures : list Failure) : js_error :=
  [("name", VStr "ValidationError");
   ("message",
    VStr ("Post validation failed: "
          ++ join ", " (map (fun f => path f ++ ": " ++ message f) failures)));
   ("errors",
    VObj (map (fun f => (path f,
                         VObj [("name", VStr "ValidatorError");
                               ("message", VStr (message f));
                               ("kind", VStr (kind f));
                               ("path", VStr (path f));
                               ("value", held f)]))
              failures));
   ("_message", VStr "Post validation failed")].

(** [this.save()] up to the write: the document as it is written, or the
    rejection of the validation. *)
Definition save (p : PostDoc) : result PostDoc :=
  match validate p with
  | [] => Ok (preSave p)
  | failures => Throw (ValidationError failures)
  end.

End PostModel.

(** Shapes of strings used in the statements about slugs and excerpts. *)

Module Shapes.
Import Auth PostModel.

Fixpoint all_chars (p : ascii -> bool) (s : string) : bool :=
  match s with
  | EmptyString => true
  | String c r => p c && all_chars p r
  end.

Definition starts_with (p : ascii -> bool) (s : string) : bool :=
  match s with
  | EmptyString => false
  | String c _ => p c
  end.

Fixpoint ends_with (p : ascii -> bool) (s : string) : bool :=
  match s with
  | EmptyString => false
  | String c EmptyString => p c
  | String _ r => ends_with p r
  end.

(** No two hyphens in a row. *)
Fixpoint no_double_hyphen (s : string) : bool :=
  match s with
  | EmptyString => true
  | String c r => negb (is_hyphen c && starts_with is_hyphen r) && no_double_hyphen r
  end.

(** Lowercase letters, digits and hyphens. *)
Definition slug_char (c : ascii) : bool := is_lower c || is_digit c || is_hyphen c.

(** A string in slug form: words of lowercase letters and digits joined by
    single hyphens. *)
Definition slug_form (s : string) : bool :=
  all_chars slug_char s && no_double_hyphen s
  && negb (starts_with is_hyphen s) && negb (ends_with is_hyphen s).

(** No [<] with a [>] somewhere after it. *)
Fixpoint tag_free (s : string) : bool :=
  match s with
  | EmptyString => true
  | String c r => negb (Ascii.eqb c "<" && has_gt r) && tag_free r
  end.

End Shapes.

(** ** Pagination of the list routes (routes/posts.js, routes/users.js) *)

Module Paging.

(** [Math.ceil(a / b)] on non-negative counts and a positive page size. *)
Definition ceil_div (a b : Z) : Z := (- ((- a) / b))%Z.

Record Pagination : Type := mkPagination {
  current : Z;
  total : Z;
  hasNext : bool;
  hasPrev : bool;
  limit : Z;
  totalItems : Z
}.

(** [(parseInt(page) - 1) * parseInt(limit)] *)
Definition skip (page limit : Z) : Z := ((page - 1) * limit)%Z.

(** The [pagination] object of the reply, from the parsed [page] and
    [limit] and the count of matching documents. *)
Definition paginate (page limit totalCount : Z) : Pagination :=
  let totalPages := ceil_div totalCount limit in
  let hasNextPage := (page <? totalPages)%Z in
  let hasPrevPage := (1 <? page)%Z in
  mkPagination page totalPages hasNextPage hasPrevPage limit totalCount.

(** [.skip(skip).limit(limit)] on the sorted matches. *)
Definition window {A} (page limit : Z) (matches : list A) : list A :=
  firstn (Z.to_nat limit) (skipn (Z.to_nat (skip page limit)) matches).

End Paging.

(** ** Handlers over posts and accounts *)

Module Blog.
Import Auth Gates ErrorHandler Async AuthRoutes App PostModel.

Record Store : Type := mkStore {
  accounts : Db;
  posts : list PostDoc
}.

(** A handler body over a store: the state after it and what it returned
    or threw. *)
Definition M (S A : Type) : Type := S -> S * result A.

Definition ret {S A} (a : A) : M S A := fun s => (s, Ok a).

Definition throw {S A} (e : js_error) : M S A := fun s => (s, Throw e).

Definition mbind {S A B} (m : M S A) (k : A -> M S B) : M S B :=
  fun s =>
    match m s with
    | (s', Ok a) => k a s'
    | (s', Throw e) => (s', Throw e)
    end.

Notation "x <~ m ;; k" := (mbind m (fun x => k))
  (at level 61, m at next level, right associativity).

(** The rejection Mongoose raises, before it queries, for an identifier it
    cannot cast. *)
Definition CastError (id : string) : js_error :=
  [("name", VStr "CastError");
   ("message", VStr ("Cast to ObjectId failed for value " ++ id));
   ("kind", VStr "ObjectId"); ("path", VStr "_id"); ("value", VStr id)].

Fixpoint remove_first {A} (p : A -> bool) (l : list A) : list A :=
  match l with
  | [] => []
  | x :: r => if p x then r else x :: remove_first p r
  end.

Section Storage.

(** The identifier format of the storage layer (what casts to an ObjectId). *)
Variable valid_id : string -> bool.

Definition has_id (id : string) (p : PostDoc) : bool := String.eqb (post_id p) id.

(** [Post.findById(id)] *)
Definition Post_findById (id : option string) : M Store (option PostDoc) :=
  fun s =>
    match id with
    | None => (s, Ok None)
    | Some i =>
        if valid_id i
        then
          match down (accounts s) with
          | Some e => (s, Throw e)
          | None => (s, Ok (find (has_id i) (posts s)))
          end
        else (s, Throw (CastError i))
    end.

(** [post.save()] on a loaded post that was changed to [changed]: the
    validation and the hooks of [PostModel.save], then the write; the
    document as written is handed back. *)
Definition Post_save (changed : PostDoc) : M Store PostDoc :=
  fun s =>
    match save changed with
    | Throw e => (s, Throw e)
    | Ok p =>
        match down (accounts s) with
        | Some e => (s, Throw e)
        | None =>
            (mkStore (accounts s)
                     (map (fun d => if has_id (post_id p) d then p else d) (posts s)),
             Ok p)
        end
    end.

(** [Post.findByIdAndDelete(id)] *)
Definition Post_findByIdAndDelete (id : option string) : M Store unit :=
  fun s =>
    match id with
    | None => (s, Ok tt)
    | Some i =>
        if valid_id i
        then
          match down (accounts s) with
          | Some e => (s, Throw e)
          | None => (mkStore (accounts s) (remove_first (has_id i) (posts s)), Ok tt)
          end
        else (s, Throw (CastError i))
    end.

(** [.populate('author', ...)]: the author's account, or [null] when it is
    gone. *)
Definition populate_author (p : PostDoc) : M Store (option UserDoc) :=
  fun s => (s, Ok (find (fun u => String.eqb (_id u) (author p)) (users (accounts s)))).

(** [post.author._id.toString()] on a populated post. *)
Definition author_id (populated : option UserDoc) : result string :=
  match populated with
  | Some u => Ok (_id u)
  | None => Throw (TypeError "Cannot read properties of null (reading '_id')")
  end.

Definition lift {S A} (r : result A) : M S A := fun s => (s, r).

(** [req.user] where the handler reads [req.user.role] or [req.user._id]:
    behind a gate that attached the identity. *)
Definition caller (req : Request) : result UserDoc :=
  match user req with
  | Some u => Ok u
  | None => Throw (TypeError "Cannot read properties of undefined")
  end.

(** How the serialised post of a reply looks (Mongoose's [toJSON]). *)
Variable render : PostDoc -> value.

(** GET /api/posts/:id (behind [optionalAuth]) *)
Definition getPost (req : Request) : M Store Response :=
  found <~ Post_findById (param "id" (params req)) ;;
  match found with
  | None => throw (AppError "Post not found" 404 VNull)
  | Some post =>
      populated <~ populate_author post ;;
      (* Check if user can view this post *)
      hidden <~ (if negb (String.eqb (post_status post) "published")
                 then
                   match user req with
                   | None => ret true
                   | Some u =>
                       if negb (String.eqb (role u) "admin")
                       then a <~ lift (author_id populated) ;;
                            ret (negb (String.eqb a (_id u)))
                       else ret false
                   end
                 else ret false) ;;
      if (hidden : bool)
      then throw (AppError "Post not found" 404 VNull)
      else
        (* Increment views *)
        counts <~ (if String.eqb (post_status post) "published"
                   then
                     match user req with
                     | None => ret true
                     | Some u =>
                         a <~ lift (author_id populated) ;;
                         ret (negb (String.eqb a (_id u)))
                     end
                   else ret false) ;;
        post <~ (if (counts : bool)
                 then Post_save (viewed post)
                 else ret post) ;;
        ret (mkRes (VNum 200) (VObj [("post", render post)]))
  end.

(** DELETE /api/posts/:id (behind [auth]) *)
Definition deletePost (req : Request) : M Store Response :=
  found <~ Post_findById (param "id" (params req)) ;;
  match found with
  | None => throw (AppError "Post not found" 404 VNull)
  | Some post =>
      u <~ lift (caller req) ;;
      if negb (String.eqb (role u) "admin") && negb (String.eqb (author post) (_id u))
      then throw (AppError "Access denied" 403 (VStr "You can only delete your own posts"))
      else
        _ <~ Post_findByIdAndDelete (param "id" (params req)) ;;
        ret (mkRes (VNum 200) (VObj [("message", VStr "Post deleted successfully")]))
  end.

(** POST /api/posts/:id/like (behind [auth]); [today] is [Date.now]. *)
Definition likePost (today : string) (req : Request) : M Store Response :=
  found <~ Post_findById (param "id" (params req)) ;;
  match found with
  | None => throw (AppError "Post not found" 404 VNull)
  | Some post =>
      if negb (String.eqb (post_status post) "published")
      then throw (AppError "Cannot like unpublished post" 400 VNull)
      else
        u <~ lift (caller req) ;;
        post <~ Post_save (toggled today (_id u) post) ;;
        let isLiked := likedBy (_id u) post in
        ret (mkRes (VNum 200)
               (VObj [("message", VStr (if isLiked then "Post liked" else "Post unliked"));
                      ("likeCount", VNum (likeCount post));
                      ("isLiked", VBool isLiked)]))
  end.

(** [User.findById(id)] with the cast of the identifier. *)
Definition Users_findById (id : option string) : M Store (option UserDoc) :=
  fun s =>
    match id with
    | Some i =>
        if valid_id i then (s, User_findById (accounts s) id)
        else (s, Throw (CastError i))
    | None => (s, User_findById (accounts s) id)
    end.

(** [User.findByIdAndDelete(id)] *)
Definition Users_findByIdAndDelete (id : option string) : M Store unit :=
  fun s =>
    match id with
    | None => (s, Ok tt)
    | Some i =>
        if valid_id i
        then
          match down (accounts s) with
          | Some e => (s, Throw e)
          | None =>
              (mkStore (mkDb (remove_first (fun u => String.eqb (_id u) i)
                                           (users (accounts s))) None)
                       (posts s), Ok tt)
          end
        else (s, Throw (CastError i))
    end.

(** DELETE /api/users/:id (behind [auth, requireAdmin]) *)
Definition deleteUser (req : Request) : M Store Response :=
  found <~ Users_findById (param "id" (params req)) ;;
  match found with
  | None => throw (AppError "User not found" 404 VNull)
  | Some target =>
      u <~ lift (caller req) ;;
      (* Prevent admin from deleting their own account *)
      if String.eqb (_id target) (_id u)
      then throw (AppError "Cannot delete your own account" 400 VNull)
      else
        _ <~ Users_findByIdAndDelete (param "id" (params req)) ;;
        ret (mkRes (VNum 200) (VObj [("message", VStr "User deleted successfully")]))
  end.

(** A route: its gates read the accounts as they are when the request
    arrives; the wrapped handler then runs on the request they passed on, and
    whatever is thrown goes to the translator. *)
Definition route (node_env : option string) (iso : string)
    (gates : Db -> list (Request -> outcome)) (handler : Request -> M Store Response)
    (req : Request) (s : Store) : Store * option (result Response) :=
  match Pipeline.chain (gates (accounts s)) req with
  | Next req' =>
      let '(s', r) := handler req' s in
      (s', continue_with (tail node_env iso) (settle req' r))
  | halted => (s, continue_with (tail node_env iso) halted)
  end.

End Storage.

End Blog.

(** Sample posts and stores. *)

Module BlogSamples.
Import Auth Gates PostModel Blog Stated Samples.

Definition is_hex (c : ascii) : bool :=
  is_digit c ||
  ((Nat.leb 97 (nat_of_ascii c)) && (Nat.leb (nat_of_ascii c) 102)).

(** The identifiers of the samples: non-empty strings of hexadecimal digits. *)
Definition hex_id (s : string) : bool :=
  negb (String.eqb s "") && Shapes.all_chars is_hex s.

Definition render_post (p : PostDoc) : value :=
  VObj [("_id", VStr (post_id p)); ("title", VStr (title p));
        ("status", VStr (post_status p)); ("views", VNum (views p));
        ("likeCount", VNum (likeCount p))].

Definition essay : PostDoc :=
  mkPost "70a1" "On Tests" "Tests are specifications that run." (Some "On tests")
         (Some "on-tests") (_id alice) "c1" "published" 7 [mkLike (_id dormant) "d0"]
         (Some "d0").

Definition notes : PostDoc :=
  mkPost "70a2" "Notes" "Unfinished." (Some "Notes") (Some "notes") (_id alice) "c1"
         "draft" 0 [] None.

(** A stored post the schema does not accept: its title has four
    characters. *)
Definition memo : PostDoc :=
  mkPost "70a3" "Memo" "From the desk of the administrator." (Some "Memo") (Some "memo")
         (_id root) "c1" "published" 2 [] (Some "d0").

(** A published post whose author's account is no longer stored. *)
Definition orphan : PostDoc :=
  mkPost "70a4" "Left behind" "The author is gone." (Some "Left") (Some "left-behind")
         "64b7f0c2ff" "c1" "published" 1 [] (Some "d0").

Definition library : Store := mkStore staffed_db [essay; notes; memo; orphan].

(** A request of the given method for [path ++ id] that carries [tok]. *)
Definition signed (verb path id tok : string) : Request :=
  mkReq verb (path ++ id) (Some ("Bearer " ++ tok)) [("id", id)] [] None VUndefined.

(** A request for the post or user [id] with [who] attached by the gate. *)
Definition asking (who : option UserDoc) (id : string) : Request :=
  mkReq "GET" ("/api/posts/" ++ id) None [("id", id)] [] who VUndefined.

End BlogSamples.

(** * Properties *)

(** ** The translator *)

Module TranslatorFacts.
Import ErrorHandler Taxonomy Stated.

Lemma find_app {A} (f : A -> bool) (l1 l2 : list A) :
  find f (l1 ++ l2)%list =
  match find f l1 with
  | Some x => Some x
  | None => find f l2
  end.
Proof.
  induction l1 as [|x l1 IH]; simpl; [reflexivity|].
  destruct (f x); [reflexivity|exact IH].
Qed.

(** Sequential overwriting leaves the outcome of the last block that fired. *)
Lemma run_rules_last (rs : list rule) (err : js_error) :
  (forall r, In r rs -> signal r err = true -> exists t', effect r err = Ok t') ->
  forall t,
    run_rules rs err t =
    match find (fun r => signal r err) (rev rs) with
    | Some r => effect r err
    | None => Ok t
    end.
Proof.
  induction rs as [|r rs IH]; intros Hok t; simpl; [reflexivity|].
  rewrite find_app. simpl.
  assert (Hrs : forall r0, In r0 rs -> signal r0 err = true ->
                           exists t', effect r0 err = Ok t')
    by (intros r0 Hin; apply Hok; now right).
  destruct (signal r err) eqn:Hsig.
  - destruct (Hok r (or_introl eq_refl) Hsig) as [t' Ht'].
    rewrite Ht'. simpl. rewrite (IH Hrs t').
    destruct (find _ (rev rs)); [reflexivity|now rewrite Ht'].
  - simpl. rewrite (IH Hrs t).
    destruct (find _ (rev rs)); reflexivity.
Qed.

Lemma bind_ext {A B} (m : result A) (k1 k2 : A -> result B) :
  (forall a, k1 a = k2 a) -> bind m k1 = bind m k2.
Proof.
  intros H. destruct m; simpl; [apply H|reflexivity].
Qed.

Lemma bind_pure_if {A B} (c : bool) (a b : A) (k : A -> result B) :
  bind (if c then Ok a else Ok b) k = k (if c then a else b).
Proof.
  now destruct c.
Qed.

(** A block without a failing read: both sides overwrite the same locals. *)
Ltac pure_block :=
  unfold triple;
  match goal with
  | |- _ = bind (if ?c then Ok ?x else Ok ?t) _ =>
      rewrite bind_pure_if; cbv zeta;
      generalize (if c then x else t); clear; intros ?
  end.

(** A block that reads through [err]: the same computation on both sides. *)
Ltac effect_block := cbv zeta; apply bind_ext; intros ?.

(** The translator's blocks are the table, run in order. *)
Lemma classify_run_rules (err : js_error) :
  classify err = run_rules rule_table err default_triple.
Proof.
  unfold classify, rule_table.
  cbn [run_rules signal effect constant].
  generalize default_triple; intros t.
  pure_block. effect_block. effect_block.
  pure_block. pure_block. effect_block.
  pure_block. pure_block. pure_block. pure_block.
  rewrite bind_pure_if. reflexivity.
Qed.

Lemma mapM_ok {A B} (f : A -> result B) (l : list A) :
  (forall x, In x l -> exists y, f x = Ok y) -> exists ys, mapM f l = Ok ys.
Proof.
  induction l as [|x l IH]; intros H; simpl.
  - now exists [].
  - destruct (H x (or_introl eq_refl)) as [y ->].
    destruct IH as [ys ->]; [intros; apply H; now right|].
    simpl. now exists (y :: ys).
Qed.

Lemma get_ok (v : value) (k : string) :
  nullish v = false -> exists y, get v k = Ok y.
Proof.
  destruct v; simpl; intros H; try discriminate; eauto.
Qed.

Lemma all_objects_get (vs : list value) (k : string) :
  all_objects vs = true -> exists ys, mapM (fun v => get v k) vs = Ok ys.
Proof.
  intros H. apply mapM_ok. intros x Hin.
  apply get_ok.
  unfold all_objects in H. rewrite forallb_forall in H.
  specialize (H x Hin). now destruct (nullish x).
Qed.

Lemma validator_details_ok (items : list value) :
  all_objects items = true -> exists ds, validator_details (VArr items) = Ok ds.
Proof.
  intros H. unfold validator_details.
  match goal with
  | |- context [mapM ?f items] => destruct (mapM_ok f items) as [ds ->]
  end.
  - intros x Hin.
    unfold all_objects in H. rewrite forallb_forall in H.
    specialize (H x Hin).
    destruct (get_ok x "param") as [a ->]; [now destruct (nullish x)|].
    destruct (get_ok x "msg") as [b ->]; [now destruct (nullish x)|].
    destruct (get_ok x "value") as [c ->]; [now destruct (nullish x)|].
    simpl. eauto.
  - simpl. eauto.
Qed.

(** On well-shaped errors every block that fires runs to its end. *)
Lemma effects_ok (err : js_error) :
  shape_ok err = true ->
  forall r, In r rule_table -> signal r err = true -> exists t, effect r err = Ok t.
Proof.
  unfold shape_ok. intros H.
  apply andb_prop in H as [H H3]. apply andb_prop in H as [H1 H2].
  intros r Hin Hsig. simpl in Hin.
  repeat (destruct Hin as [<-|Hin]); try (simpl; eauto; fail); simpl in *.
  - rewrite Hsig in H1. simpl in H1.
    destruct (lookup "keyValue" err) eqn:Hkv; try discriminate; simpl; eauto.
  - rewrite Hsig in H2. simpl in H2.
    destruct (Object_values (lookup "errors" err)) as [vals|] eqn:Hv; [|discriminate].
    simpl. destruct (all_objects_get vals "message" H2) as [ys ->].
    simpl. eauto.
  - rewrite Hsig in H3. simpl in H3.
    destruct (lookup "errors" err) eqn:He; try discriminate.
    destruct (validator_details_ok items H3) as [ds ->]. simpl. eauto.
  - contradiction.
Qed.

Lemma no_signal (err : js_error) :
  first_match err = None ->
  forall r, In r rule_table -> signal r err = false.
Proof.
  intros H r Hin. exact (find_none _ _ H r Hin).
Qed.

Lemma find_none_rev {A} (f : A -> bool) (l : list A) :
  find f l = None -> find f (rev l) = None.
Proof.
  intros H. destruct (find f (rev l)) as [x|] eqn:Hx; [|reflexivity].
  apply find_some in Hx as [Hin Hfx].
  apply in_rev in Hin.
  rewrite (find_none _ _ H x Hin) in Hfx. discriminate.
Qed.

Lemma unmatched_shape_ok (err : js_error) :
  first_match err = None -> shape_ok err = true.
Proof.
  intros H. pose proof (no_signal err H) as Hn.
  assert (H1 : eq_num (lookup "code" err) 11000 = false)
    by (apply (Hn (nth 1 rule_table (constant (fun _ => false) default_triple)));
        simpl; tauto).
  assert (H2 : is_name err "ValidationError" = false)
    by (apply (Hn (nth 2 rule_table (constant (fun _ => false) default_triple)));
        simpl; tauto).
  assert (H3 : eq_str (lookup "type" err) "ValidationError"
               && truthy (lookup "errors" err) = false)
    by (apply (Hn (nth 5 rule_table (constant (fun _ => false) default_triple)));
        simpl; tauto).
  unfold shape_ok. now rewrite H1, H2, H3.
Qed.

Lemma lookup_app (k : string) (l1 l2 : list (string * value)) :
  lookup k (l1 ++ l2)%list = if has_key k l1 then lookup k l1 else lookup k l2.
Proof.
  induction l1 as [|[k' v] l1 IH]; simpl; [reflexivity|].
  destruct (String.eqb k k'); simpl; [reflexivity|exact IH].
Qed.

Lemma res_status_json_valid (s payload : value) :
  valid_status s = true -> res_status_json s payload = Ok (mkRes s payload).
Proof.
  unfold valid_status, res_status_json.
  destruct (status_code s) as [code|e]; [|discriminate].
  cbn [bind]. now intros ->.
Qed.

Lemma res_status_json_invalid (s payload : value) :
  valid_status s = false ->
  exists e, res_status_json s payload = Throw e /\
    (forall te, status_code s = Throw te -> e = te) /\
    (forall code, status_code s = Ok code -> e = invalid_status_code s).
Proof.
  unfold valid_status, res_status_json.
  destruct (status_code s) as [code|e].
  - cbn [bind]. intros ->. exists (invalid_status_code s).
    split; [reflexivity|]. split; [discriminate|reflexivity].
  - intros _. exists e. split; [reflexivity|].
    split; [now intros te [= <-]|discriminate].
Qed.

Lemma res_status_json_sent (s payload : value) (res : Response) :
  res_status_json s payload = Ok res -> valid_status s = true /\ res = mkRes s payload.
Proof.
  unfold valid_status, res_status_json.
  destruct (status_code s) as [code|e]; [|discriminate].
  cbn [bind]. destruct (in_range code); [|discriminate].
  now intros [= <-].
Qed.

(** What the body built at lines 102-124 carries. *)
Lemma build_response_fields node_env now err req s m d :
  exists props,
    build_response node_env now err req (s, m, d) = res_status_json s (VObj props) /\
    lookup "error" props = m /\
    lookup "status" props = s /\
    lookup "timestamp" props = VStr now /\
    lookup "path" props = VStr (originalUrl req) /\
    lookup "method" props = VStr (method req) /\
    lookup "details" props = (if truthy d then d else VUndefined).
Proof.
  unfold build_response.
  destruct (truthy d) eqn:Hd; destruct (truthy (requestId req));
    destruct (env_is node_env "development");
    eexists; (split; [reflexivity|]);
    repeat rewrite lookup_app; simpl; rewrite ?Hd; repeat split; reflexivity.
Qed.

(** C3 (as amended): the blocks are checked in source order and each block
    that fires overwrites statusCode, message and details together, so on
    every well-shaped error the LAST block whose signal matches determines
    all three; an error matching no block is answered with status 500,
    error 'Internal Server Error' and no details. *)
Theorem translator_last_match_wins (err : js_error) :
  (shape_ok err = true ->
   classify err = match last_match err with
                  | Some r => effect r err
                  | None => Ok default_triple
                  end) /\
  (first_match err = None ->
   forall node_env now req,
     exists res,
       errorHandler node_env now err req = Ok res /\
       status res = VNum 500 /\
       get (json res) "error" = Ok (VStr "Internal Server Error") /\
       get (json res) "details" = Ok VUndefined).
Proof.
  assert (Hlast : shape_ok err = true ->
                  classify err = match last_match err with
                                 | Some r => effect r err
                                 | None => Ok default_triple
                                 end).
  { intros Hshape. rewrite classify_run_rules.
    apply run_rules_last. now apply effects_ok. }
  split; [exact Hlast|].
  intros Hnone node_env now req.
  unfold errorHandler.
  rewrite (Hlast (unmatched_shape_ok err Hnone)).
  unfold last_match. rewrite (find_none_rev _ _ Hnone).
  cbn [bind]. unfold default_triple.
  destruct (build_response_fields node_env now err req (VNum 500)
              (VStr "Internal Server Error") VNull)
    as (props & -> & He & _ & _ & _ & _ & Hd).
  rewrite res_status_json_valid by reflexivity.
  eexists. split; [reflexivity|]. simpl.
  rewrite He, Hd. repeat split; reflexivity.
Qed.

Lemma translator_last_match_wins_witness :
  classify cast_and_rate_limited
  = Ok (VNum 429, VStr "Too many requests", VStr "Please try again later")
  /\ exists res,
       errorHandler None "2025-01-01T00:00:00.000Z" (Error "boom")
                    (mkReq "GET" "/x" None [] [] None VUndefined) = Ok res
       /\ status res = VNum 500.
Proof.
  split.
  - exact (proj1 (translator_last_match_wins cast_and_rate_limited) eq_refl).
  - destruct (proj2 (translator_last_match_wins (Error "boom")) eq_refl
                None "2025-01-01T00:00:00.000Z"
                (mkReq "GET" "/x" None [] [] None VUndefined))
      as (res & H1 & H2 & _).
    exists res. split; assumption.
Defined.

(** C3 (as stated) fails: a CastError carrying status 429 is answered by the
    rate-limit block (429, 'Too many requests'), not by the first matching
    block (400, 'Invalid resource ID format'). *)
Lemma first_match_does_not_decide : ~ first_match_decides.
Proof.
  intros H.
  destruct (H cast_and_rate_limited
              (VNum 429, VStr "Too many requests", VStr "Please try again later")
              (constant (fun err => is_name err "CastError")
                 (VNum 400, VStr "Invalid resource ID format",
                  VStr "The provided ID is not a valid MongoDB ObjectId"))
              (VNum 400, VStr "Invalid resource ID format",
               VStr "The provided ID is not a valid MongoDB ObjectId")
              eq_refl eq_refl eq_refl) as [Hs _].
  discriminate Hs.
Qed.

Lemma effect_defined (err : js_error) (r : rule) (t : triple) :
  In r rule_table -> signal r err = true -> has_message err = true ->
  effect r err = Ok t ->
  status_of t <> VUndefined /\ message_of t <> VUndefined.
Proof.
  intros Hin Hsig Hmsg Heff. simpl in Hin.
  repeat (destruct Hin as [<-|Hin]); simpl in Heff, Hsig;
    try (injection Heff as <-; split; discriminate).
  - destruct (Object_keys (lookup "keyValue" err)); [|discriminate].
    simpl in Heff.
    destruct (get (lookup "keyValue" err) _); [|discriminate].
    injection Heff as <-. split; discriminate.
  - destruct (Object_values (lookup "errors" err)); [|discriminate].
    simpl in Heff.
    destruct (mapM _ _); [|discriminate].
    injection Heff as <-. split; discriminate.
  - destruct (validator_details (lookup "errors" err)); [|discriminate].
    injection Heff as <-. split; discriminate.
  - injection Heff as <-.
    unfold has_message in Hmsg. rewrite Hsig in Hmsg. simpl in Hmsg.
    unfold status_of, message_of, js_or. simpl. split.
    + destruct (lookup "statusCode" err); simpl; try discriminate.
      destruct b; discriminate.
      destruct (negb (z =? 0)%Z); discriminate.
      destruct (negb (s =? "")); discriminate.
    + destruct (lookup "message" err); [discriminate Hmsg|..]; discriminate.
  - contradiction.
Qed.

Lemma classify_defined (err : js_error) :
  shape_ok err = true -> has_message err = true ->
  exists s m d, classify err = Ok (s, m, d) /\ s <> VUndefined /\ m <> VUndefined.
Proof.
  intros Hshape Hmsg.
  rewrite classify_run_rules, (run_rules_last _ _ (effects_ok err Hshape)).
  destruct (find _ (rev rule_table)) as [r|] eqn:Hfind.
  - apply find_some in Hfind as [Hin Hsig]. apply in_rev in Hin.
    destruct (effects_ok err Hshape r Hin Hsig) as [[[s m] d] Ht].
    destruct (effect_defined err r _ Hin Hsig Hmsg Ht) as [Hs Hm].
    exists s, m, d. now rewrite Ht.
  - exists (VNum 500), (VStr "Internal Server Error"), VNull.
    repeat split; discriminate.
Qed.

Lemma populated_lookup (k : string) (props : list (string * value)) (v : value) :
  lookup k props = v -> v <> VUndefined -> populated k (VObj props) = true.
Proof.
  intros <- Hv. unfold populated. destruct (lookup k props); congruence.
Qed.

(** Every block that fired on the way to a result ran to its end. *)
Lemma run_rules_fired (rs : list rule) (err : js_error) :
  forall t t', run_rules rs err t = Ok t' ->
  forall r, In r rs -> signal r err = true -> exists t'', effect r err = Ok t''.
Proof.
  induction rs as [|r0 rs IH]; intros t t' Hrun r Hin Hsig; [contradiction|].
  simpl in Hrun.
  destruct (signal r0 err) eqn:Hs0.
  - destruct (effect r0 err) as [t0|e] eqn:He0; [|discriminate].
    simpl in Hrun. destruct Hin as [<-|Hin]; [eauto|].
    exact (IH _ _ Hrun r Hin Hsig).
  - simpl in Hrun. destruct Hin as [<-|Hin]; [congruence|].
    exact (IH _ _ Hrun r Hin Hsig).
Qed.

(** A classification that came to an end is that of the last block whose
    signal matches. *)
Lemma classify_last (err : js_error) (t : triple) :
  classify err = Ok t ->
  match last_match err with
  | Some r => effect r err
  | None => Ok default_triple
  end = Ok t.
Proof.
  intros Hc. rewrite <- Hc, classify_run_rules. symmetry.
  apply run_rules_last. rewrite classify_run_rules in Hc.
  exact (run_rules_fired _ _ _ _ Hc).
Qed.

Lemma classify_ok_defined (err : js_error) (s m d : value) :
  classify err = Ok (s, m, d) -> has_message err = true ->
  s <> VUndefined /\ m <> VUndefined.
Proof.
  intros Hc Hmsg. apply classify_last in Hc. unfold last_match in Hc.
  destruct (find _ (rev rule_table)) as [r|] eqn:Hfind.
  - apply find_some in Hfind as [Hin Hsig]. apply in_rev in Hin.
    exact (effect_defined err r _ Hin Hsig Hmsg Hc).
  - injection Hc as <- <- <-. split; discriminate.
Qed.

(** The status the blocks settle on can be sent exactly when [status_ok]
    holds. *)
Lemma classify_status (err : js_error) (t : triple) :
  classify err = Ok t -> valid_status (status_of t) = status_ok err.
Proof.
  intros Hc. apply classify_last in Hc. revert Hc.
  unfold last_match, status_ok.
  cbn [rule_table rev app find signal constant].
  destruct (truthy (lookup "isOperational" err)); cbn [negb orb effect].
  { intros [= <-]. reflexivity. }
  repeat match goal with
         | |- context [if ?c then Some _ else _] => destruct c; cbn [effect]
         end;
    try (intros [= <-]; reflexivity).
  - destruct (validator_details (lookup "errors" err)); [|discriminate].
    intros [= <-]. reflexivity.
  - destruct (Object_values (lookup "errors" err)); [|discriminate].
    cbn [bind]. destruct (mapM _ _); [|discriminate].
    intros [= <-]. reflexivity.
  - destruct (Object_keys (lookup "keyValue" err)); [|discriminate].
    cbn [bind]. destruct (get (lookup "keyValue" err) _); [|discriminate].
    intros [= <-]. reflexivity.
Qed.




End TranslatorFacts.

(** ** The reference signing library *)

Module RefJwtFacts.
Import RefJwt.

Lemma count_ones_put (n : nat) (t : string) :
  count_ones (ones n ++ String "0" t) = (n, t).
Proof.
  induction n as [|n IH]; simpl.
  - reflexivity.
  - now rewrite IH.
Qed.

Lemma split_at_app (s rest : string) :
  split_at (String.length s) (s ++ rest) = (s, rest).
Proof.
  induction s as [|c s IH]; simpl.
  - now destruct rest.
  - now rewrite IH.
Qed.

Lemma take_put (s rest : string) : take (put s rest) = (s, rest).
Proof.
  unfold take, put. rewrite count_ones_put. apply split_at_app.
Qed.

Lemma decode_encode (c : Claims) (tag : string) : decode (encode c tag) = (c, tag).
Proof.
  unfold decode, encode.
  repeat rewrite take_put.
  rewrite !BinaryString.Z_of_of_Z.
  destruct c as [[i|] u e ro iss aud exp iat]; reflexivity.
Qed.

(** The reference implementation honours the package's contract. *)
Lemma lib_contract : jwt_contract RefJwt.lib.
Proof.
  intros p secret o t0 tok Hsign.
  simpl in Hsign. unfold sign in Hsign.
  destruct (span (expiresIn o)) as [d|] eqn:Hd; [|discriminate].
  injection Hsign as <-.
  exists d. split; [exact Hd|].
  intros t1 [_ Hlt]. simpl. unfold verify.
  rewrite decode_encode. cbn [c_exp c_aud c_iss v_audience v_issuer].
  rewrite !String.eqb_refl. cbn [negb].
  destruct (Z.leb_spec (t0 + d) t1) as [Hle|_]; [lia|reflexivity].
Qed.


End RefJwtFacts.

(** ** Token service, identity resolver and gates *)

Module GateFacts.
Import Auth Gates Stated.

(** C5: a token produced by [generateToken] verifies, before its fixed
    expiry and under the same configuration, to claims whose id, username,
    email and role are the fields it was built from. *)
Theorem issue_then_verify (lib : JwtLib) (cfg : Config) (user : Identity)
    (t0 t1 d : Z) (tok : string) :
  jwt_contract lib ->
  generateToken lib cfg t0 user = Ok tok ->
  timespan lib (JWT_EXPIRE cfg) = Some d ->
  (t0 <= t1 < t0 + d)%Z ->
  exists decoded,
    verifyToken lib cfg t1 tok = Ok decoded /\
    c_id decoded = subject_id user /\
    c_username decoded = i_username user /\
    c_email decoded = i_email user /\
    c_role decoded = i_role user.
Proof.
  intros Hlib Hgen Hspan Hrange.
  unfold generateToken in Hgen.
  destruct (Hlib _ _ _ _ _ Hgen) as (d' & Hd' & Hverify).
  cbn [expiresIn] in Hd'. rewrite Hspan in Hd'. injection Hd' as <-.
  specialize (Hverify t1 Hrange). cbn [s_issuer s_audience] in Hverify.
  unfold verifyToken. rewrite Hverify.
  eexists. split; [reflexivity|]. cbn. repeat split; reflexivity.
Qed.

Lemma issue_then_verify_witness :
  exists decoded,
    verifyToken RefJwt.lib sample_config 3600 alice_token = Ok decoded /\
    c_id decoded = Some "64b7f0c2a1" /\
    c_username decoded = "alice" /\
    c_email decoded = "alice@example.com" /\
    c_role decoded = "user".
Proof.
  apply (issue_then_verify RefJwt.lib sample_config (identity_of_doc alice)
           0 3600 604800 alice_token RefJwtFacts.lib_contract).
  - vm_compute. reflexivity.
  - reflexivity.
  - lia.
Defined.



(** C6: when the credential header is absent or does not start with
    'Bearer ', the require-auth gate answers 401 with error 'Access denied'
    and message 'No token provided' (the handler is not invoked), and the
    optional-auth gate calls next with the request context unchanged, so no
    identity is attached. *)
Theorem missing_credential (lib : JwtLib) (cfg : Config) (db : Db) (t : Z)
    (req : Request) :
  authorization req = None \/
  (exists h, authorization req = Some h /\ prefix "Bearer " h = false) ->
  auth lib cfg db t req
  = Responded (mkRes (VNum 401)
                 (VObj [("error", VStr "Access denied");
                        ("message", VStr "No token provided")]))
  /\ optionalAuth lib cfg db t req = Next req
  /\ (user req = None ->
      forall r, optionalAuth lib cfg db t req = Next r -> user r = None).
Proof.
  intros H.
  assert (Hex : extractToken req = None).
  { unfold extractToken. destruct H as [->|(h & -> & Hp)]; [reflexivity|].
    rewrite Hp. now rewrite andb_false_r. }
  unfold auth, optionalAuth. rewrite Hex.
  repeat split. intros Hu r [= <-]. exact Hu.
Qed.

Lemma missing_credential_witness :
  auth RefJwt.lib sample_config sample_db 0 basic_auth_request
  = Responded (mkRes (VNum 401)
                 (VObj [("error", VStr "Access denied");
                        ("message", VStr "No token provided")]))
  /\ optionalAuth RefJwt.lib sample_config sample_db 0 anonymous_post
     = Next anonymous_post.
Proof.
  split.
  - apply (missing_credential RefJwt.lib sample_config sample_db 0 basic_auth_request).
    right. exists "Basic dXNlcjpwdw==". split; reflexivity.
  - apply (missing_credential RefJwt.lib sample_config sample_db 0 anonymous_post).
    left. reflexivity.
Defined.

Lemma differs_false (a : string) (b : option string) :
  differs a b = false <-> b = Some a.
Proof.
  unfold differs. destruct b as [s|].
  - destruct (String.eqb_spec a s); simpl; split; intros H;
      try discriminate; try congruence.
  - split; discriminate.
Qed.

(** C7: [requireOwnership]: without an attached identity it halts with 401;
    an admin passes unconditionally; in self mode (ownership field 'userId'
    or '_id') any other caller passes exactly when the named route parameter
    equals the caller's own id and is halted with 403 otherwise; in every
    other mode an authenticated caller passes. *)
Theorem ownership_gate (resourceIdParam userIdField : string) (req : Request) :
  (user req = None ->
   requireOwnership resourceIdParam userIdField req
   = Responded (mkRes (VNum 401)
       (VObj [("error", VStr "Access denied");
              ("message", VStr "Authentication required")]))) /\
  (forall u,
     user req = Some u -> role u = "admin" ->
     requireOwnership resourceIdParam userIdField req = Next req) /\
  (forall u,
     user req = Some u -> role u <> "admin" ->
     userIdField = "userId" \/ userIdField = "_id" ->
     (requireOwnership resourceIdParam userIdField req = Next req <->
      param resourceIdParam (params req) = Some (_id u)) /\
     (param resourceIdParam (params req) <> Some (_id u) ->
      requireOwnership resourceIdParam userIdField req
      = Responded (mkRes (VNum 403)
          (VObj [("error", VStr "Access denied");
                 ("message", VStr "You can only access your own resources")])))) /\
  (forall u,
     user req = Some u -> userIdField <> "userId" -> userIdField <> "_id" ->
     requireOwnership resourceIdParam userIdField req = Next req).
Proof.
  unfold requireOwnership.
  split; [|split; [|split]].
  - intros ->. reflexivity.
  - intros u -> Hr. rewrite Hr. reflexivity.
  - intros u -> Hr Hmode.
    destruct (String.eqb_spec (role u) "admin") as [|_]; [contradiction|].
    assert (Hself : String.eqb userIdField "userId" || String.eqb userIdField "_id" = true)
      by (destruct Hmode as [-> | ->]; reflexivity).
    rewrite Hself.
    destruct (differs (_id u) (param resourceIdParam (params req))) eqn:Hd.
    + assert (Hne : param resourceIdParam (params req) <> Some (_id u)).
      { intros Heq. apply differs_false in Heq. congruence. }
      split; [split; [discriminate|contradiction]|reflexivity].
    + apply differs_false in Hd.
      split; [split; [intros _; exact Hd|reflexivity]|contradiction].
  - intros u -> H1 H2.
    destruct (String.eqb (role u) "admin"); [reflexivity|].
    destruct (String.eqb_spec userIdField "userId"); [contradiction|].
    destruct (String.eqb_spec userIdField "_id"); [contradiction|].
    reflexivity.
Qed.

Lemma ownership_gate_witness :
  requireOwnership "id" "userId" own_profile = Next own_profile
  /\ requireOwnership "id" "userId" anonymous_post
     = Responded (mkRes (VNum 401)
         (VObj [("error", VStr "Access denied");
                ("message", VStr "Authentication required")])).
Proof.
  split.
  - apply (proj1 (proj2 (proj2 (ownership_gate "id" "userId" own_profile)))
             (set_password None alice) eq_refl).
    + discriminate.
    + left. reflexivity.
    + reflexivity.
  - apply (proj1 (ownership_gate "id" "userId" anonymous_post)). reflexivity.
Defined.



End GateFacts.

(** ** The application stack and the auth routes *)

Module AppFacts.
Import ErrorHandler Async App AuthRoutes Stated.

(** C2 (the code departs from it): app.js hands the whole exports object of
    middleware/errorHandler.js to [app.use], which refuses it with a
    TypeError while the stack is being built, so the translator is never
    mounted and no handler failure can reach it. *)
Theorem app_js_does_not_mount_the_translator
    (helmet limiter cors morgan json_parser urlencoded : middleware)
    (authRoutes userRoutes postRoutes health root : middleware)
    (node_env : option string) (now : string) :
  app_js helmet limiter cors morgan json_parser urlencoded
         authRoutes userRoutes postRoutes health root node_env now
  = Throw (TypeError "app.use() requires a middleware function").
Proof.
  unfold app_js, stack_with, logging.
  destruct (negb (env_is node_env "test")); reflexivity.
Qed.

(** With the binding destructured the stack is built and ends with the
    translator followed by the 404 catch-all. *)
Lemma app_js_destructured_mounts_the_translator
    (helmet limiter cors morgan json_parser urlencoded : middleware)
    (authRoutes userRoutes postRoutes health root : middleware)
    (node_env : option string) (now : string) :
  exists front,
    app_js_destructured helmet limiter cors morgan json_parser urlencoded
                        authRoutes userRoutes postRoutes health root node_env now
    = Ok (front ++ tail node_env now)%list.
Proof.
  unfold app_js_destructured, stack_with, logging.
  destruct (negb (env_is node_env "test")); cbn.
  - eexists [_; _; _; _; _; _; _; _; _; _; _]. reflexivity.
  - eexists [_; _; _; _; _; _; _; _; _; _]. reflexivity.
Qed.

(** Behind a mounted translator every failure of a wrapped handler, thrown
    or rejected, is answered by the translator. *)
Lemma settled_failure_reaches_translator (node_env : option string) (now : string)
    (req : Request) (e : js_error) :
  continue_with (tail node_env now) (settle req (Throw e))
  = Some (errorHandler node_env now e req).
Proof.
  reflexivity.
Qed.

(** C8 (the code departs from it): two failing logins, one for a name with
    no account and one with a wrong password for an existing account, get the
    same status and the same error text but different [details]: 'User not
    found' against 'Incorrect password'. *)
Theorem login_details_reveal_account_existence :
  let handler :=
    login RefJwt.lib sample_config sample_model no_validation_errors 0 "2025-01-01" in
  let answer req :=
    snd (serve (Some "production") "2025-01-01T00:00:00.000Z" sample_model
               handler req carol_db) in
  exists unknown wrong,
    answer (login_request "nobody" "Passw0rd") = Some (Ok unknown) /\
    answer (login_request "carol" "Wrong0000") = Some (Ok wrong) /\
    status unknown = VNum 401 /\ status wrong = VNum 401 /\
    get (json unknown) "error" = Ok (VStr "Invalid credentials") /\
    get (json wrong) "error" = Ok (VStr "Invalid credentials") /\
    get (json unknown) "details" = Ok (VStr "User not found") /\
    get (json wrong) "details" = Ok (VStr "Incorrect password") /\
    unknown <> wrong.
Proof.
  cbv zeta. eexists. eexists.
  split; [vm_compute; reflexivity|].
  split; [vm_compute; reflexivity|].
  repeat split; discriminate.
Qed.

(** The same holds on every collection: the unknown name is answered with
    details 'User not found', the wrong password with 'Incorrect password'. *)
Lemma login_failure_details (lib : JwtLib) (cfg : Config) (model : UserModel)
    (vr : Request -> list value) (t : Z) (today : string)
    (node_env : option string) (iso : string) (req : Request) (db : Db) :
  vr req = [] -> down db = None ->
  let q := ByEmailOrUsername (toLowerCase (field "login" req))
                             (toLowerCase (field "login" req)) true in
  (find (matches q) (users db) = None ->
   rejected_with 401 "Invalid credentials" "User not found"
     (snd (serve node_env iso model (login lib cfg model vr t today) req db))) /\
  (forall u hash,
     find (matches q) (users db) = Some u -> isActive u = true ->
     password u = Some hash ->
     bcrypt_compare model (field "password" req) hash = false ->
     rejected_with 401 "Invalid credentials" "Incorrect password"
       (snd (serve node_env iso model (login lib cfg model vr t today) req db))).
Proof.
  intros Hv Hup q. subst q.
  assert (Hshape : forall m d,
             truthy (VStr d) = true ->
             rejected_with 401 m d
               (continue_with (tail node_env iso)
                  (settle req (Throw (AppError m 401 (VStr d)))))).
  { intros m d Hd. rewrite settled_failure_reaches_translator. unfold errorHandler.
    assert (Hc : classify (AppError m 401 (VStr d)) = Ok (VNum 401, VStr m, VStr d))
      by (unfold classify, js_or; cbn; cbn in Hd; now rewrite Hd).
    rewrite Hc. cbn [bind].
    destruct (TranslatorFacts.build_response_fields node_env iso
                (AppError m 401 (VStr d)) req (VNum 401) (VStr m) (VStr d))
      as (props & -> & He & _ & _ & _ & _ & Hdet).
    eexists. split; [reflexivity|]. cbn [status json get].
    rewrite He, Hdet, Hd. repeat split; reflexivity. }
  split.
  - intros Hfind. unfold serve, asyncHandler, login. rewrite Hv.
    cbn [isEmpty negb run]. unfold User_findOne. rewrite Hup, Hfind.
    cbn [option_map run]. now apply Hshape.
  - intros u hash Hfind Hact Hpw Hcmp. unfold serve, asyncHandler, login. rewrite Hv.
    cbn [isEmpty negb run]. unfold User_findOne. rewrite Hup, Hfind.
    cbn [option_map projection run]. rewrite Hact, Hpw, Hcmp.
    cbn [negb run]. now apply Hshape.
Qed.

(** The forgot-password reply does not depend on the collection. *)
Lemma forgot_password_uniform (validationResult : Request -> list value)
    (node_env : option string) (iso : string) (model : UserModel)
    (req1 req2 : Request) (db1 db2 : Db) :
  validationResult req1 = [] -> validationResult req2 = [] ->
  down db1 = None -> down db2 = None ->
  snd (serve node_env iso model (forgot_password validationResult) req1 db1)
  = snd (serve node_env iso model (forgot_password validationResult) req2 db2)
  /\ snd (serve node_env iso model (forgot_password validationResult) req1 db1)
     = Some (Ok (mkRes (VNum 200)
                   (VObj [("message",
                           VStr "If an account with this email exists, a password reset link has been sent")]))).
Proof.
  intros H1 H2 Hd1 Hd2.
  unfold serve, asyncHandler, forgot_password.
  rewrite H1, H2. cbn. unfold User_findOne. rewrite Hd1, Hd2. cbn.
  split; reflexivity.
Qed.

End AppFacts.

(** ** Racing registrations *)

Module RaceFacts.
Import Auth ErrorHandler Async AuthRoutes App Race Stated.

Section Facts.

Variable lib : JwtLib.
Variable cfg : Config.
Variable model : UserModel.
Variable vr : Request -> list value.
Variable now : Z.
Variable today : string.
Variables e uA uB : string.

(** Signing succeeds (the configured expiry is one the library accepts). *)
Hypothesis signing :
  forall u, exists token, generateToken lib cfg now (identity_of_doc u) = Ok token.

Local Abbreviation party := (Race.party vr e uA uB).
Local Abbreviation consistent := (Race.consistent e uA uB).
Local Abbreviation fresh := (Race.fresh e uA uB).
Local Abbreviation taken := (Race.taken e uA uB).
Local Abbreviation early := (Race.early lib cfg vr now today).
Local Abbreviation winner := (Race.winner lib cfg now today e).
Local Abbreviation loser := (Race.loser lib cfg vr now today e).
Local Abbreviation won := (Race.won e).
Local Abbreviation lost := (Race.lost e).

Lemma register_start (req : Request) :
  party req ->
  register lib cfg vr now today req
  = AwaitFindOne (ByEmailOrUsername e (toLowerCase (field "username" req)) false)
                 (register_after_lookup lib cfg now today req).
Proof.
  intros (Hv & Hp & He & _). unfold register. rewrite Hv, Hp, <- He. reflexivity.
Qed.

Lemma after_create_signed (u : UserDoc) :
  exists token,
    register_after_create lib cfg now today u
    = AwaitSave (set_lastLogin (Some today) u)
        (fun _ => Done (Ok (registered token (set_lastLogin (Some today) u)))).
Proof.
  destruct (signing u) as [token Htok]. exists token.
  unfold register_after_create. now rewrite Htok.
Qed.

Lemma holder_absent (db : Db) (d : UserDoc) :
  existsb (fun u => String.eqb (email u) e) (users db) = false ->
  In d (users db) -> email d <> e.
Proof.
  intros Hex Hin Heq.
  assert (existsb (fun u => String.eqb (email u) e) (users db) = true).
  { apply existsb_exists. exists d. split; [exact Hin|].
    rewrite Heq. apply String.eqb_refl. }
  congruence.
Qed.

Lemma name_absent (db : Db) (u : string) :
  fresh db -> u = uA \/ u = uB ->
  existsb (fun d => String.eqb (username d) u) (users db) = false.
Proof.
  intros [[_ Hcons] Hex] Hu.
  destruct (existsb (fun d => String.eqb (username d) u) (users db)) eqn:Hx;
    [|reflexivity].
  apply existsb_exists in Hx as (d & Hin & Hd).
  apply String.eqb_eq in Hd.
  exfalso. apply (holder_absent db d Hex Hin).
  apply Hcons; [exact Hin|]. destruct Hu; subst; tauto.
Qed.

Lemma find_fresh (db : Db) (u : string) :
  fresh db -> u = uA \/ u = uB ->
  find (matches (ByEmailOrUsername e u false)) (users db) = None.
Proof.
  intros Hf Hu.
  destruct (find _ (users db)) as [d|] eqn:Hfind; [|reflexivity].
  apply find_some in Hfind as [Hin Hm]. simpl in Hm.
  apply orb_prop in Hm as [Hm|Hm]; apply String.eqb_eq in Hm.
  - exfalso. exact (holder_absent db d (proj2 Hf) Hin Hm).
  - pose proof (name_absent db u Hf Hu) as Hn.
    assert (existsb (fun d => String.eqb (username d) u) (users db) = true).
    { apply existsb_exists. exists d. split; [exact Hin|].
      rewrite Hm. apply String.eqb_refl. }
    congruence.
Qed.

Lemma find_taken (db : Db) (u : string) :
  taken db -> u = uA \/ u = uB ->
  exists d, find (matches (ByEmailOrUsername e u false)) (users db) = Some d /\ email d = e.
Proof.
  intros [[_ Hcons] Hex] Hu.
  apply existsb_exists in Hex as (x & Hin & Hx).
  destruct (find (matches (ByEmailOrUsername e u false)) (users db)) as [d|] eqn:Hfind.
  - exists d. split; [reflexivity|].
    apply find_some in Hfind as [Hd Hm]. simpl in Hm.
    apply orb_prop in Hm as [Hm|Hm]; apply String.eqb_eq in Hm; [exact Hm|].
    apply Hcons; [exact Hd|]. destruct Hu; subst; tauto.
  - pose proof (find_none _ _ Hfind x Hin) as Hno. simpl in Hno.
    rewrite Hx in Hno. discriminate.
Qed.

Lemma create_fresh (db : Db) (u pw : string) (fn ln : option string) :
  fresh db -> u = uA \/ u = uB ->
  exists doc db',
    User_create model db (mkNewUser u e pw fn ln) = Ok (doc, db') /\
    email doc = e /\ taken db'.
Proof.
  intros Hf Hu.
  pose proof (name_absent db u Hf Hu) as Hn.
  destruct Hf as [[Hup Hcons] Hex].
  unfold User_create. rewrite Hup. cbn [nu_email nu_username].
  rewrite Hex, Hn.
  eexists. eexists. split; [reflexivity|]. split; [reflexivity|].
  split; [split; [reflexivity|]|].
  - cbn [users]. intros d Hin Hd.
    apply in_app_or in Hin as [Hin|[<-|[]]]; [now apply Hcons|reflexivity].
  - cbn [users]. rewrite existsb_app. cbn.
    rewrite String.eqb_refl. now rewrite orb_true_r.
Qed.

Lemma create_taken (db : Db) (u pw : string) (fn ln : option string) :
  taken db ->
  User_create model db (mkNewUser u e pw fn ln) = Throw (duplicate_key "email" e).
Proof.
  intros [[Hup _] Hex]. unfold User_create. rewrite Hup.
  cbn [nu_email]. now rewrite Hex.
Qed.

Lemma save_taken (db : Db) (u : UserDoc) :
  taken db -> exists db', User_save db u = Ok db' /\ taken db'.
Proof.
  intros [[Hup Hcons] Hex]. unfold User_save. rewrite Hup.
  eexists. split; [reflexivity|].
  split; [split; [reflexivity|]|]; cbn [users].
  - intros d Hin Hd. apply in_map_iff in Hin as (d0 & <- & Hin0).
    destruct (String.eqb (_id d0) (_id u)); [|now apply Hcons].
    cbn in *. now apply Hcons.
  - rewrite <- Hex. clear.
    induction (users db) as [|d l IH]; [reflexivity|].
    cbn [map existsb]. rewrite IH. f_equal.
    destruct (String.eqb (_id d) (_id u)); reflexivity.
Qed.

Lemma after_lookup_none (req : Request) :
  party req ->
  register_after_lookup lib cfg now today req None
  = AwaitCreate (mkNewUser (toLowerCase (field "username" req)) e
                           (field "password" req)
                           (keep_truthy (opt_field "firstName" req))
                           (keep_truthy (opt_field "lastName" req)))
                (register_after_create lib cfg now today).
Proof.
  intros (_ & _ & He & _). unfold register_after_lookup. now rewrite He.
Qed.

Lemma after_lookup_some (req : Request) (d : UserDoc) :
  party req -> email d = e ->
  register_after_lookup lib cfg now today req (Some (set_password None d))
  = Done (Throw conflict_error).
Proof.
  intros (_ & _ & He & _) Hd. unfold register_after_lookup.
  cbn [email set_password]. rewrite He, Hd, String.eqb_refl. reflexivity.
Qed.

Lemma party_name (req : Request) :
  party req ->
  toLowerCase (field "username" req) = uA \/ toLowerCase (field "username" req) = uB.
Proof.
  now intros (_ & _ & _ & H).
Qed.

Lemma step_winner (db : Db) (p : prog) :
  taken db -> winner p ->
  exists db' p', step model p db = (db', p') /\ taken db' /\ winner p'.
Proof.
  intros Ht [(u & Hu & ->)|(token & u & Hu & ->)].
  - destruct (after_create_signed u) as [token ->].
    destruct (save_taken db (set_lastLogin (Some today) u) Ht) as (db' & Hs & Ht').
    cbn [step]. rewrite Hs.
    exists db'. eexists. split; [reflexivity|]. split; [exact Ht'|].
    right. exists token, (set_lastLogin (Some today) u). split; [exact Hu|reflexivity].
  - exists db. eexists. split; [reflexivity|]. split; [exact Ht|].
    right. exists token, u. split; [exact Hu|reflexivity].
Qed.

Lemma run_winner (db : Db) (p : prog) :
  taken db -> winner p ->
  exists db' r, run model p db = (db', r) /\ taken db' /\ won r.
Proof.
  intros Ht [(u & Hu & ->)|(token & u & Hu & ->)].
  - destruct (after_create_signed u) as [token ->].
    destruct (save_taken db (set_lastLogin (Some today) u) Ht) as (db' & Hs & Ht').
    cbn [run]. rewrite Hs.
    exists db'. eexists. split; [reflexivity|]. split; [exact Ht'|].
    exists token, (set_lastLogin (Some today) u). split; [exact Hu|reflexivity].
  - exists db. eexists. split; [reflexivity|]. split; [exact Ht|].
    exists token, u. split; [exact Hu|reflexivity].
Qed.

Lemma step_loser (req : Request) (db : Db) (p : prog) :
  party req -> taken db -> loser req p ->
  exists p', step model p db = (db, p') /\ loser req p'.
Proof.
  intros Hp Ht [[-> | ->]|[-> | ->]].
  - rewrite (register_start req Hp). cbn [step]. unfold User_findOne.
    rewrite (proj1 (proj1 Ht)).
    destruct (find_taken db _ Ht (party_name req Hp)) as (d & -> & Hd).
    cbn [option_map projection].
    rewrite (after_lookup_some req d Hp Hd).
    eexists. split; [reflexivity|]. right. now left.
  - rewrite (after_lookup_none req Hp). cbn [step].
    rewrite (create_taken db _ _ _ _ Ht).
    eexists. split; [reflexivity|]. right. now right.
  - eexists. split; [reflexivity|]. right. now left.
  - eexists. split; [reflexivity|]. right. now right.
Qed.

Lemma run_loser (req : Request) (db : Db) (p : prog) :
  party req -> taken db -> loser req p ->
  exists r, run model p db = (db, r) /\ lost r.
Proof.
  intros Hp Ht [[-> | ->]|[-> | ->]].
  - rewrite (register_start req Hp). cbn [run]. unfold User_findOne.
    rewrite (proj1 (proj1 Ht)).
    destruct (find_taken db _ Ht (party_name req Hp)) as (d & -> & Hd).
    cbn [option_map projection].
    rewrite (after_lookup_some req d Hp Hd).
    eexists. split; [reflexivity|]. now left.
  - rewrite (after_lookup_none req Hp). cbn [run].
    rewrite (create_taken db _ _ _ _ Ht).
    eexists. split; [reflexivity|]. now right.
  - eexists. split; [reflexivity|]. now left.
  - eexists. split; [reflexivity|]. now right.
Qed.

Lemma step_early (req : Request) (db : Db) (p : prog) :
  party req -> fresh db -> early req p ->
  (exists p', step model p db = (db, p') /\ early req p') \/
  (exists db' p', step model p db = (db', p') /\ taken db' /\ winner p').
Proof.
  intros Hp Hf [-> | ->].
  - left. rewrite (register_start req Hp). cbn [step]. unfold User_findOne.
    rewrite (proj1 (proj1 Hf)), (find_fresh db _ Hf (party_name req Hp)).
    eexists. split; [reflexivity|]. now right.
  - right. rewrite (after_lookup_none req Hp). cbn [step].
    destruct (create_fresh db _ (field "password" req)
                (keep_truthy (opt_field "firstName" req))
                (keep_truthy (opt_field "lastName" req)) Hf (party_name req Hp))
      as (doc & db' & -> & Hdoc & Ht).
    exists db'. eexists. split; [reflexivity|]. split; [exact Ht|].
    left. exists doc. split; [exact Hdoc|reflexivity].
Qed.

Lemma run_early (req : Request) (db : Db) (p : prog) :
  party req -> fresh db -> early req p ->
  exists db' r, run model p db = (db', r) /\ taken db' /\ won r.
Proof.
  intros Hp Hf He.
  assert (Hcreate : exists db' r,
             run model (register_after_lookup lib cfg now today req None) db = (db', r)
             /\ taken db' /\ won r).
  { rewrite (after_lookup_none req Hp). cbn [run].
    destruct (create_fresh db _ (field "password" req)
                (keep_truthy (opt_field "firstName" req))
                (keep_truthy (opt_field "lastName" req)) Hf (party_name req Hp))
      as (doc & db' & -> & Hdoc & Ht).
    apply (run_winner db' _ Ht). left. exists doc. split; [exact Hdoc|reflexivity]. }
  destruct He as [-> | ->]; [|exact Hcreate].
  rewrite (register_start req Hp). cbn [run]. unfold User_findOne.
  rewrite (proj1 (proj1 Hf)), (find_fresh db _ Hf (party_name req Hp)).
  exact Hcreate.
Qed.

(** Whatever the interleaving, one registration wins and the other loses. *)
Lemma race_decided (reqA reqB : Request) (sched : list bool) :
  party reqA -> party reqB ->
  forall pA pB db,
    invariant lib cfg vr now today e uA uB reqA reqB pA pB db ->
    decided e (interleave model sched pA pB db).
Proof.
  intros HA HB.
  induction sched as [|b sched IH]; intros pA pB db Hinv.
  - cbn [interleave].
    destruct Hinv as [(Hf & HeA & HeB)|[(Ht & Hw & Hl)|(Ht & Hl & Hw)]].
    + destruct (run_early reqA db pA HA Hf HeA) as (db1 & rA & -> & Ht1 & HwA).
      destruct (run_loser reqB db1 pB HB Ht1 (or_introl HeB)) as (rB & -> & HlB).
      left. split; assumption.
    + destruct (run_winner db pA Ht Hw) as (db1 & rA & -> & Ht1 & HwA).
      destruct (run_loser reqB db1 pB HB Ht1 Hl) as (rB & -> & HlB).
      left. split; assumption.
    + destruct (run_loser reqA db pA HA Ht Hl) as (rA & -> & HlA).
      destruct (run_winner db pB Ht Hw) as (db1 & rB & -> & Ht1 & HwB).
      right. split; assumption.
  - destruct b; cbn [interleave].
    + destruct Hinv as [(Hf & HeA & HeB)|[(Ht & Hw & Hl)|(Ht & Hl & Hw)]].
      * destruct (step_early reqA db pA HA Hf HeA)
          as [(p' & -> & He')|(db' & p' & -> & Ht' & Hw')].
        { apply IH. left. split; [assumption|split; assumption]. }
        { apply IH. right. left. split; [assumption|split; [assumption|now left]]. }
      * destruct (step_winner db pA Ht Hw) as (db' & p' & -> & Ht' & Hw').
        apply IH. right. left. split; [assumption|split; assumption].
      * destruct (step_loser reqA db pA HA Ht Hl) as (p' & -> & Hl').
        apply IH. right. right. split; [assumption|split; assumption].
    + destruct Hinv as [(Hf & HeA & HeB)|[(Ht & Hw & Hl)|(Ht & Hl & Hw)]].
      * destruct (step_early reqB db pB HB Hf HeB)
          as [(p' & -> & He')|(db' & p' & -> & Ht' & Hw')].
        { apply IH. left. split; [assumption|split; assumption]. }
        { apply IH. right. right. split; [assumption|split; [now left|assumption]]. }
      * destruct (step_loser reqB db pB HB Ht Hl) as (p' & -> & Hl').
        apply IH. right. left. split; [assumption|split; assumption].
      * destruct (step_winner db pB Ht Hw) as (db' & p' & -> & Ht' & Hw').
        apply IH. right. right. split; [assumption|split; assumption].
Qed.

End Facts.

Lemma rejected_by_translator (node_env : option string) (iso : string)
    (req : Request) (err : js_error) (m d : string) :
  classify err = Ok (VNum 400, VStr m, VStr d) ->
  truthy (VStr d) = true ->
  rejected m d (continue_with (tail node_env iso) (settle req (Throw err))).
Proof.
  intros Hc Hd. cbn. unfold errorHandler. rewrite Hc. cbn [bind].
  destruct (TranslatorFacts.build_response_fields node_env iso err req
              (VNum 400) (VStr m) (VStr d))
    as (props & -> & He & _ & _ & _ & _ & Hdet).
  eexists. split; [reflexivity|]. cbn [status json get].
  rewrite He, Hdet, Hd. repeat split; reflexivity.
Qed.

Lemma lost_is_rejected (node_env : option string) (iso : string)
    (req : Request) (e : string) (r : result Response) :
  lost e r ->
  rejected "User already exists" "A user with this email already exists"
           (continue_with (tail node_env iso) (settle req r)) \/
  rejected "Duplicate field value" ("email '" ++ e ++ "' already exists")
           (continue_with (tail node_env iso) (settle req r)).
Proof.
  intros [-> | ->]; [left|right]; apply rejected_by_translator; reflexivity.
Qed.

Lemma won_is_created (node_env : option string) (iso : string)
    (req : Request) (e : string) (r : result Response) :
  won e r -> created e (continue_with (tail node_env iso) (settle req r)).
Proof.
  intros (token & u & Hu & ->). exists token, u. split; [exact Hu|reflexivity].
Qed.


Lemma reference_signing (u : UserDoc) :
  exists token,
    generateToken RefJwt.lib sample_config 0 (identity_of_doc u) = Ok token.
Proof.
  eexists. reflexivity.
Qed.



End RaceFacts.

(** ** The cases of tests/unit/auth.test.js *)

Module UnitChecks.
Import Auth Stated.

Example extractToken_bearer :
  extractToken (with_header (Some "Bearer sample-jwt-token")) = Some "sample-jwt-token".
Proof. reflexivity. Qed.

Example extractToken_no_header : extractToken (with_header None) = None.
Proof. reflexivity. Qed.

Example extractToken_malformed :
  extractToken (with_header (Some "InvalidFormat token")) = None.
Proof. reflexivity. Qed.

Example extractToken_missing_prefix :
  extractToken (with_header (Some "sample-jwt-token")) = None.
Proof. reflexivity. Qed.

Example verifyToken_malformed :
  verifyToken RefJwt.lib sample_config 0 "not-a-jwt-token" = Throw (Error "Invalid token").
Proof. reflexivity. Qed.

Example validatePassword_strong :
  validatePassword "StrongPassword123" = mkPasswordValidation true [].
Proof. reflexivity. Qed.

Example validatePassword_short :
  In "Password must be at least 6 characters long" (errors (validatePassword "12345")).
Proof. simpl. tauto. Qed.

Example validatePassword_no_uppercase :
  validatePassword "password123"
  = mkPasswordValidation false ["Password must contain at least one uppercase letter"].
Proof. reflexivity. Qed.

Example validatePassword_no_lowercase :
  validatePassword "PASSWORD123"
  = mkPasswordValidation false ["Password must contain at least one lowercase letter"].
Proof. reflexivity. Qed.

Example validatePassword_no_number :
  validatePassword "PasswordOnly"
  = mkPasswordValidation false ["Password must contain at least one number"].
Proof. reflexivity. Qed.

Example validatePassword_minimum :
  validatePassword "Password1" = mkPasswordValidation true [].
Proof. reflexivity. Qed.

End UnitChecks.

(** * Further properties *)

(** ** The translator, continued *)

Module TranslatorMore.
Import ErrorHandler Taxonomy TranslatorFacts App Stated Samples.

Lemma mapM_throw {A B} (f : A -> result B) (l : list A) (e : js_error) :
  mapM f l = Throw e -> exists x, In x l /\ f x = Throw e.
Proof.
  induction l as [|x l IH]; simpl; [discriminate|].
  destruct (f x) as [y|e0] eqn:Hx; simpl.
  - destruct (mapM f l) as [ys|e1]; simpl; [discriminate|].
    intros [= <-]. destruct (IH eq_refl) as (x0 & Hin & Hx0).
    exists x0. split; [now right|exact Hx0].
  - intros [= <-]. exists x. split; [now left|exact Hx].
Qed.

Lemma get_throw (v : value) (k : string) (e : js_error) :
  get v k = Throw e -> exists m, e = TypeError m.
Proof.
  destruct v; simpl; intros H; try discriminate; injection H as <-; eauto.
Qed.

(** Whatever a block throws is a TypeError. *)
Lemma effect_throws_TypeError (err : js_error) (r : rule) (e : js_error) :
  In r rule_table -> effect r err = Throw e -> exists m, e = TypeError m.
Proof.
  intros Hin Heff. simpl in Hin.
  repeat (destruct Hin as [<-|Hin]); simpl in Heff; try discriminate.
  - destruct (Object_keys (lookup "keyValue" err)) as [keys|e0] eqn:Hk.
    + simpl in Heff.
      destruct (get (lookup "keyValue" err) _) as [v|e1] eqn:Hg; [discriminate|].
      injection Heff as <-. exact (get_throw _ _ _ Hg).
    + injection Heff as <-.
      destruct (lookup "keyValue" err); simpl in Hk; try discriminate;
        injection Hk as <-; eauto.
  - destruct (Object_values (lookup "errors" err)) as [vals|e0] eqn:Hv.
    + simpl in Heff.
      destruct (mapM _ vals) as [ys|e1] eqn:Hm; [discriminate|].
      injection Heff as <-.
      apply mapM_throw in Hm as (x & _ & Hx). exact (get_throw _ _ _ Hx).
    + injection Heff as <-.
      destruct (lookup "errors" err); simpl in Hv; try discriminate;
        injection Hv as <-; eauto.
  - unfold validator_details in Heff.
    destruct (lookup "errors" err) as [| | | | |items|]; simpl in Heff;
      try (injection Heff as <-; eauto; fail).
    destruct (mapM _ items) as [ds|e1] eqn:Hm; [discriminate|].
    injection Heff as <-.
    apply mapM_throw in Hm as (x & _ & Hx).
    destruct (get x "param") as [a|e2] eqn:Ha;
      [|injection Hx as <-; exact (get_throw _ _ _ Ha)].
    simpl in Hx.
    destruct (get x "msg") as [b|e3] eqn:Hb;
      [|injection Hx as <-; exact (get_throw _ _ _ Hb)].
    simpl in Hx.
    destruct (get x "value") as [c|e4] eqn:Hc;
      [discriminate|injection Hx as <-; exact (get_throw _ _ _ Hc)].
  - contradiction.
Qed.

Lemma run_rules_throws (rs : list rule) (err : js_error) :
  (forall r e, In r rs -> effect r err = Throw e -> exists m, e = TypeError m) ->
  (exists r, In r rs /\ signal r err = true /\ exists e, effect r err = Throw e) ->
  forall t, exists m, run_rules rs err t = Throw (TypeError m).
Proof.
  induction rs as [|r rs IH]; intros Hty (r0 & Hin & Hsig & e & He) t.
  - contradiction.
  - simpl. destruct (signal r err) eqn:Hs.
    + destruct (effect r err) as [t'|e'] eqn:Hr; simpl.
      * apply IH.
        { intros r1 e1 H1. apply Hty. now right. }
        destruct Hin as [->|Hin]; [congruence|].
        exists r0. split; [exact Hin|]. split; [exact Hsig|]. now exists e.
      * destruct (Hty r e' (or_introl eq_refl) Hr) as [m ->]. now exists m.
    + simpl. apply IH.
      { intros r1 e1 H1. apply Hty. now right. }
      destruct Hin as [->|Hin]; [congruence|].
      exists r0. split; [exact Hin|]. split; [exact Hsig|]. now exists e.
Qed.

Lemma mapM_get_nullish (vs : list value) (k : string) :
  all_objects vs = false -> exists e, mapM (fun v => get v k) vs = Throw e.
Proof.
  induction vs as [|v vs IH]; simpl; [discriminate|].
  destruct (nullish v) eqn:Hn; simpl.
  - intros _. destruct v; try discriminate; simpl; eauto.
  - intros H. destruct (get_ok v k Hn) as [y ->]. simpl.
    destruct (IH H) as [e ->]. simpl. eauto.
Qed.

Lemma validator_details_nullish (items : list value) :
  all_objects items = false -> exists e, validator_details (VArr items) = Throw e.
Proof.
  unfold validator_details.
  induction items as [|v vs IH]; simpl; [discriminate|].
  destruct (nullish v) eqn:Hn; simpl.
  - intros _. destruct v; try discriminate; simpl; eauto.
  - intros H.
    destruct (get_ok v "param" Hn) as [a ->].
    destruct (get_ok v "msg" Hn) as [b ->].
    destruct (get_ok v "value" Hn) as [c ->]. simpl.
    destruct (IH H) as [e He].
    destruct (mapM _ vs) as [ds|e']; simpl in *; [discriminate|eauto].
Qed.

(** An ill-shaped error makes one of the blocks that fire throw. *)
Lemma ill_shaped_block (err : js_error) :
  shape_ok err = false ->
  exists r, In r rule_table /\ signal r err = true /\ exists e, effect r err = Throw e.
Proof.
  unfold shape_ok. intros H.
  apply andb_false_iff in H as [H|H]; [apply andb_false_iff in H as [H|H]|].
  - exists (nth 1 rule_table (constant (fun _ => false) default_triple)).
    split; [simpl; tauto|]. simpl.
    destruct (eq_num (lookup "code" err) 11000); [|discriminate]. split; [reflexivity|].
    simpl in H. destruct (lookup "keyValue" err); try discriminate; simpl; eauto.
  - exists (nth 2 rule_table (constant (fun _ => false) default_triple)).
    split; [simpl; tauto|]. simpl.
    destruct (is_name err "ValidationError"); [|discriminate]. split; [reflexivity|].
    simpl in H.
    destruct (Object_values (lookup "errors" err)) as [vals|e]; simpl; [|eauto].
    destruct (mapM_get_nullish vals "message" H) as [e ->]. simpl. eauto.
  - exists (nth 5 rule_table (constant (fun _ => false) default_triple)).
    split; [simpl; tauto|]. simpl.
    destruct (eq_str (lookup "type" err) "ValidationError" && truthy (lookup "errors" err));
      [|discriminate].
    split; [reflexivity|]. simpl in H.
    destruct (lookup "errors" err) as [| | | | |items|]; simpl; eauto.
    destruct (validator_details_nullish items H) as [e He].
    unfold validator_details in He.
    destruct (mapM _ items) as [ds|e']; simpl in *; [discriminate|eauto].
Qed.

Lemma classify_operational (err : js_error) (t : triple) :
  truthy (lookup "isOperational" err) = true -> classify err = Ok t ->
  t = (js_or (lookup "statusCode" err) (VNum 400), lookup "message" err,
       js_or (lookup "details" err) VNull).
Proof.
  intros Hop Hc. apply classify_last in Hc. revert Hc.
  unfold last_match. cbn [rule_table rev app find signal constant].
  rewrite Hop. cbn [effect]. now intros [= <-].
Qed.

Lemma well_shaped_classified (err : js_error) :
  shape_ok err = true -> exists t, classify err = Ok t.
Proof.
  intros H. rewrite classify_run_rules, (run_rules_last _ _ (effects_ok err H)).
  destruct (find _ (rev rule_table)) as [r|] eqn:Hf; [|eauto].
  apply find_some in Hf as [Hin Hsig]. apply in_rev in Hin.
  exact (effects_ok err H r Hin Hsig).
Qed.



(** X2: an operational error keeps its own fields whatever else it looks
    like: status is its statusCode (400 when that is missing or 0), error is
    its message and details are its details (none when falsy), even when
    other blocks (cast, upload, rate limit, ...) match as well. *)
Theorem operational_error_keeps_its_fields (err : js_error) :
  truthy (lookup "isOperational" err) = true ->
  shape_ok err = true ->
  classify err = Ok (js_or (lookup "statusCode" err) (VNum 400),
                     lookup "message" err,
                     js_or (lookup "details" err) VNull).
Proof.
  intros Hop Hshape.
  rewrite classify_run_rules, (run_rules_last _ _ (effects_ok err Hshape)).
  simpl. rewrite Hop. reflexivity.
Qed.

Lemma operational_error_keeps_its_fields_witness :
  classify mixed_operational = Ok (VNum 413, VStr "Quota exceeded", VNull).
Proof.
  apply (operational_error_keeps_its_fields mixed_operational); reflexivity.
Defined.

Lemma has_key_app (k : string) (l1 l2 : list (string * value)) :
  has_key k (l1 ++ l2)%list = has_key k l1 || has_key k l2.
Proof.
  unfold has_key. apply existsb_app.
Qed.



(** X4: an unmatched route sent through the [notFound] generator and the
    translator is answered 404 with error 'Route <url> not found', details
    'Cannot <method> <url>' and the request's own path and method. *)
Theorem notFound_translated (node_env : option string) (now : string) (req : Request) :
  exists res,
    continue_with (tail node_env now) (notFound req) = Some (Ok res) /\
    status res = VNum 404 /\
    get (json res) "error" = Ok (VStr ("Route " ++ originalUrl req ++ " not found")) /\
    get (json res) "details"
    = Ok (VStr ("Cannot " ++ method req ++ " " ++ originalUrl req)) /\
    get (json res) "path" = Ok (VStr (originalUrl req)) /\
    get (json res) "method" = Ok (VStr (method req)).
Proof.
  unfold notFound. cbn [continue_with tail on_error handle].
  unfold errorHandler.
  set (err := AppError _ _ _).
  assert (Hc : classify err
               = Ok (VNum 404, VStr ("Route " ++ originalUrl req ++ " not found"),
                     VStr ("Cannot " ++ method req ++ " " ++ originalUrl req)))
    by reflexivity.
  rewrite Hc. cbn [bind].
  destruct (build_response_fields node_env now err req (VNum 404)
              (VStr ("Route " ++ originalUrl req ++ " not found"))
              (VStr ("Cannot " ++ method req ++ " " ++ originalUrl req)))
    as (props & -> & He & _ & _ & Hp & Hm & Hd).
  eexists. split; [reflexivity|]. cbn [status json get].
  rewrite He, Hd, Hp, Hm. repeat split; reflexivity.
Qed.

End TranslatorMore.

(** ** The gates, continued *)

Module GateMore.
Import Auth Gates Pipeline Stated Samples.

Lemma nonempty_truthy (s : string) : s <> "" <-> truthy (VStr s) = true.
Proof.
  simpl. destruct (String.eqb_spec s ""); split; intros H;
    try reflexivity; try discriminate; try contradiction; congruence.
Qed.

(** What a successful resolution returns. *)
Lemma resolved (lib : JwtLib) (cfg : Config) (db : Db) (t : Z) (token : string)
    (u : UserDoc) :
  getUserFromToken lib cfg db t token = Ok u ->
  exists decoded stored,
    verifyToken lib cfg t token = Ok decoded /\
    down db = None /\
    In stored (users db) /\
    c_id decoded = Some (_id stored) /\
    isActive stored = true /\
    u = set_password None stored.
Proof.
  unfold getUserFromToken.
  destruct (verifyToken lib cfg t token) as [decoded|e]; [|discriminate].
  cbn [bind]. unfold User_findById.
  destruct (down db); [discriminate|].
  destruct (c_id decoded) as [i|] eqn:Hc; [|discriminate].
  cbn [bind].
  destruct (find (fun u0 => String.eqb (_id u0) i) (users db)) as [stored|] eqn:Hf;
    [|discriminate].
  apply find_some in Hf as [Hin Hid]. apply String.eqb_eq in Hid.
  cbn. destruct (isActive stored) eqn:Hact; [|discriminate].
  cbn. intros [= <-].
  exists decoded, stored. repeat split; try assumption; try reflexivity.
  rewrite Hid. exact Hc.
Qed.

(** X5: whenever the require-auth gate lets a request through, the identity
    it attached is the stored record named by the verified token's subject,
    that record is active, its password field is stripped, and nothing else
    in the request context changed. *)
Theorem auth_attaches_active_identity (lib : JwtLib) (cfg : Config) (db : Db)
    (t : Z) (req req' : Request) :
  auth lib cfg db t req = Next req' ->
  exists token decoded stored,
    extractToken req = Some token /\ token <> "" /\
    verifyToken lib cfg t token = Ok decoded /\
    In stored (users db) /\ c_id decoded = Some (_id stored) /\
    isActive stored = true /\
    req' = mkReq (method req) (originalUrl req) (authorization req) (params req)
                 (body req) (Some (set_password None stored)) (requestId req).
Proof.
  unfold auth, deny.
  destruct (extractToken req) as [token|]; [|discriminate].
  destruct (truthy (VStr token)) eqn:Htr; cbn [negb]; [|discriminate].
  destruct (getUserFromToken lib cfg db t token) as [u|error] eqn:Hg.
  - intros [= <-].
    destruct (resolved _ _ _ _ _ _ Hg) as (decoded & stored & Hv & _ & Hin & Hid & Hact & ->).
    exists token, decoded, stored.
    repeat split; try assumption. now apply nonempty_truthy.
  - destruct (eq_str (lookup "message" error) "User not found"); [discriminate|].
    destruct (eq_str (lookup "message" error) "User account is deactivated");
      discriminate.
Qed.

Lemma auth_attaches_active_identity_witness :
  exists token decoded stored,
    extractToken (bearer alice_token) = Some token /\ token <> "" /\
    verifyToken RefJwt.lib sample_config 3600 token = Ok decoded /\
    In stored (users sample_db) /\ c_id decoded = Some (_id stored) /\
    isActive stored = true /\
    set_user (set_password None alice) (bearer alice_token)
    = mkReq (method (bearer alice_token)) (originalUrl (bearer alice_token))
            (authorization (bearer alice_token)) (params (bearer alice_token))
            (body (bearer alice_token)) (Some (set_password None stored))
            (requestId (bearer alice_token)).
Proof.
  apply (auth_attaches_active_identity RefJwt.lib sample_config sample_db 3600
           (bearer alice_token)).
  vm_compute. reflexivity.
Defined.

(** X6: the optional-auth gate never halts a request: it always calls next,
    either with the request untouched or with an active stored identity
    (password stripped) attached; it sends no response and forwards no
    error, whatever the header, the token or the state of the storage. *)
Theorem optionalAuth_never_halts (lib : JwtLib) (cfg : Config) (db : Db)
    (t : Z) (req : Request) :
  optionalAuth lib cfg db t req = Next req \/
  exists stored,
    In stored (users db) /\ isActive stored = true /\
    optionalAuth lib cfg db t req = Next (set_user (set_password None stored) req).
Proof.
  unfold optionalAuth.
  destruct (extractToken req) as [token|]; [|now left].
  destruct (truthy (VStr token)); [|now left].
  destruct (getUserFromToken lib cfg db t token) as [u|error] eqn:Hg; [|now left].
  destruct (resolved _ _ _ _ _ _ Hg) as (_ & stored & _ & _ & Hin & _ & Hact & ->).
  right. exists stored. repeat split; assumption.
Qed.

(** X7: when the token verifies but the storage layer rejects the lookup,
    the require-auth gate reports the outage as an invalid credential (401,
    'Authentication failed', 'Invalid token') and the optional-auth gate
    carries on without identity. *)
Theorem storage_outage_at_the_gates (lib : JwtLib) (cfg : Config) (db : Db)
    (t : Z) (req : Request) (token : string) (decoded : Claims) (e : js_error) :
  extractToken req = Some token -> token <> "" ->
  verifyToken lib cfg t token = Ok decoded ->
  down db = Some e ->
  eq_str (lookup "message" e) "User not found" = false ->
  eq_str (lookup "message" e) "User account is deactivated" = false ->
  auth lib cfg db t req = Responded (mkRes (VNum 401)
      (VObj [("error", VStr "Authentication failed");
             ("message", VStr "Invalid token")])) /\
  optionalAuth lib cfg db t req = Next req.
Proof.
  intros Hex Hne Hv Hdown H1 H2.
  apply nonempty_truthy in Hne.
  assert (Hg : getUserFromToken lib cfg db t token = Throw e).
  { unfold getUserFromToken. rewrite Hv. cbn [bind].
    unfold User_findById. now rewrite Hdown. }
  unfold auth, optionalAuth. rewrite Hex, Hne, Hg. cbn [negb].
  rewrite H1, H2. split; reflexivity.
Qed.

Lemma storage_outage_at_the_gates_witness :
  auth RefJwt.lib sample_config unreachable_db 3600 (bearer alice_token)
  = Responded (mkRes (VNum 401)
      (VObj [("error", VStr "Authentication failed");
             ("message", VStr "Invalid token")])) /\
  optionalAuth RefJwt.lib sample_config unreachable_db 3600 (bearer alice_token)
  = Next (bearer alice_token).
Proof.
  apply (storage_outage_at_the_gates RefJwt.lib sample_config unreachable_db 3600
           (bearer alice_token) alice_token
           (mkClaims (Some "64b7f0c2a1") "alice" "alice@example.com" "user"
                     "mern-testing-app" "mern-testing-users" 604800 0) outage).
  - vm_compute. reflexivity.
  - vm_compute. discriminate.
  - vm_compute. reflexivity.
  - reflexivity.
  - reflexivity.
  - reflexivity.
Defined.

Lemma substring_all (s : string) : substring 0 (String.length s) s = s.
Proof.
  induction s as [|c s IH]; simpl; [reflexivity|now rewrite IH].
Qed.

(** X8: [extractToken] returns exactly what follows the 'Bearer ' prefix,
    so issuing "Bearer " ++ token and extracting is a round trip; a header
    that is the bare prefix carries the empty token, which the require-auth
    gate treats as no token at all (401 'No token provided', not 'Invalid
    token') and the optional-auth gate ignores. *)
Theorem bearer_round_trip (lib : JwtLib) (cfg : Config) (db : Db) (t : Z)
    (req : Request) (token : string) :
  authorization req = Some ("Bearer " ++ token) ->
  extractToken req = Some token /\
  (token = "" ->
   auth lib cfg db t req = Responded (mkRes (VNum 401)
       (VObj [("error", VStr "Access denied");
              ("message", VStr "No token provided")])) /\
   optionalAuth lib cfg db t req = Next req).
Proof.
  intros Hh.
  assert (Hex : extractToken req = Some token).
  { unfold extractToken. rewrite Hh. cbn.
    rewrite Nat.sub_0_r, substring_all. now destruct token. }
  split; [exact Hex|].
  intros ->. unfold auth, optionalAuth. rewrite Hex. split; reflexivity.
Qed.

Lemma bearer_round_trip_witness :
  extractToken (bearer alice_token) = Some alice_token /\
  auth RefJwt.lib sample_config sample_db 0 (bearer "")
  = Responded (mkRes (VNum 401)
      (VObj [("error", VStr "Access denied");
             ("message", VStr "No token provided")])).
Proof.
  split.
  - apply (bearer_round_trip RefJwt.lib sample_config sample_db 0
             (bearer alice_token) alice_token). reflexivity.
  - apply (bearer_round_trip RefJwt.lib sample_config sample_db 0 (bearer "") "");
      reflexivity.
Defined.

Lemma existsb_eqb_In (x : string) (l : list string) :
  existsb (String.eqb x) l = true <-> In x l.
Proof.
  rewrite existsb_exists. split.
  - intros (y & Hin & Hy). apply String.eqb_eq in Hy. now subst.
  - intros Hin. exists x. split; [exact Hin|apply String.eqb_refl].
Qed.

(** X9: [requireRole(...roles)] lets a request through exactly when an
    identity is attached whose role is one of the listed roles, and then
    leaves the request untouched; with no identity it answers 401, with
    another role 403; with an empty list nobody passes; and
    [requireAdmin] lets through exactly the requests that
    [requireRole('admin')] lets through. *)
Theorem requireRole_decides (roles : list string) (req : Request) :
  (forall req', requireRole roles req = Next req' <->
                req' = req /\ exists u, user req = Some u /\ In (role u) roles) /\
  (user req = None ->
   requireRole roles req = Responded (mkRes (VNum 401)
       (VObj [("error", VStr "Access denied");
              ("message", VStr "Authentication required")]))) /\
  (forall u, user req = Some u -> ~ In (role u) roles ->
     requireRole roles req
     = Responded (mkRes (VNum 403)
         (VObj [("error", VStr "Access denied");
                ("message",
                 VStr ("One of the following roles is required: " ++ join ", " roles))]))) /\
  (roles = [] -> forall req', requireRole roles req <> Next req') /\
  (forall req', requireAdmin req = Next req' <-> requireRole ["admin"] req = Next req').
Proof.
  assert (Hin : forall u, existsb (String.eqb (role u)) roles = true <-> In (role u) roles)
    by (intros u; apply existsb_eqb_In).
  unfold requireRole, requireAdmin, deny.
  split; [|split; [|split; [|split]]].
  - intros req'. destruct (user req) as [u|].
    + destruct (existsb (String.eqb (role u)) roles) eqn:Hex; cbn [negb].
      * split.
        { intros [= <-]. split; [reflexivity|]. exists u. split; [reflexivity|].
          now apply Hin. }
        { now intros [-> _]. }
      * split; [discriminate|].
        intros [_ (u0 & [= <-] & Hr)]. apply Hin in Hr. congruence.
    + split; [discriminate|]. now intros [_ (u & Hx & _)].
  - intros ->. reflexivity.
  - intros u -> Hn.
    destruct (existsb (String.eqb (role u)) roles) eqn:Hex; cbn [negb];
      [|reflexivity].
    apply Hin in Hex. contradiction.
  - intros -> req'. destruct (user req); discriminate.
  - intros req'. destruct (user req) as [u|]; [|split; discriminate].
    cbn. destruct (String.eqb (role u) "admin"); cbn; split; congruence.
Qed.

Lemma chain_two (g1 g2 : Request -> outcome) (req req' : Request) :
  chain [g1; g2] req = Next req' <->
  exists mid, g1 req = Next mid /\ g2 mid = Next req'.
Proof.
  cbn. split.
  - destruct (g1 req) as [res|mid|e r]; try discriminate.
    destruct (g2 mid) as [res|r|e r] eqn:H2; try discriminate.
    intros [= <-]. exists mid. now split.
  - intros (mid & -> & ->). reflexivity.
Qed.

Lemma auth_next (lib : JwtLib) (cfg : Config) (db : Db) (t : Z) (req mid : Request) :
  auth lib cfg db t req = Next mid <->
  exists token u,
    extractToken req = Some token /\ token <> "" /\
    getUserFromToken lib cfg db t token = Ok u /\ mid = set_user u req.
Proof.
  unfold auth, deny. split.
  - destruct (extractToken req) as [token|]; [|discriminate].
    destruct (truthy (VStr token)) eqn:Htr; cbn [negb]; [|discriminate].
    destruct (getUserFromToken lib cfg db t token) as [u|error] eqn:Hg.
    + intros [= <-]. exists token, u.
      split; [reflexivity|]. split; [now apply nonempty_truthy|].
      split; [exact Hg|reflexivity].
    + destruct (eq_str (lookup "message" error) "User not found"); [discriminate|].
      destruct (eq_str (lookup "message" error) "User account is deactivated");
        discriminate.
  - intros (token & u & -> & Hne & -> & ->).
    apply nonempty_truthy in Hne. now rewrite Hne.
Qed.

(** X10: the route chains of routes/users.js.  Behind [auth, requireAdmin]
    the handler runs exactly for tokens that resolve to an admin; behind
    [auth, requireOwnership('id', 'userId')] it runs exactly for tokens that
    resolve to an admin or to the user whose id is the route's [:id]; in
    both cases the handler sees the request with the resolved identity
    attached. *)
Theorem users_route_chains (lib : JwtLib) (cfg : Config) (db : Db) (t : Z)
    (req req' : Request) :
  (chain [auth lib cfg db t; requireAdmin] req = Next req' <->
   exists token u,
     extractToken req = Some token /\ token <> "" /\
     getUserFromToken lib cfg db t token = Ok u /\
     role u = "admin" /\ req' = set_user u req) /\
  (chain [auth lib cfg db t; requireOwnership "id" "userId"] req = Next req' <->
   exists token u,
     extractToken req = Some token /\ token <> "" /\
     getUserFromToken lib cfg db t token = Ok u /\
     (role u = "admin" \/ param "id" (params req) = Some (_id u)) /\
     req' = set_user u req).
Proof.
  split; rewrite chain_two; split.
  - intros (mid & Ha & Hg).
    apply auth_next in Ha as (token & u & Hex & Hne & Hget & ->).
    exists token, u. unfold requireAdmin in Hg. cbn [user set_user] in Hg.
    destruct (String.eqb_spec (role u) "admin") as [Hr|Hr]; cbn in Hg;
      [|discriminate].
    injection Hg as <-. repeat split; assumption.
  - intros (token & u & Hex & Hne & Hget & Hr & ->).
    exists (set_user u req). split.
    + apply auth_next. exists token, u. repeat split; assumption.
    + unfold requireAdmin. cbn [user set_user]. now rewrite Hr.
  - intros (mid & Ha & Hg).
    apply auth_next in Ha as (token & u & Hex & Hne & Hget & ->).
    exists token, u. unfold requireOwnership in Hg.
    cbn [user set_user params String.eqb orb] in Hg.
    destruct (String.eqb_spec (role u) "admin") as [Hr|Hr].
    + injection Hg as <-. repeat split; try assumption. now left.
    + cbn in Hg.
      destruct (differs (_id u) (param "id" (params req))) eqn:Hd; [discriminate|].
      injection Hg as <-. apply GateFacts.differs_false in Hd.
      repeat split; try assumption. now right.
  - intros (token & u & Hex & Hne & Hget & Hr & ->).
    exists (set_user u req). split.
    + apply auth_next. exists token, u. repeat split; assumption.
    + unfold requireOwnership. cbn [user set_user params].
      destruct (String.eqb_spec (role u) "admin") as [|Hna]; [reflexivity|].
      destruct Hr as [Hr|Hr]; [contradiction|].
      cbn. apply GateFacts.differs_false in Hr. now rewrite Hr.
Qed.

(** X11: a token issued by [generateToken] for a stored user and presented
    as 'Bearer <token>' before its expiry passes the require-auth gate with
    that user's record (password stripped) attached when the account is
    active, and is refused with 403 'Account deactivated' when it is not. *)
Theorem issued_token_authenticates (lib : JwtLib) (cfg : Config) (db : Db)
    (t0 t1 d : Z) (u : UserDoc) (tok : string) (req : Request) :
  jwt_contract lib ->
  generateToken lib cfg t0 (identity_of_doc u) = Ok tok ->
  tok <> "" ->
  timespan lib (JWT_EXPIRE cfg) = Some d ->
  (t0 <= t1 < t0 + d)%Z ->
  User_findById db (Some (_id u)) = Ok (Some u) ->
  authorization req = Some ("Bearer " ++ tok) ->
  (isActive u = true ->
   auth lib cfg db t1 req = Next (set_user (set_password None u) req)) /\
  (isActive u = false ->
   auth lib cfg db t1 req = Responded (mkRes (VNum 403)
       (VObj [("error", VStr "Authentication failed");
              ("message", VStr "Account deactivated")]))).
Proof.
  intros Hlib Hgen Hne Hspan Hrange Hfind Hh.
  assert (Hex : extractToken req = Some tok).
  { unfold extractToken. rewrite Hh. cbn.
    rewrite Nat.sub_0_r, substring_all. now destruct tok. }
  assert (Hv : exists decoded,
             verifyToken lib cfg t1 tok = Ok decoded /\ c_id decoded = Some (_id u)).
  { unfold generateToken in Hgen.
    destruct (Hlib _ _ _ _ _ Hgen) as (d' & Hd' & Hverify).
    cbn [expiresIn] in Hd'. rewrite Hspan in Hd'. injection Hd' as <-.
    specialize (Hverify t1 Hrange). cbn [s_issuer s_audience] in Hverify.
    unfold verifyToken. rewrite Hverify. eexists. split; [reflexivity|].
    cbn. unfold subject_id. cbn. now destruct (negb (_id u =? "")). }
  destruct Hv as (decoded & Hv & Hid).
  apply nonempty_truthy in Hne.
  unfold auth. rewrite Hex, Hne. cbn [negb].
  unfold getUserFromToken. rewrite Hv. cbn [bind]. rewrite Hid, Hfind. cbn.
  split; intros ->; reflexivity.
Qed.

Lemma issued_token_authenticates_witness :
  auth RefJwt.lib sample_config sample_db 3600 (bearer alice_token)
  = Next (set_user (set_password None alice) (bearer alice_token)) /\
  auth RefJwt.lib sample_config sample_db 3600 (bearer dormant_token)
  = Responded (mkRes (VNum 403)
      (VObj [("error", VStr "Authentication failed");
             ("message", VStr "Account deactivated")])).
Proof.
  split.
  - apply (issued_token_authenticates RefJwt.lib sample_config sample_db 0 3600 604800
             alice alice_token (bearer alice_token) RefJwtFacts.lib_contract);
      try reflexivity; try lia.
    vm_compute. discriminate.
  - apply (issued_token_authenticates RefJwt.lib sample_config sample_db 0 3600 604800
             dormant dormant_token (bearer dormant_token) RefJwtFacts.lib_contract);
      try reflexivity; try lia.
    vm_compute. discriminate.
Defined.

Lemma requireRole_decides_witness :
  requireRole ["admin"; "editor"] (set_user alice (bearer alice_token))
  = Responded (mkRes (VNum 403)
      (VObj [("error", VStr "Access denied");
             ("message", VStr "One of the following roles is required: admin, editor")])).
Proof.
  refine (proj1 (proj2 (proj2 (requireRole_decides ["admin"; "editor"]
                                 (set_user alice (bearer alice_token)))))
                alice eq_refl _).
  vm_compute. intros [H|[H|[]]]; discriminate H.
Defined.

Lemma users_route_chains_witness :
  chain [auth RefJwt.lib sample_config staffed_db 3600; requireAdmin]
        (profile_request (_id alice) root_token)
  = Next (set_user (set_password None root) (profile_request (_id alice) root_token)).
Proof.
  apply (proj1 (users_route_chains RefJwt.lib sample_config staffed_db 3600
                  (profile_request (_id alice) root_token)
                  (set_user (set_password None root)
                            (profile_request (_id alice) root_token)))).
  exists root_token, (set_password None root).
  split; [reflexivity|]. split; [vm_compute; discriminate|].
  split; [vm_compute; reflexivity|]. split; reflexivity.
Defined.

End GateMore.

(** ** Password rules *)

Module PasswordFacts.
Import Auth Strength.

Lemma test_class_In (f : ascii -> bool) (s : string) :
  test_class f s = true <-> exists c, In c (list_ascii_of_string s) /\ f c = true.
Proof.
  induction s as [|a s IH]; simpl.
  - split; [discriminate|]. now intros (c & [] & _).
  - rewrite orb_true_iff, IH. split.
    + intros [H|(c & Hin & Hc)]; [exists a; now split; [left|]|exists c; now split; [right|]].
    + intros (c & [<-|Hin] & Hc); [now left|right; now exists c].
Qed.

Lemma validatePassword_spec (p : string) :
  isValid (validatePassword p)
  = (6 <=? String.length p)%nat && test_class is_upper p
    && test_class is_lower p && test_class is_digit p.
Proof.
  unfold validatePassword. cbn [isValid].
  rewrite Nat.ltb_antisym.
  destruct (6 <=? String.length p)%nat; destruct (test_class is_upper p);
    destruct (test_class is_lower p); destruct (test_class is_digit p); reflexivity.
Qed.

(** X12: [validatePassword] accepts a password exactly when it has at least
    six characters and contains an uppercase letter, a lowercase letter and
    a digit; it is accepted exactly when the list of errors is empty, and
    each of the four messages is listed exactly when its rule is broken. *)
Theorem validatePassword_accepts (p : string) :
  (isValid (validatePassword p) = true <->
   (6 <= String.length p)%nat /\
   (exists c, In c (list_ascii_of_string p) /\ is_upper c = true) /\
   (exists c, In c (list_ascii_of_string p) /\ is_lower c = true) /\
   (exists c, In c (list_ascii_of_string p) /\ is_digit c = true)) /\
  (isValid (validatePassword p) = true <-> errors (validatePassword p) = []) /\
  (In "Password must be at least 6 characters long" (errors (validatePassword p))
   <-> (String.length p < 6)%nat) /\
  (In "Password must contain at least one uppercase letter" (errors (validatePassword p))
   <-> test_class is_upper p = false) /\
  (In "Password must contain at least one lowercase letter" (errors (validatePassword p))
   <-> test_class is_lower p = false) /\
  (In "Password must contain at least one number" (errors (validatePassword p))
   <-> test_class is_digit p = false).
Proof.
  split.
  - rewrite validatePassword_spec, !andb_true_iff, Nat.leb_le, !test_class_In. tauto.
  - unfold validatePassword. cbn [isValid errors].
    destruct (String.length p <? 6)%nat eqn:Hlt;
      [apply Nat.ltb_lt in Hlt|apply Nat.ltb_ge in Hlt];
      destruct (test_class is_upper p); destruct (test_class is_lower p);
      destruct (test_class is_digit p); cbn;
      repeat split; intros; try reflexivity; try discriminate; try lia;
      try tauto; cbn in *; intuition (try discriminate; try lia).
Qed.

Lemma point_le (b : bool) : (point b <= 1)%nat.
Proof. destruct b; simpl; lia. Qed.

(** X13: every password [validatePassword] accepts is rated 'medium' or
    'strong' by [calculatePasswordStrength], never 'weak'. *)
Theorem accepted_password_not_weak (p : string) :
  isValid (validatePassword p) = true ->
  calculatePasswordStrength p = "medium" \/ calculatePasswordStrength p = "strong".
Proof.
  rewrite validatePassword_spec, !andb_true_iff.
  intros [[[_ Hu] Hl] Hd].
  unfold calculatePasswordStrength.
  assert (3 <= score p)%nat.
  { unfold score. rewrite Hu, Hl, Hd. simpl point. lia. }
  destruct (Nat.ltb_spec (score p) 3); [lia|].
  destruct (score p <? 6)%nat; [now left|now right].
Qed.

Lemma accepted_password_not_weak_witness :
  calculatePasswordStrength "Password1" = "medium"
  \/ calculatePasswordStrength "Password1" = "strong".
Proof.
  apply (accepted_password_not_weak "Password1"). reflexivity.
Defined.

(** X14: a password shorter than eight characters is rated 'strong' exactly
    when it has all four character classes, no character three times in a
    row and none of the sequences 123, abc, qwe; so length alone never
    keeps a password from being 'strong', and a short password containing a
    common sequence is never 'strong'. *)
Theorem short_password_strength (p : string) :
  (String.length p < 8)%nat ->
  (calculatePasswordStrength p = "strong" <->
   test_class is_lower p = true /\ test_class is_upper p = true /\
   test_class is_digit p = true /\ test_class is_special p = true /\
   has_repeat p = false /\ has_common_sequence p = false).
Proof.
  intros Hlen. unfold calculatePasswordStrength, score.
  destruct (Nat.leb_spec 8 (String.length p)); [lia|].
  destruct (Nat.leb_spec 12 (String.length p)); [lia|].
  destruct (test_class is_lower p); destruct (test_class is_upper p);
    destruct (test_class is_digit p); destruct (test_class is_special p);
    destruct (has_repeat p); destruct (has_common_sequence p); cbn;
    split; intros Hs; try discriminate; try tauto;
    try (destruct Hs as (?&?&?&?&?&?); discriminate).
Qed.

Lemma short_password_strength_witness :
  calculatePasswordStrength "aB3!" = "strong" /\
  calculatePasswordStrength "aB3!qwe" <> "strong".
Proof.
  split.
  - apply (short_password_strength "aB3!"); [simpl; lia|]. repeat split.
  - intros H. apply (short_password_strength "aB3!qwe") in H; [|simpl; lia].
    destruct H as (_ & _ & _ & _ & _ & H). discriminate H.
Defined.

Lemma validatePassword_accepts_witness :
  isValid (validatePassword "Passw0rd") = true.
Proof.
  apply (proj1 (validatePassword_accepts "Passw0rd")).
  split; [vm_compute; lia|].
  split; [exists "P"%char; split; [now left|reflexivity]|].
  split; [exists "a"%char; split; [right; now left|reflexivity]|].
  exists "0"%char. split; [vm_compute; tauto|reflexivity].
Defined.

End PasswordFacts.

(** ** routes/auth.js, continued *)

Module AuthRoutesMore.
Import Auth ErrorHandler Async AuthRoutes App Stated Samples TranslatorFacts.

(** A thrown AppError with truthy details, seen through the translator. *)
Lemma app_error_translated (node_env : option string) (iso : string) (req : Request)
    (m : string) (code : Z) (d : value) :
  valid_status (VNum code) = true -> truthy d = true ->
  exists res,
    continue_with (tail node_env iso) (settle req (Throw (AppError m code d)))
    = Some (Ok res) /\
    status res = VNum code /\
    get (json res) "error" = Ok (VStr m) /\
    get (json res) "details" = Ok d.
Proof.
  intros Hcode Hd. rewrite AppFacts.settled_failure_reaches_translator.
  unfold errorHandler.
  assert (Hc : classify (AppError m code d) = Ok (VNum code, VStr m, d)).
  { unfold classify, js_or. cbn. rewrite Hd.
    destruct (Z.eqb_spec code 0) as [->|]; [discriminate Hcode|reflexivity]. }
  rewrite Hc. cbn [bind].
  destruct (build_response_fields node_env iso (AppError m code d) req
              (VNum code) (VStr m) d)
    as (props & -> & He & _ & _ & _ & _ & Hdet).
  rewrite (res_status_json_valid _ _ Hcode).
  eexists. split; [reflexivity|]. cbn [status json get].
  rewrite He, Hdet, Hd. repeat split; reflexivity.
Qed.

Section Register.

Variable lib : JwtLib.
Variable cfg : Config.
Variable model : UserModel.
Variable vr : Request -> list value.
Variable now : Z.
Variable today : string.
Variable node_env : option string.
Variable iso : string.

Local Abbreviation answer :=
  (fun req db => serve node_env iso model (register lib cfg vr now today) req db).

(** X15: [register] turns a request down before it touches the storage
    layer when the validators report errors (400 'Validation Error', details
    the reported errors) or when the password, a string, breaks a strength
    rule (400 'Password does not meet requirements', details the broken
    rules): the collection is left as it was and the answer is the same even
    when the storage layer is unreachable. *)
Theorem register_rejects_before_storage (req : Request) (db : Db) :
  (vr req <> [] ->
   exists res,
     answer req db = (db, Some (Ok res)) /\ status res = VNum 400 /\
     get (json res) "error" = Ok (VStr "Validation Error") /\
     get (json res) "details" = Ok (VArr (vr req))) /\
  (forall p,
     vr req = [] -> lookup "password" (body req) = VStr p ->
     isValid (validatePassword p) = false ->
     exists res,
       answer req db = (db, Some (Ok res)) /\ status res = VNum 400 /\
       get (json res) "error" = Ok (VStr "Password does not meet requirements") /\
       get (json res) "details" = Ok (VArr (map VStr (errors (validatePassword p))))).
Proof.
  split.
  - intros Hv. unfold serve, asyncHandler, register.
    destruct (vr req) as [|e l] eqn:Hvr; [contradiction|].
    cbn [isEmpty negb run].
    destruct (app_error_translated node_env iso req "Validation Error" 400
                (VArr (e :: l))) as (res & Hr & Hs & He & Hd);
      [reflexivity|reflexivity|].
    exists res. rewrite Hr. repeat split; assumption.
  - intros p Hv Hraw Hp. unfold serve, asyncHandler, register.
    assert (Hf : field "password" req = p) by (unfold field; now rewrite Hraw).
    rewrite Hv, Hf, Hp. cbn [isEmpty negb run].
    destruct (app_error_translated node_env iso req
                "Password does not meet requirements" 400
                (VArr (map VStr (errors (validatePassword p)))))
      as (res & Hr & Hs & He & Hd); [reflexivity|reflexivity|].
    exists res. rewrite Hr. repeat split; assumption.
Qed.


End Register.

Lemma register_rejects_before_storage_witness :
  exists res,
    serve (Some "production") "2025-01-01T00:00:00.000Z" sample_model
          (register RefJwt.lib sample_config no_validation_errors 0 "2025-01-01")
          (mkReq "POST" "/api/auth/register" None []
                 [("username", VStr "erin"); ("email", VStr "e@example.com");
                  ("password", VStr "abc123")] None VUndefined)
          unreachable_db
    = (unreachable_db, Some (Ok res)) /\
    get (json res) "details"
    = Ok (VArr [VStr "Password must contain at least one uppercase letter"]).
Proof.
  destruct (proj2 (register_rejects_before_storage RefJwt.lib sample_config sample_model
                     no_validation_errors 0 "2025-01-01" (Some "production")
                     "2025-01-01T00:00:00.000Z"
                     (mkReq "POST" "/api/auth/register" None []
                            [("username", VStr "erin"); ("email", VStr "e@example.com");
                             ("password", VStr "abc123")] None VUndefined)
                     unreachable_db) "abc123" eq_refl eq_refl eq_refl)
    as (res & Hr & _ & _ & Hd).
  exists res. split; [exact Hr|exact Hd].
Defined.


End AuthRoutesMore.

Module LoginFacts.
Import Auth ErrorHandler Async AuthRoutes App Stated Samples TranslatorFacts.

Lemma find_map_preserving {A} (p : A -> bool) (f : A -> A) (l : list A) :
  (forall x, p (f x) = p x) -> find p (map f l) = option_map f (find p l).
Proof.
  intros Hp. induction l as [|x l IH]; simpl; [reflexivity|].
  rewrite Hp. destruct (p x); [reflexivity|exact IH].
Qed.

Lemma find_none_absent {A} (p : A -> bool) (l : list A) :
  (forall x, In x l -> p x = false) -> find p l = None.
Proof.
  intros H. induction l as [|x l IH]; simpl; [reflexivity|].
  rewrite (H x (or_introl eq_refl)). apply IH. intros y Hy. apply H. now right.
Qed.

Lemma existsb_absent {A} (p : A -> bool) (l : list A) :
  (forall x, In x l -> p x = false) -> existsb p l = false.
Proof.
  intros H. induction l as [|x l IH]; simpl; [reflexivity|].
  rewrite (H x (or_introl eq_refl)). apply IH. intros y Hy. apply H. now right.
Qed.

Section AfterRegistration.

Variable lib : JwtLib.
Variable cfg : Config.
Variable model : UserModel.
Variable vr : Request -> list value.
Variable now : Z.
Variable today : string.
Variable node_env : option string.
Variable iso : string.

Local Abbreviation inserted := (Derived.inserted model).

(** A registration on a collection that holds neither the email nor the
    username: the reply, the account it leaves, and what a later lookup
    under the name [l] finds. *)
Lemma registered_then (reg : Request) (db : Db) (l : string) :
  let e := toLowerCase (field "email" reg) in
  let un := toLowerCase (field "username" reg) in
  vr reg = [] ->
  isValid (validatePassword (field "password" reg)) = true ->
  down db = None ->
  (forall d, In d (users db) ->
     email d <> e /\ username d <> un /\ email d <> l /\ username d <> l) ->
  (forall u, exists token, generateToken lib cfg now (identity_of_doc u) = Ok token) ->
  exists db1 created_res account,
    serve node_env iso model (register lib cfg vr now today) reg db
    = (db1, Some (Ok created_res)) /\
    status created_res = VNum 201 /\
    down db1 = None /\
    email account = e /\ username account = un /\
    _id account = new_id model (users db) /\
    isActive account = true /\
    password account = Some (bcrypt_hash model (field "password" reg)) /\
    find (matches (ByEmailOrUsername l l true)) (users db1)
    = if String.eqb l e || String.eqb l un then Some account else None.
Proof.
  intros e un Hvr Hp Hup Hfresh Hsign.
  set (doc := inserted reg db).
  set (doc' := set_lastLogin (Some today) doc).
  set (upd := fun d => if String.eqb (_id d) (_id doc')
                       then set_lastLogin (lastLogin doc') d else d).
  set (db1 := mkDb (map upd (users db ++ [doc])%list) None).
  destruct (Hsign doc) as [tok1 Ht1].
  assert (Hreg : run model (register lib cfg vr now today reg) db
                 = (db1, Ok (Race.registered tok1 doc'))).
  { unfold register. rewrite Hvr, Hp. cbn [isEmpty negb run]. unfold User_findOne.
    rewrite Hup.
    rewrite (find_none_absent _ (users db)).
    2:{ intros d Hd. destruct (Hfresh d Hd) as (H1 & H2 & _). cbn.
        destruct (String.eqb_spec (email d) (toLowerCase (field "email" reg)));
          [contradiction|].
        destruct (String.eqb_spec (username d) (toLowerCase (field "username" reg)));
          [contradiction|reflexivity]. }
    cbn [option_map run]. unfold User_create. rewrite Hup. cbn [nu_email nu_username].
    rewrite (existsb_absent _ (users db)).
    2:{ intros d Hd. destruct (Hfresh d Hd) as (H1 & _).
        now destruct (String.eqb_spec (email d) (toLowerCase (field "email" reg))). }
    rewrite (existsb_absent _ (users db)).
    2:{ intros d Hd. destruct (Hfresh d Hd) as (_ & H2 & _).
        now destruct (String.eqb_spec (username d) (toLowerCase (field "username" reg))). }
    cbn [run nu_password nu_firstName nu_lastName].
    fold (inserted reg db). fold doc. rewrite Ht1. fold doc'.
    cbn [run]. unfold User_save. cbn [down users]. reflexivity. }
  assert (Hupd : forall d, matches (ByEmailOrUsername l l true) (upd d)
                           = matches (ByEmailOrUsername l l true) d).
  { intros d. unfold upd. destruct (String.eqb (_id d) (_id doc')); reflexivity. }
  exists db1, (Race.registered tok1 doc'), doc'.
  split; [unfold serve, asyncHandler; rewrite Hreg; reflexivity|].
  repeat (split; [reflexivity|]).
  cbn [users db1]. rewrite (find_map_preserving _ _ _ Hupd), TranslatorFacts.find_app.
  rewrite (find_none_absent _ (users db)).
  2:{ intros d Hd. destruct (Hfresh d Hd) as (_ & _ & H3 & H4). cbn.
      destruct (String.eqb_spec (email d) l); [contradiction|].
      destruct (String.eqb_spec (username d) l); [contradiction|reflexivity]. }
  cbn [find matches email username doc inserted].
  fold e un. rewrite (String.eqb_sym e l), (String.eqb_sym un l).
  destruct (String.eqb l e || String.eqb l un); [|reflexivity].
  cbn [option_map]. unfold upd.
  cbn [_id doc' doc inserted set_lastLogin]. now rewrite String.eqb_refl.
Qed.

(** A login that finds an active account whose stored hash the password
    matches. *)
Lemma login_found (log : Request) (db : Db) (u : UserDoc) (hash : string) :
  vr log = [] -> down db = None ->
  find (matches (ByEmailOrUsername (toLowerCase (field "login" log))
                                   (toLowerCase (field "login" log)) true))
       (users db) = Some u ->
  isActive u = true -> password u = Some hash ->
  bcrypt_compare model (field "password" log) hash = true ->
  (forall u, exists token, generateToken lib cfg now (identity_of_doc u) = Ok token) ->
  exists db2 tok,
    serve node_env iso model (login lib cfg model vr now today) log db
    = (db2, Some (Ok (mkRes (VNum 200)
                        (VObj [("message", VStr "Login successful");
                               ("token", VStr tok);
                               ("user", toPublicJSON (set_lastLogin (Some today) u))])))).
Proof.
  intros Hv Hup Hfind Hact Hpw Hcmp Hsign.
  destruct (Hsign u) as [tok Ht].
  unfold serve, asyncHandler, login. rewrite Hv. cbn [isEmpty negb run].
  unfold User_findOne. rewrite Hup, Hfind. cbn [option_map projection run].
  rewrite Hact, Hpw, Hcmp. cbn [negb]. rewrite Ht. cbn [run].
  unfold User_save. rewrite Hup. eexists. exists tok. reflexivity.
Qed.

(** A login under a name no account holds. *)
Lemma login_unknown (log : Request) (db : Db) :
  vr log = [] -> down db = None ->
  find (matches (ByEmailOrUsername (toLowerCase (field "login" log))
                                   (toLowerCase (field "login" log)) true))
       (users db) = None ->
  exists res,
    serve node_env iso model (login lib cfg model vr now today) log db
    = (db, Some (Ok res)) /\
    status res = VNum 401 /\
    get (json res) "error" = Ok (VStr "Invalid credentials") /\
    get (json res) "details" = Ok (VStr "User not found").
Proof.
  intros Hv Hup Hfind.
  unfold serve, asyncHandler, login. rewrite Hv. cbn [isEmpty negb run].
  unfold User_findOne. rewrite Hup, Hfind. cbn [option_map run].
  destruct (AuthRoutesMore.app_error_translated node_env iso log "Invalid credentials"
              401 (VStr "User not found")) as (res & Hr & Hs & He & Hd);
    [reflexivity|reflexivity|].
  exists res. rewrite Hr. repeat split; assumption.
Qed.

End AfterRegistration.

Section Login.

Variable lib : JwtLib.
Variable cfg : Config.
Variable model : UserModel.
Variable vr : Request -> list value.
Variable now : Z.
Variable today : string.
Variable node_env : option string.
Variable iso : string.

(** X17: a login that finds a deactivated account is answered 403 'Account
    deactivated' whether or not the password is right (the password is not
    even compared), and no token is issued. *)
Theorem login_deactivated_account (req : Request) (db : Db) (u : UserDoc) :
  vr req = [] -> down db = None ->
  find (matches (ByEmailOrUsername (toLowerCase (field "login" req))
                                   (toLowerCase (field "login" req)) true))
       (users db) = Some u ->
  isActive u = false ->
  exists res,
    serve node_env iso model (login lib cfg model vr now today) req db
    = (db, Some (Ok res)) /\
    status res = VNum 403 /\
    get (json res) "error" = Ok (VStr "Account deactivated") /\
    get (json res) "details" = Ok (VStr "Your account has been deactivated") /\
    get (json res) "token" = Ok VUndefined.
Proof.
  intros Hv Hup Hfind Hact. unfold serve, asyncHandler, login.
  rewrite Hv. cbn [isEmpty negb run]. unfold User_findOne.
  rewrite Hup, Hfind. cbn [option_map projection run]. rewrite Hact.
  cbn [negb run].
  rewrite AppFacts.settled_failure_reaches_translator. unfold errorHandler.
  set (err := AppError _ _ _).
  assert (Hc : classify err
               = Ok (VNum 403, VStr "Account deactivated",
                     VStr "Your account has been deactivated")) by reflexivity.
  rewrite Hc. cbn [bind]. unfold build_response.
  destruct (truthy (requestId req)); destruct (env_is node_env "development");
    eexists; (split; [reflexivity|]); repeat split; reflexivity.
Qed.

End Login.

Lemma lookup_set_same (k : string) (v : value) (props : list (string * value)) :
  lookup k (Chains.set_field k v props) = v.
Proof.
  induction props as [|[k' v'] r IH]; simpl.
  - now rewrite String.eqb_refl.
  - destruct (String.eqb k k') eqn:E; simpl; [now rewrite String.eqb_refl|].
    now rewrite E.
Qed.

Lemma lookup_set_other (k k' : string) (v : value) (props : list (string * value)) :
  k <> k' -> lookup k' (Chains.set_field k v props) = lookup k' props.
Proof.
  intros Hne. induction props as [|[k0 v0] r IH]; simpl.
  - destruct (String.eqb_spec k' k); [congruence|reflexivity].
  - destruct (String.eqb_spec k k0) as [->|]; simpl.
    + destruct (String.eqb_spec k' k0); [congruence|reflexivity].
    + now rewrite IH.
Qed.

Lemma sanitised_field (k : string) (f : value -> value) (req : Request) :
  lookup k (body (Chains.sanitise k f req)) = f (lookup k (body req)).
Proof.
  unfold Chains.sanitise.
  destruct (lookup k (body req)) eqn:Hl; try (cbn; apply lookup_set_same).
  destruct (f VUndefined) eqn:Hf; try (cbn; apply lookup_set_same).
  exact Hl.
Qed.

Lemma sanitised_other (k k' : string) (f : value -> value) (req : Request) :
  k <> k' -> lookup k' (body (Chains.sanitise k f req)) = lookup k' (body req).
Proof.
  intros Hne. unfold Chains.sanitise.
  destruct (lookup k (body req)); try (cbn; now apply lookup_set_other).
  destruct (f VUndefined); try (cbn; now apply lookup_set_other).
  reflexivity.
Qed.

(** The chains rewrite the body only, which the translator does not read. *)
Lemma sanitise_keeps (k : string) (f : value -> value) (req : Request) :
  method (Chains.sanitise k f req) = method req /\
  originalUrl (Chains.sanitise k f req) = originalUrl req /\
  requestId (Chains.sanitise k f req) = requestId req.
Proof.
  unfold Chains.sanitise.
  destruct (lookup k (body req)); try (repeat split; reflexivity).
  destruct (f VUndefined); repeat split; reflexivity.
Qed.

Lemma served_after_chain (node_env : option string) (iso : string) (model : UserModel)
    (route handler : Request -> prog) (raw req : Request) (db : Db) :
  route raw = handler req ->
  method req = method raw -> originalUrl req = originalUrl raw ->
  requestId req = requestId raw ->
  serve node_env iso model route raw db = serve node_env iso model handler req db.
Proof.
  intros Hroute Hm Hu Hr. unfold serve, asyncHandler. rewrite Hroute.
  destruct (run model (handler req) db) as [db' [res|e]]; [reflexivity|].
  cbn [settle continue_with tail on_error handle]. f_equal. f_equal.
  unfold errorHandler. destruct (classify e) as [[[c m] d]|]; [|reflexivity].
  cbn [bind]. unfold build_response. now rewrite Hm, Hu, Hr.
Qed.

Section Routes.

Variable san : Chains.Sanitisers.
Variable lib : JwtLib.
Variable cfg : Config.
Variable model : UserModel.
Variable chain_errors : Request -> list value.
Variable now : Z.
Variable today : string.
Variable node_env : option string.
Variable iso : string.


End Routes.



Lemma login_deactivated_account_witness :
  exists res,
    serve (Some "production") "2025-01-01T00:00:00.000Z" sample_model
          (login RefJwt.lib sample_config sample_model no_validation_errors 0 "2025-01-01")
          (login_request "BOB" "anything") sample_db
    = (sample_db, Some (Ok res)) /\ status res = VNum 403.
Proof.
  destruct (login_deactivated_account RefJwt.lib sample_config sample_model
              no_validation_errors 0 "2025-01-01" (Some "production")
              "2025-01-01T00:00:00.000Z" (login_request "BOB" "anything")
              sample_db dormant eq_refl eq_refl eq_refl eq_refl)
    as (res & Hr & Hs & _).
  exists res. split; assumption.
Defined.

End LoginFacts.

(** ** Slugs and excerpts *)

Module SlugFacts.
Import Auth AuthRoutes PostModel Shapes.

Ltac by_cases_on c := destruct c as [[] [] [] [] [] [] [] []]; reflexivity.

Lemma lower_char_not_upper (c : ascii) : is_upper (lower_char c) = false.
Proof. by_cases_on c. Qed.

Lemma lower_char_fixed (c : ascii) : is_upper c = false -> lower_char c = c.
Proof. unfold lower_char. now intros ->. Qed.

Lemma kept_char_slug (c : ascii) :
  is_upper c = false -> is_word c || is_space c || is_hyphen c = true ->
  is_separator c = false -> slug_char c = true.
Proof. destruct c as [[] [] [] [] [] [] [] []]; vm_compute; congruence. Qed.

Lemma slug_char_facts (c : ascii) :
  slug_char c = true ->
  is_upper c = false /\ is_space c = false /\
  is_word c || is_space c || is_hyphen c = true /\
  is_separator c = is_hyphen c.
Proof.
  destruct c as [[] [] [] [] [] [] [] []]; vm_compute; intros H;
    try discriminate; tauto.
Qed.

Lemma all_chars_toLowerCase (s : string) :
  all_chars (fun c => negb (is_upper c)) (toLowerCase s) = true.
Proof.
  induction s as [|c s IH]; simpl; [reflexivity|].
  now rewrite lower_char_not_upper, IH.
Qed.

Lemma all_chars_dropStart (p q : ascii -> bool) (s : string) :
  all_chars p s = true -> all_chars p (dropStart q s) = true.
Proof.
  induction s as [|c s IH]; simpl; [reflexivity|].
  intros H. apply andb_prop in H as [Hc Hs].
  destruct (q c); [now apply IH|]. simpl. now rewrite Hc, Hs.
Qed.

Lemma all_chars_trimStart (p : ascii -> bool) (s : string) :
  all_chars p s = true -> all_chars p (trimStart s) = true.
Proof.
  induction s as [|c s IH]; simpl; [reflexivity|].
  intros H. apply andb_prop in H as [Hc Hs].
  destruct (is_space c); [now apply IH|]. simpl. now rewrite Hc, Hs.
Qed.

Lemma all_chars_dropEnd (p q : ascii -> bool) (s : string) :
  all_chars p s = true -> all_chars p (dropEnd q s) = true.
Proof.
  induction s as [|c s IH]; simpl; [reflexivity|].
  intros H. apply andb_prop in H as [Hc Hs]. specialize (IH Hs).
  destruct (dropEnd q s) as [|c' r'].
  - destruct (q c); simpl; [reflexivity|now rewrite Hc].
  - simpl in *. now rewrite Hc, IH.
Qed.

Lemma all_chars_removeSpecial (p : ascii -> bool) (s : string) :
  all_chars p s = true ->
  all_chars (fun c => p c && (is_word c || is_space c || is_hyphen c)) (removeSpecial s)
  = true.
Proof.
  induction s as [|c s IH]; simpl; [reflexivity|].
  intros H. apply andb_prop in H as [Hc Hs].
  destruct (is_word c || is_space c || is_hyphen c) eqn:Hk; [|now apply IH].
  simpl. now rewrite Hc, Hk, IH.
Qed.

Lemma hyphenate_shape (s : string) :
  all_chars (fun c => negb (is_upper c) && (is_word c || is_space c || is_hyphen c)) s
  = true ->
  forall inRun,
    all_chars slug_char (hyphenate inRun s) = true /\
    no_double_hyphen (hyphenate inRun s) = true /\
    (inRun = true -> starts_with is_hyphen (hyphenate inRun s) = false).
Proof.
  induction s as [|c s IH]; simpl; intros H inRun.
  - repeat split; reflexivity.
  - apply andb_prop in H as [Hc Hs]. apply andb_prop in Hc as [Hu Hk].
    apply negb_true_iff in Hu.
    destruct (is_separator c) eqn:Hsep.
    + destruct (IH Hs true) as (Ha & Hn & Hst). destruct inRun.
      * repeat split; auto.
      * simpl. rewrite Ha, Hn, (Hst eq_refl). repeat split; try reflexivity.
        discriminate.
    + destruct (IH Hs false) as (Ha & Hn & _). simpl.
      rewrite (kept_char_slug c Hu Hk Hsep), Ha, Hn.
      assert (Hh : is_hyphen c = false).
      { unfold is_separator in Hsep. now apply orb_false_iff in Hsep as [_ ?]. }
      rewrite Hh. repeat split; reflexivity.
Qed.

Lemma no_double_dropStart (q : ascii -> bool) (s : string) :
  no_double_hyphen s = true -> no_double_hyphen (dropStart q s) = true.
Proof.
  induction s as [|c s IH]; simpl; [reflexivity|].
  intros H. destruct (q c); [|exact H].
  apply andb_prop in H as [_ Hs]. now apply IH.
Qed.

Lemma starts_dropEnd (p q : ascii -> bool) (s : string) :
  starts_with p s = false -> starts_with p (dropEnd q s) = false.
Proof.
  destruct s as [|c s]; simpl; [reflexivity|]. intros Hc.
  destruct (dropEnd q s); [destruct (q c)|]; simpl; auto.
Qed.

Lemma starts_dropStart (p : ascii -> bool) (s : string) :
  starts_with p (dropStart p s) = false.
Proof.
  induction s as [|c s IH]; simpl; [reflexivity|].
  destruct (p c) eqn:Hc; [exact IH|]. simpl. exact Hc.
Qed.

Lemma ends_dropEnd (p : ascii -> bool) (s : string) :
  ends_with p (dropEnd p s) = false.
Proof.
  induction s as [|c s IH]; simpl; [reflexivity|].
  destruct (dropEnd p s) as [|c' r'] eqn:Hd.
  - destruct (p c) eqn:Hc; simpl; [reflexivity|exact Hc].
  - exact IH.
Qed.

Lemma dropEnd_head (p q : ascii -> bool) (s : string) (c : ascii) (r : string) :
  dropEnd q s = String c r -> starts_with p s = p c.
Proof.
  destruct s as [|c0 s0]; simpl; [discriminate|].
  destruct (dropEnd q s0); [destruct (q c0)|]; intros H;
    try discriminate; now injection H as <- _.
Qed.

Lemma no_double_dropEnd (q : ascii -> bool) (s : string) :
  no_double_hyphen s = true -> no_double_hyphen (dropEnd q s) = true.
Proof.
  induction s as [|c s IH]; simpl; [reflexivity|].
  intros H. apply andb_prop in H as [Hc Hs]. specialize (IH Hs).
  destruct (dropEnd q s) as [|c' r'] eqn:Hd.
  - destruct (q c); simpl; [reflexivity|]. now rewrite andb_false_r.
  - change (negb (is_hyphen c && is_hyphen c') && no_double_hyphen (String c' r') = true).
    rewrite IH, andb_true_r.
    now rewrite <- (dropEnd_head is_hyphen q s c' r' Hd).
Qed.

Lemma slugify_slug_form (t : string) : slug_form (slugify t) = true.
Proof.
  unfold slugify, trimHyphens, trim.
  set (s1 := removeSpecial _).
  assert (H1 : all_chars (fun c => negb (is_upper c)
                                   && (is_word c || is_space c || is_hyphen c)) s1 = true).
  { apply all_chars_removeSpecial, all_chars_dropEnd, all_chars_trimStart,
      all_chars_toLowerCase. }
  destruct (hyphenate_shape s1 H1 false) as (Ha & Hn & _).
  unfold slug_form.
  rewrite (all_chars_dropEnd _ _ _ (all_chars_dropStart _ is_hyphen _ Ha)).
  rewrite (no_double_dropEnd _ _ (no_double_dropStart is_hyphen _ Hn)).
  rewrite (starts_dropEnd _ _ _ (starts_dropStart is_hyphen _)).
  now rewrite ends_dropEnd.
Qed.

Lemma toLowerCase_fixed (s : string) :
  all_chars slug_char s = true -> toLowerCase s = s.
Proof.
  induction s as [|c s IH]; simpl; [reflexivity|].
  intros H. apply andb_prop in H as [Hc Hs].
  destruct (slug_char_facts c Hc) as (Hu & _).
  now rewrite (lower_char_fixed c Hu), IH.
Qed.

Lemma dropEnd_fixed (p : ascii -> bool) (s : string) :
  ends_with p s = false -> dropEnd p s = s.
Proof.
  induction s as [|c s IH]; simpl; [reflexivity|].
  destruct s as [|c0 s0].
  - simpl. now intros ->.
  - intros H. rewrite (IH H). reflexivity.
Qed.

Lemma ends_with_all (p q : ascii -> bool) (s : string) :
  all_chars q s = true -> (forall c, q c = true -> p c = false) ->
  ends_with p s = false.
Proof.
  intros Hall Hq. induction s as [|c s IH]; [reflexivity|].
  simpl in Hall. apply andb_prop in Hall as [Hc Hs].
  destruct s as [|c0 s0]; simpl; [now apply Hq|now apply IH].
Qed.

Lemma removeSpecial_fixed (s : string) :
  all_chars slug_char s = true -> removeSpecial s = s.
Proof.
  induction s as [|c s IH]; simpl; [reflexivity|].
  intros H. apply andb_prop in H as [Hc Hs].
  destruct (slug_char_facts c Hc) as (_ & _ & Hk & _).
  now rewrite Hk, IH.
Qed.

Lemma hyphenate_fixed (s : string) :
  all_chars slug_char s = true -> no_double_hyphen s = true ->
  forall inRun, (inRun = true -> starts_with is_hyphen s = false) ->
    hyphenate inRun s = s.
Proof.
  induction s as [|c s IH]; simpl; [reflexivity|].
  intros Ha Hn inRun Hst.
  apply andb_prop in Ha as [Hc Hs]. apply andb_prop in Hn as [Hd Hn].
  destruct (slug_char_facts c Hc) as (_ & _ & _ & Hsep). rewrite Hsep.
  destruct (is_hyphen c) eqn:Hh.
  - destruct inRun; [now specialize (Hst eq_refl)|].
    assert (Hc' : c = "-"%char) by (now apply Ascii.eqb_eq).
    rewrite (IH Hs Hn true); [now subst|].
    intros _. cbn in Hd. now apply negb_true_iff in Hd.
  - rewrite (IH Hs Hn false); [reflexivity|discriminate].
Qed.

Lemma dropStart_fixed (p : ascii -> bool) (s : string) :
  starts_with p s = false -> dropStart p s = s.
Proof.
  destruct s as [|c s]; simpl; [reflexivity|]. now intros ->.
Qed.

Lemma trimStart_fixed (s : string) :
  starts_with is_space s = false -> trimStart s = s.
Proof.
  destruct s as [|c s]; simpl; [reflexivity|]. now intros ->.
Qed.

Lemma slug_form_fixed (s : string) : slug_form s = true -> slugify s = s.
Proof.
  unfold slug_form. rewrite !andb_true_iff, !negb_true_iff.
  intros [[[Ha Hn] Hst] Hen].
  assert (Hnsp : forall c, slug_char c = true -> is_space c = false)
    by (intros c Hc; now destruct (slug_char_facts c Hc) as (_ & ? & _)).
  unfold slugify, trimHyphens, trim.
  rewrite (toLowerCase_fixed s Ha).
  rewrite trimStart_fixed.
  2:{ destruct s as [|c s']; [reflexivity|]. simpl in Ha |- *.
      apply andb_prop in Ha as [Hc _]. now apply Hnsp. }
  rewrite (dropEnd_fixed is_space s (ends_with_all _ _ _ Ha Hnsp)).
  rewrite (removeSpecial_fixed s Ha).
  rewrite (hyphenate_fixed s Ha Hn false) by discriminate.
  rewrite (dropStart_fixed _ _ Hst). now apply dropEnd_fixed.
Qed.

(** X19: the slug the save hooks of posts and categories compute from a
    title or name consists of lowercase letters, digits and hyphens only,
    never starts or ends with a hyphen and has no two hyphens in a row; a
    string already in that form is its own slug, so computing the slug of a
    slug changes nothing. *)
Theorem slugify_normal_form (t : string) :
  all_chars slug_char (slugify t) = true /\
  no_double_hyphen (slugify t) = true /\
  starts_with is_hyphen (slugify t) = false /\
  ends_with is_hyphen (slugify t) = false /\
  slugify (slugify t) = slugify t /\
  (forall s, slug_form s = true -> slugify s = s).
Proof.
  pose proof (slugify_slug_form t) as H.
  pose proof (slug_form_fixed _ H) as Hfix.
  unfold slug_form in H. rewrite !andb_true_iff, !negb_true_iff in H.
  destruct H as [[[Ha Hn] Hst] Hen].
  repeat split; try assumption. apply slug_form_fixed.
Qed.

Lemma slugify_normal_form_witness :
  slugify "hello-world-my-first-post" = "hello-world-my-first-post" /\
  slugify (slugify "  Hello, World! -- My_first  post ")
  = slugify "  Hello, World! -- My_first  post ".
Proof.
  split.
  - apply (proj2 (proj2 (proj2 (proj2 (proj2 (slugify_normal_form "")))))
             "hello-world-my-first-post").
    reflexivity.
  - apply (proj1 (proj2 (proj2 (proj2 (proj2
             (slugify_normal_form "  Hello, World! -- My_first  post ")))))).
Defined.

End SlugFacts.

Module ExcerptFacts.
Import PostModel Shapes.

Lemma length_app (a b : string) :
  String.length (a ++ b) = (String.length a + String.length b)%nat.
Proof.
  induction a as [|c a IH]; simpl; [reflexivity|now rewrite IH].
Qed.

Lemma length_substring0 (n : nat) (s : string) :
  (String.length (substring 0 n s) <= n)%nat.
Proof.
  revert s. induction n as [|n IH]; intros [|c s]; simpl; try lia.
  specialize (IH s). lia.
Qed.

Lemma substring0_short (n : nat) (s : string) :
  (String.length s <= n)%nat -> substring 0 n s = s.
Proof.
  revert s. induction n as [|n IH]; intros [|c s]; simpl; intros H;
    try reflexivity; try lia.
  rewrite IH; [reflexivity|lia].
Qed.

Lemma stripTags_length (s : string) (inTag : bool) :
  (String.length (stripTags inTag s) <= String.length s)%nat.
Proof.
  revert inTag. induction s as [|c s IH]; intros inTag; simpl; [lia|].
  destruct inTag.
  - destruct (Ascii.eqb c ">"); [specialize (IH false)|specialize (IH true)]; lia.
  - destruct (Ascii.eqb c "<" && has_gt s);
      [specialize (IH true)|specialize (IH false); simpl]; lia.
Qed.

Lemma has_gt_stripTags (s : string) (inTag : bool) :
  has_gt (stripTags inTag s) = true -> has_gt s = true.
Proof.
  revert inTag. induction s as [|c s IH]; intros inTag; simpl; [discriminate|].
  destruct inTag.
  - destruct (Ascii.eqb c ">"); [reflexivity|]. simpl. apply IH.
  - destruct (Ascii.eqb c "<" && has_gt s) eqn:Ht.
    + intros H. rewrite (IH _ H). apply orb_true_r.
    + simpl. destruct (Ascii.eqb c ">"); [reflexivity|]. simpl. apply IH.
Qed.

Lemma stripTags_tag_free (s : string) (inTag : bool) :
  tag_free (stripTags inTag s) = true.
Proof.
  revert inTag. induction s as [|c s IH]; intros inTag; simpl; [reflexivity|].
  destruct inTag.
  - destruct (Ascii.eqb c ">"); apply IH.
  - destruct (Ascii.eqb c "<" && has_gt s) eqn:Ht; [apply IH|].
    simpl. rewrite IH, andb_true_r.
    destruct (Ascii.eqb c "<"); [|reflexivity]. simpl in *.
    destruct (has_gt (stripTags false s)) eqn:Hg; [|reflexivity].
    apply has_gt_stripTags in Hg. congruence.
Qed.

Lemma stripTags_fixed (s : string) : tag_free s = true -> stripTags false s = s.
Proof.
  induction s as [|c s IH]; simpl; [reflexivity|].
  intros H. apply andb_prop in H as [Hc Hs]. apply negb_true_iff in Hc.
  now rewrite Hc, IH.
Qed.

Lemma has_gt_substring0 (n : nat) (s : string) :
  has_gt (substring 0 n s) = true -> has_gt s = true.
Proof.
  revert s. induction n as [|n IH]; intros [|c s]; simpl; try discriminate.
  destruct (Ascii.eqb c ">"); [reflexivity|]. simpl. apply IH.
Qed.

Lemma has_gt_dots (s : string) : has_gt (s ++ "...") = has_gt s.
Proof.
  induction s as [|c s IH]; simpl; [reflexivity|now rewrite IH].
Qed.

Lemma tag_free_substring0 (n : nat) (s : string) :
  tag_free s = true -> tag_free (substring 0 n s) = true.
Proof.
  revert s. induction n as [|n IH]; intros [|c s]; simpl; try reflexivity.
  intros H. apply andb_prop in H as [Hc Hs]. rewrite (IH s Hs), andb_true_r.
  destruct (Ascii.eqb c "<"); [|reflexivity]. simpl in *.
  destruct (has_gt (substring 0 n s)) eqn:Hg; [|reflexivity].
  apply has_gt_substring0 in Hg. now rewrite Hg in Hc.
Qed.

Lemma tag_free_dots (s : string) : tag_free s = true -> tag_free (s ++ "...") = true.
Proof.
  induction s as [|c s IH]; simpl; [reflexivity|].
  intros H. apply andb_prop in H as [Hc Hs].
  now rewrite has_gt_dots, Hc, IH.
Qed.

(** X20: the excerpt hook never overwrites a non-empty excerpt and does
    nothing for empty content; otherwise the excerpt it generates has at
    most 153 characters, contains no complete tag (no [<] with a [>] after
    it), and is the content itself when the content has no tag and at most
    150 characters. *)
Theorem generateExcerpt_properties (e : option string) (c : string) :
  (forall x, e = Some x -> x <> "" -> generateExcerpt e c = e) /\
  (c = "" -> generateExcerpt e c = e) /\
  (e = None \/ e = Some "" -> c <> "" ->
   exists x,
     generateExcerpt e c = Some x /\
     (String.length x <= 153)%nat /\
     tag_free x = true /\
     (tag_free c = true -> (String.length c <= 150)%nat -> x = c)).
Proof.
  split; [|split].
  - intros x -> Hx. unfold generateExcerpt. cbn.
    destruct (String.eqb_spec x ""); [contradiction|reflexivity].
  - intros ->. unfold generateExcerpt. cbn. now rewrite andb_false_r.
  - intros He Hc. unfold generateExcerpt.
    assert (H1 : negb (truthy (match e with Some e0 => VStr e0 | None => VUndefined end))
                 = true) by (destruct He as [-> | ->]; reflexivity).
    assert (H2 : truthy (VStr c) = true)
      by (cbn; destruct (String.eqb_spec c ""); [contradiction|reflexivity]).
    rewrite H1, H2. cbn [andb].
    eexists. split; [reflexivity|]. split; [|split].
    + rewrite length_app.
      pose proof (length_substring0 150 (stripTags false c)).
      destruct (150 <? String.length (stripTags false c))%nat; simpl; lia.
    + pose proof (tag_free_substring0 150 _ (stripTags_tag_free c false)) as Ht.
      destruct (150 <? String.length (stripTags false c))%nat.
      * now apply tag_free_dots.
      * clear -Ht. induction (substring 0 150 (stripTags false c)) as [|a s IH];
          [reflexivity|].
        simpl in *. apply andb_prop in Ht as [Ha Hs].
        rewrite (IH Hs), andb_true_r.
        assert (Hg : forall s0, has_gt (s0 ++ "") = has_gt s0)
          by (induction s0 as [|b s0 IH0]; simpl; [reflexivity|now rewrite IH0]).
        now rewrite Hg.
    + intros Htf Hlen. rewrite (stripTags_fixed c Htf).
      destruct (Nat.ltb_spec 150 (String.length c)); [lia|].
      rewrite (substring0_short 150 c Hlen).
      clear. induction c as [|a s IH]; simpl; [reflexivity|now rewrite IH].
Qed.

Lemma generateExcerpt_properties_witness :
  generateExcerpt (Some "Hand-written") "<p>Body</p>" = Some "Hand-written" /\
  exists x,
    generateExcerpt None "<p>Hello <b>world</b></p>" = Some x /\
    (String.length x <= 153)%nat /\ tag_free x = true.
Proof.
  split.
  - apply (proj1 (generateExcerpt_properties (Some "Hand-written") "<p>Body</p>")
             "Hand-written" eq_refl). discriminate.
  - destruct (proj2 (proj2 (generateExcerpt_properties None "<p>Hello <b>world</b></p>"))
                (or_introl eq_refl)) as (x & Hx & Hl & Ht & _); [discriminate|].
    exists x. repeat split; assumption.
Defined.

End ExcerptFacts.

(** ** Likes and views *)

Module LikeFacts.
Import PostModel.

Lemma find_existsb {A} (p : A -> bool) (l : list A) :
  (exists x, find p l = Some x) <-> existsb p l = true.
Proof.
  induction l as [|a l IH]; simpl.
  - split; [now intros [x H]|discriminate].
  - destruct (p a); simpl; [split; eauto|exact IH].
Qed.

Lemma generateExcerpt_idem (e : option string) (c : string) :
  generateExcerpt (generateExcerpt e c) c = generateExcerpt e c.
Proof.
  unfold generateExcerpt.
  destruct (negb (truthy (match e with Some e0 => VStr e0 | None => VUndefined end))
            && truthy (VStr c)) eqn:H1; [|now rewrite H1].
  apply andb_prop in H1 as [_ Hc]. rewrite Hc, andb_true_r.
  set (x := (_ ++ _)%string).
  destruct (negb (truthy (VStr x))); reflexivity.
Qed.

Lemma preSave_idem (p : PostDoc) : preSave (preSave p) = preSave p.
Proof.
  unfold preSave, with_excerpt. cbn. now rewrite generateExcerpt_idem.
Qed.

Lemma filter_absent (uid : string) (ls : list Like) :
  existsb (fun like => String.eqb (like_user like) uid) ls = false ->
  filter (fun like => negb (String.eqb (like_user like) uid)) ls = ls.
Proof.
  induction ls as [|a ls IH]; simpl; [reflexivity|].
  intros H. apply orb_false_iff in H as [Ha Hls].
  now rewrite Ha, IH.
Qed.

Lemma existsb_filter_other (uid other : string) (ls : list Like) :
  other <> uid ->
  existsb (fun like => String.eqb (like_user like) other)
          (filter (fun like => negb (String.eqb (like_user like) uid)) ls)
  = existsb (fun like => String.eqb (like_user like) other) ls.
Proof.
  intros Hne. induction ls as [|a ls IH]; simpl; [reflexivity|].
  destruct (String.eqb_spec (like_user a) uid) as [Hu|Hu]; simpl.
  - rewrite IH. destruct (String.eqb_spec (like_user a) other); [congruence|reflexivity].
  - now rewrite IH.
Qed.

Lemma existsb_filter_self (uid : string) (ls : list Like) :
  existsb (fun like => String.eqb (like_user like) uid)
          (filter (fun like => negb (String.eqb (like_user like) uid)) ls) = false.
Proof.
  induction ls as [|a ls IH]; simpl; [reflexivity|].
  destruct (String.eqb (like_user a) uid) eqn:Ha; simpl; [exact IH|].
  now rewrite Ha, IH.
Qed.

Lemma filter_length_lt (uid : string) (ls : list Like) :
  existsb (fun like => String.eqb (like_user like) uid) ls = true ->
  (List.length (filter (fun like => negb (String.eqb (like_user like) uid)) ls)
   < List.length ls)%nat.
Proof.
  induction ls as [|a ls IH]; simpl; [discriminate|].
  destruct (String.eqb (like_user a) uid); simpl.
  - intros _. pose proof (filter_length_le (fun like => negb (String.eqb (like_user like) uid)) ls).
    lia.
  - intros H. specialize (IH H). lia.
Qed.

(** X21: [toggleLike] flips whether the given user likes the post and
    leaves every other user's like, the title, status, author and view count
    alone; it adds exactly one like when the user did not like the post and
    removes at least one when they did; liking and then unliking gives back
    the post as a plain save would have left it. *)
Theorem toggleLike_properties (now now' : string) (uid : string) (p : PostDoc) :
  likedBy uid (toggleLike now uid p) = negb (likedBy uid p) /\
  (forall other, other <> uid ->
     likedBy other (toggleLike now uid p) = likedBy other p) /\
  (likedBy uid p = false ->
   likeCount (toggleLike now uid p) = (likeCount p + 1)%Z /\
   toggleLike now' uid (toggleLike now uid p) = preSave p) /\
  (likedBy uid p = true ->
   (likeCount (toggleLike now uid p) < likeCount p)%Z) /\
  (post_id (toggleLike now uid p) = post_id p /\
   title (toggleLike now uid p) = title p /\
   post_status (toggleLike now uid p) = post_status p /\
   author (toggleLike now uid p) = author p /\
   views (toggleLike now uid p) = views p).
Proof.
  unfold toggleLike, toggled, likedBy, likeCount.
  destruct (find (fun like => String.eqb (like_user like) uid) (likes p)) as [l|] eqn:Hf.
  - assert (Hex : existsb (fun like => String.eqb (like_user like) uid) (likes p) = true)
      by (apply find_existsb; eauto).
    rewrite Hex. cbn [preSave with_excerpt with_likes likes negb
                      post_id title post_status author views].
    split; [apply existsb_filter_self|].
    split; [intros other Hne; now apply existsb_filter_other|].
    split; [discriminate|]. split; [|repeat split].
    intros _. pose proof (filter_length_lt uid (likes p) Hex). lia.
  - assert (Hex : existsb (fun like => String.eqb (like_user like) uid) (likes p) = false).
    { destruct (existsb _ (likes p)) eqn:Hx; [|reflexivity].
      apply find_existsb in Hx as [x Hx]. congruence. }
    rewrite Hex. cbn [preSave with_excerpt with_likes likes negb
                      post_id title post_status author views].
    split; [rewrite existsb_app; cbn; rewrite String.eqb_refl; apply orb_true_r|].
    split.
    { intros other Hne. rewrite existsb_app. cbn.
      destruct (String.eqb_spec uid other); [congruence|].
      now rewrite !orb_false_r. }
    split; [|split; [discriminate|repeat split]].
    intros _. split.
    + rewrite length_app. cbn. lia.
    + assert (Hf2 : exists x, find (fun like => String.eqb (like_user like) uid)
                                   (likes p ++ [mkLike uid now]) = Some x).
      { apply find_existsb. rewrite existsb_app. cbn.
        rewrite String.eqb_refl. apply orb_true_r. }
      destruct Hf2 as [x ->].
      rewrite filter_app, (filter_absent uid (likes p) Hex). cbn.
      rewrite String.eqb_refl. cbn. rewrite app_nil_r.
      unfold preSave, with_excerpt, with_likes. cbn.
      rewrite generateExcerpt_idem. reflexivity.
Qed.

Lemma toggleLike_properties_witness :
  likeCount (toggleLike "d1" "u1" (mkPost "p1" "T" "Body" None None "u0" "c1"
                                         "published" 0 [] None)) = 1%Z.
Proof.
  exact (proj1 (proj1 (proj2 (proj2
           (toggleLike_properties "d1" "d2" "u1"
              (mkPost "p1" "T" "Body" None None "u0" "c1" "published" 0 [] None))))
           eq_refl)).
Defined.

End LikeFacts.

(** ** Pagination *)

Module PagingFacts.
Import Paging.

Lemma ceil_div_bounds (a b : Z) :
  (0 < b)%Z -> (a <= ceil_div a b * b < a + b)%Z.
Proof.
  intros Hb. unfold ceil_div.
  pose proof (Z.div_mod (- a) b ltac:(lia)) as Hdm.
  pose proof (Z.mod_pos_bound (- a) b Hb) as Hm.
  nia.
Qed.

(** X22: the pagination object of the list routes, for a page number and a
    page size of at least 1 and a non-negative count: the pages are just
    enough to hold the items, [hasNext] says exactly that items remain after
    the current page, [hasPrev] that the page is not the first, there are no
    pages exactly when there are no items, and the number of skipped items
    is never negative. *)
Theorem paginate_properties (page size count : Z) :
  (1 <= page)%Z -> (1 <= size)%Z -> (0 <= count)%Z ->
  (count <= total (paginate page size count) * size < count + size)%Z /\
  (hasNext (paginate page size count) = true <-> (page * size < count)%Z) /\
  (hasPrev (paginate page size count) = true <-> (1 < page)%Z) /\
  (total (paginate page size count) = 0%Z <-> count = 0%Z) /\
  (0 <= skip page size)%Z /\
  current (paginate page size count) = page /\
  limit (paginate page size count) = size /\
  totalItems (paginate page size count) = count.
Proof.
  intros Hp Hs Hc. unfold paginate, skip. cbn.
  pose proof (ceil_div_bounds count size ltac:(lia)) as Hb.
  rewrite !Z.ltb_lt.
  repeat split; try lia; try nia.
Qed.

Lemma paginate_properties_witness :
  hasNext (paginate 2 10 25) = true /\ hasPrev (paginate 2 10 25) = true /\
  (25 <= total (paginate 2 10 25) * 10 < 35)%Z.
Proof.
  pose proof (paginate_properties 2 10 25 ltac:(lia) ltac:(lia) ltac:(lia))
    as (Hb & H2 & H3 & _).
  split; [apply H2; lia|]. split; [apply H3; lia|exact Hb].
Defined.

Lemma firstn_add {A} (a b : nat) (l : list A) :
  firstn (a + b) l = (firstn a l ++ firstn b (skipn a l))%list.
Proof.
  revert l. induction a as [|a IH]; intros l; [reflexivity|].
  destruct l as [|x l]; simpl; [now destruct b|]. now rewrite IH.
Qed.

Lemma chunks_concat {A} (n m : nat) (l : list A) :
  concat (map (fun k => firstn n (skipn (k * n) l)) (seq 0 m)) = firstn (m * n) l.
Proof.
  induction m as [|m IH]; [reflexivity|].
  rewrite seq_S, map_app, concat_app, IH. cbn [map concat plus].
  rewrite app_nil_r, <- firstn_add. f_equal. lia.
Qed.

(** X23: the windows [.skip((page - 1) * limit).limit(limit)] of the pages
    1 to [total] put one after the other give back the whole list of
    matches, in order; every window holds at most [limit] items and the
    window of a page beyond [total] is empty. *)
Theorem windows_cover {A} (size : Z) (matches : list A) :
  (1 <= size)%Z ->
  let pages := total (paginate 1 size (Z.of_nat (List.length matches))) in
  concat (map (fun k => window (Z.of_nat k) size matches) (seq 1 (Z.to_nat pages)))
  = matches /\
  (forall page, (Z.of_nat (List.length (window page size matches)) <= size)%Z) /\
  (forall page, (pages < page)%Z -> window page size matches = []).
Proof.
  intros Hs pages.
  assert (Hb : (Z.of_nat (List.length matches) <= pages * size
                < Z.of_nat (List.length matches) + size)%Z)
    by (apply ceil_div_bounds; lia).
  pose proof (Nat2Z.is_nonneg (List.length matches)) as Hn.
  assert (Hpg : (0 <= pages)%Z) by nia.
  clearbody pages.
  split; [|split].
  - rewrite <- seq_shift, map_map.
    rewrite (map_ext _ (fun k => firstn (Z.to_nat size)
                                        (skipn (k * Z.to_nat size) matches))).
    2:{ intros k. unfold window, skip. do 2 f_equal. nia. }
    rewrite chunks_concat. apply firstn_all2. nia.
  - intros page. unfold window.
    pose proof (firstn_le_length (Z.to_nat size)
                  (skipn (Z.to_nat (skip page size)) matches)). lia.
  - intros page Hlt. unfold window.
    rewrite skipn_all2; [now rewrite firstn_nil|]. unfold skip. nia.
Qed.

Lemma windows_cover_witness :
  concat (map (fun k => window (Z.of_nat k) 2 [1; 2; 3; 4; 5]%Z) (seq 1 3))
  = [1; 2; 3; 4; 5]%Z.
Proof.
  exact (proj1 (windows_cover 2 [1; 2; 3; 4; 5]%Z ltac:(lia))).
Defined.

End PagingFacts.

(** ** The post and user routes over the store *)

Module BlogFacts.
Import Auth Gates ErrorHandler Async AuthRoutes App PostModel Blog Pipeline.
Import Stated Samples BlogSamples TranslatorFacts.

Lemma find_has_id (i : string) (l : list PostDoc) (p : PostDoc) :
  find (has_id i) l = Some p -> post_id p = i.
Proof.
  intros H. apply find_some in H as [_ H]. now apply String.eqb_eq in H.
Qed.

Lemma find_split {A} (f : A -> bool) (l : list A) (x : A) :
  find f l = Some x ->
  exists before after,
    l = (before ++ x :: after)%list /\ forallb (fun y => negb (f y)) before = true /\
    remove_first f l = (before ++ after)%list.
Proof.
  induction l as [|a l IH]; simpl; [discriminate|].
  destruct (f a) eqn:Ha.
  - intros [= ->]. exists [], l. repeat split.
  - intros H. destruct (IH H) as (b & r & -> & Hb & Hr).
    exists (a :: b), r. simpl. rewrite Ha, Hb, Hr. repeat split.
Qed.

Lemma find_written (i : string) (l : list PostDoc) (p p' : PostDoc) :
  post_id p' = i -> find (has_id i) l = Some p ->
  find (has_id i) (map (fun d => if has_id (post_id p') d then p' else d) l) = Some p'.
Proof.
  intros Hid. subst i. induction l as [|a l IH]; simpl; [discriminate|].
  destruct (has_id (post_id p') a) eqn:Ha.
  - intros _. unfold has_id at 1. now rewrite String.eqb_refl.
  - rewrite Ha. exact IH.
Qed.

Lemma find_beside (i j : string) (l : list PostDoc) (p' : PostDoc) :
  post_id p' = i -> j <> i ->
  find (has_id j) (map (fun d => if has_id (post_id p') d then p' else d) l)
  = find (has_id j) l.
Proof.
  intros Hid Hne. subst i. induction l as [|a l IH]; simpl; [reflexivity|].
  destruct (has_id (post_id p') a) eqn:Ha.
  - unfold has_id in *. apply String.eqb_eq in Ha.
    destruct (String.eqb_spec (post_id p') j); [congruence|].
    rewrite Ha. destruct (String.eqb_spec (post_id p') j); [congruence|]. exact IH.
  - now rewrite IH.
Qed.

(** A thrown AppError seen through the translator. *)
Lemma app_error_answer (node_env : option string) (iso : string) (req : Request)
    (m : string) (code : Z) (d : value) :
  valid_status (VNum code) = true ->
  exists res,
    continue_with (tail node_env iso) (settle req (Throw (AppError m code d)))
    = Some (Ok res) /\
    status res = VNum code /\
    get (json res) "error" = Ok (VStr m) /\
    get (json res) "details" = Ok (if truthy d then d else VUndefined).
Proof.
  intros Hcode. rewrite AppFacts.settled_failure_reaches_translator.
  unfold errorHandler.
  assert (Hc : exists d', classify (AppError m code d) = Ok (VNum code, VStr m, d') /\
                          truthy d' = truthy d /\ (truthy d = true -> d' = d)).
  { unfold classify, js_or. cbn.
    destruct (Z.eqb_spec code 0) as [->|]; [discriminate Hcode|].
    destruct (truthy d) eqn:Hd; eexists; (split; [reflexivity|]); split;
      try reflexivity; try assumption; discriminate. }
  destruct Hc as (d' & Hc & Ht & Hd'). rewrite Hc. cbn [bind].
  destruct (build_response_fields node_env iso (AppError m code d) req
              (VNum code) (VStr m) d')
    as (props & -> & He & _ & _ & _ & _ & Hdet).
  rewrite (res_status_json_valid _ _ Hcode).
  eexists. split; [reflexivity|]. cbn [status json get].
  rewrite He, Hdet, Ht. split; [reflexivity|]. split; [reflexivity|].
  destruct (truthy d); [now rewrite Hd'|reflexivity].
Qed.

(** What the translator answers once the blocks have settled on a triple. *)
Lemma classified_answer (node_env : option string) (iso : string) (req : Request)
    (e : js_error) (c m d : value) :
  classify e = Ok (c, m, d) -> valid_status c = true ->
  exists res,
    continue_with (tail node_env iso) (settle req (Throw e)) = Some (Ok res) /\
    status res = c /\
    get (json res) "error" = Ok m /\
    get (json res) "details" = Ok (if truthy d then d else VUndefined).
Proof.
  intros Hc Hvalid. rewrite AppFacts.settled_failure_reaches_translator.
  unfold errorHandler. rewrite Hc. cbn [bind].
  destruct (build_response_fields node_env iso e req c m d)
    as (props & -> & He & _ & _ & _ & _ & Hdet).
  rewrite (res_status_json_valid _ _ Hvalid).
  eexists. split; [reflexivity|]. cbn [status json get].
  rewrite He, Hdet. repeat split; reflexivity.
Qed.

Section Routes.

Variable valid_id : string -> bool.
Variable render : PostDoc -> value.
Variable node_env : option string.
Variable iso : string.

(** X24: [DELETE /api/posts/:id] never changes the store except to remove
    the post named by the route on behalf of its author or of an admin:
    for every request and store, either the store is left as it was, or the
    caller is the post's author or an admin and the reply is 200 'Post
    deleted successfully'. *)
Theorem deletePost_only_for_author_or_admin (req : Request) (s : Store) :
  fst (deletePost valid_id req s) = s \/
  exists u i post,
    user req = Some u /\ param "id" (params req) = Some i /\
    find (has_id i) (posts s) = Some post /\
    (role u = "admin" \/ author post = _id u) /\
    deletePost valid_id req s
    = (mkStore (accounts s) (remove_first (has_id i) (posts s)),
       Ok (mkRes (VNum 200) (VObj [("message", VStr "Post deleted successfully")]))).
Proof.
  unfold deletePost, mbind, Post_findById, Post_findByIdAndDelete, lift, caller,
    throw, ret.
  destruct (param "id" (params req)) as [i|]; [|now left].
  destruct (valid_id i) eqn:Hv; [|now left].
  destruct (down (accounts s)) eqn:Hd; [now left|].
  destruct (find (has_id i) (posts s)) as [post|] eqn:Hf; [|now left].
  destruct (user req) as [u|]; [|now left].
  destruct (String.eqb_spec (role u) "admin") as [Hr|Hr]; cbn [negb andb].
  - right. exists u, i, post. cbn [andb].
    split; [reflexivity|]. split; [reflexivity|]. split; [exact Hf|].
    split; [now left|now rewrite Hd].
  - destruct (String.eqb_spec (author post) (_id u)) as [Ha|Ha]; cbn [negb andb].
    + right. exists u, i, post.
      split; [reflexivity|]. split; [reflexivity|]. split; [exact Hf|].
      split; [now right|now rewrite Hd].
    + now left.
Qed.


(** X25: [DELETE /api/posts/:id] for a stored post and a caller the gates
    attached.  A caller who is neither an admin nor the author is answered
    403 'Access denied' with details 'You can only delete your own posts'
    and the store is left as it was; for the author or an admin the first
    stored post with that id is removed, every other post stays in place,
    and the reply is 200 'Post deleted successfully'. *)
Theorem deletePost_decides (gates : Db -> list (Request -> outcome))
    (req0 req : Request) (s : Store) (u : UserDoc) (i : string) (post : PostDoc) :
  chain (gates (accounts s)) req0 = Next req ->
  user req = Some u -> param "id" (params req) = Some i -> valid_id i = true ->
  down (accounts s) = None -> find (has_id i) (posts s) = Some post ->
  (role u <> "admin" -> author post <> _id u ->
   exists res,
     route node_env iso gates (deletePost valid_id) req0 s = (s, Some (Ok res)) /\
     status res = VNum 403 /\
     get (json res) "error" = Ok (VStr "Access denied") /\
     get (json res) "details" = Ok (VStr "You can only delete your own posts")) /\
  (role u = "admin" \/ author post = _id u ->
   exists before after,
     posts s = (before ++ post :: after)%list /\
     forallb (fun q => negb (has_id i q)) before = true /\
     route node_env iso gates (deletePost valid_id) req0 s
     = (mkStore (accounts s) (before ++ after),
        Some (Ok (mkRes (VNum 200)
                    (VObj [("message", VStr "Post deleted successfully")]))))).
Proof.
  intros Hg Hu Hp Hv Hd Hf. unfold route. rewrite Hg.
  unfold deletePost, mbind, Post_findById, Post_findByIdAndDelete, lift, caller,
    throw, ret.
  rewrite Hp, Hv, Hd, Hf, Hu. split.
  - intros Hr Ha.
    destruct (String.eqb_spec (role u) "admin"); [contradiction|].
    destruct (String.eqb_spec (author post) (_id u)); [contradiction|].
    cbn [negb andb].
    destruct (app_error_answer node_env iso req "Access denied" 403
                (VStr "You can only delete your own posts"))
      as (res & Hr' & Hs & He & Hdet); [reflexivity|].
    exists res. cbn [settle] in Hr' |- *. rewrite Hr'.
    split; [reflexivity|]. split; [exact Hs|]. split; [exact He|exact Hdet].
  - intros Hor.
    assert (Hc : negb (String.eqb (role u) "admin")
                 && negb (String.eqb (author post) (_id u)) = false).
    { destruct Hor as [-> | ->]; [reflexivity|].
      rewrite String.eqb_refl. apply andb_false_r. }
    rewrite Hc.
    destruct (find_split _ _ _ Hf) as (before & after & Hl & Hb & Hrm).
    exists before, after. rewrite Hrm, Hd.
    split; [exact Hl|]. split; [exact Hb|reflexivity].
Qed.

Lemma toggleLike_id (today uid : string) (p : PostDoc) :
  post_id (toggleLike today uid p) = post_id p.
Proof.
  unfold toggleLike, toggled. now destruct (find _ (likes p)).
Qed.

Lemma toggleLike_flips (today uid : string) (p : PostDoc) :
  likedBy uid (toggleLike today uid p) = negb (likedBy uid p).
Proof.
  unfold toggleLike, toggled, likedBy.
  destruct (find (fun like => String.eqb (like_user like) uid) (likes p)) as [l|] eqn:Hf.
  - assert (Hex : existsb (fun like => String.eqb (like_user like) uid) (likes p) = true)
      by (apply LikeFacts.find_existsb; eauto).
    rewrite Hex. cbn. apply LikeFacts.existsb_filter_self.
  - assert (Hex : existsb (fun like => String.eqb (like_user like) uid) (likes p) = false).
    { destruct (existsb _ (likes p)) eqn:Hx; [|reflexivity].
      apply LikeFacts.find_existsb in Hx as [x Hx]. congruence. }
    rewrite Hex. cbn. rewrite existsb_app. cbn.
    rewrite String.eqb_refl. apply orb_true_r.
Qed.

Lemma toggleLike_twice (today today' uid : string) (p : PostDoc) :
  likedBy uid p = false ->
  toggleLike today' uid (toggleLike today uid p) = preSave p.
Proof.
  unfold likedBy. intros Hex. unfold toggleLike, toggled.
  destruct (find (fun like => String.eqb (like_user like) uid) (likes p)) as [l|] eqn:Hf.
  { assert (existsb (fun like => String.eqb (like_user like) uid) (likes p) = true)
      by (apply LikeFacts.find_existsb; eauto). congruence. }
  cbn [preSave with_excerpt with_likes likes content excerpt].
  assert (Hf2 : exists x, find (fun like => String.eqb (like_user like) uid)
                               (likes p ++ [mkLike uid today]) = Some x).
  { apply LikeFacts.find_existsb. rewrite existsb_app. cbn.
    rewrite String.eqb_refl. apply orb_true_r. }
  destruct Hf2 as [x ->].
  rewrite filter_app, (LikeFacts.filter_absent uid (likes p) Hex). cbn.
  rewrite String.eqb_refl. cbn. rewrite app_nil_r.
  unfold preSave, with_excerpt, with_likes. cbn.
  rewrite LikeFacts.generateExcerpt_idem. reflexivity.
Qed.

(** The schema does not look at the likes. *)
Lemma validate_toggled (today uid : string) (p : PostDoc) :
  validate (toggled today uid p) = validate p.
Proof.
  unfold toggled. now destruct (find _ (likes p)).
Qed.

(** What the excerpt hook writes passes the schema. *)
Lemma validate_preSave (p : PostDoc) : validate p = [] -> validate (preSave p) = [].
Proof.
  unfold validate, preSave, with_excerpt.
  cbn [title content excerpt post_status views].
  intros H.
  apply app_eq_nil in H as [H1 H]. apply app_eq_nil in H as [H2 H].
  apply app_eq_nil in H as [H3 H]. apply app_eq_nil in H as [H4 H5].
  rewrite H1, H2, H4, H5. cbn [app]. rewrite app_nil_r.
  unfold generateExcerpt.
  destruct (negb (truthy match excerpt p with
                         | Some e => VStr e
                         | None => VUndefined
                         end) && truthy (VStr (content p))); [|exact H3].
  set (plain := stripTags false (content p)).
  assert (Hlen : (String.length (substring 0 150 plain
                                 ++ (if (150 <? String.length plain)%nat
                                     then "..." else "")) <= 153)%nat).
  { rewrite ExcerptFacts.length_app.
    pose proof (ExcerptFacts.length_substring0 150 plain).
    destruct (150 <? String.length plain)%nat; cbn [String.length]; lia. }
  destruct (Nat.ltb_spec 500 (String.length (substring 0 150 plain
                                              ++ (if (150 <? String.length plain)%nat
                                                  then "..." else ""))));
    [lia|reflexivity].
Qed.

Lemma save_valid (p : PostDoc) : validate p = [] -> save p = Ok (preSave p).
Proof.
  intros H. unfold save. now rewrite H.
Qed.

Lemma save_invalid (p : PostDoc) :
  validate p <> [] -> save p = Throw (ValidationError (validate p)).
Proof.
  intros H. unfold save. destruct (validate p); [contradiction|reflexivity].
Qed.

Lemma failure_messages (fs : list Failure) :
  mapM (fun val => get val "message")
       (map snd (map (fun f => (path f,
                                VObj [("name", VStr "ValidatorError");
                                      ("message", VStr (message f));
                                      ("kind", VStr (kind f));
                                      ("path", VStr (path f));
                                      ("value", held f)])) fs))
  = Ok (map (fun f => VStr (message f)) fs).
Proof.
  induction fs as [|f fs IH]; [reflexivity|].
  cbn [map snd mapM get lookup String.eqb Ascii.eqb Bool.eqb bind]. rewrite IH.
  reflexivity.
Qed.

(** A rejected validation seen through the translator. *)
Lemma validation_answer (req : Request) (fs : list Failure) :
  exists res ds,
    continue_with (tail node_env iso) (settle req (Throw (ValidationError fs)))
    = Some (Ok res) /\
    status res = VNum 400 /\
    get (json res) "error" = Ok (VStr "Validation Error") /\
    get (json res) "details" = Ok (VArr ds) /\
    forall m, In (VStr m) ds <-> In m (map message fs).
Proof.
  assert (Hc : classify (ValidationError fs)
               = Ok (VNum 400, VStr "Validation Error",
                     VArr (map (fun f => VStr (message f)) fs))).
  { unfold classify, ValidationError, is_name, is_code_str.
    cbn [lookup String.eqb Ascii.eqb Bool.eqb eq_str eq_num truthy andb orb negb
         Object_values bind].
    rewrite failure_messages. reflexivity. }
  destruct (classified_answer node_env iso req (ValidationError fs) _ _ _ Hc eq_refl)
    as (res & Hr & Hst & He & Hd).
  exists res, (map (fun f => VStr (message f)) fs).
  split; [exact Hr|]. split; [exact Hst|]. split; [exact He|]. split; [exact Hd|].
  intros m. rewrite !in_map_iff. split.
  - intros (f & [= <-] & Hin). eauto.
  - intros (f & <- & Hin). eauto.
Qed.

(** X26: [POST /api/posts/:id/like] for a stored post and a caller the gate
    attached.  A post that is not published is answered 400 'Cannot like
    unpublished post' and nothing is written.  On a published post that
    passes the schema the reply's [isLiked] is the opposite of whether the
    caller liked the post before, the message is 'Post liked' or 'Post
    unliked' accordingly, the stored post is liked by the caller exactly
    when the reply says so, the posts with other ids and the accounts are
    untouched, and a second call by a caller who had not liked the post
    stores the post as a plain save would have left it.  On a published
    post that the schema rejects (a title of four characters, say) the save
    fails: nothing is written and the answer is 400 'Validation Error' with
    the messages of the failing paths as details. *)
Theorem likePost_toggles (today today' : string) (req : Request) (s : Store)
    (u : UserDoc) (i : string) (post : PostDoc) :
  user req = Some u -> param "id" (params req) = Some i -> valid_id i = true ->
  down (accounts s) = None -> find (has_id i) (posts s) = Some post ->
  (post_status post <> "published" ->
   fst (likePost valid_id today req s) = s /\
   exists res,
     continue_with (tail node_env iso) (settle req (snd (likePost valid_id today req s)))
     = Some (Ok res) /\
     status res = VNum 400 /\
     get (json res) "error" = Ok (VStr "Cannot like unpublished post") /\
     get (json res) "details" = Ok VUndefined) /\
  (post_status post = "published" -> validate post = [] ->
   let s' := fst (likePost valid_id today req s) in
   let liked := negb (likedBy (_id u) post) in
   snd (likePost valid_id today req s)
   = Ok (mkRes (VNum 200)
           (VObj [("message", VStr (if liked then "Post liked" else "Post unliked"));
                  ("likeCount", VNum (likeCount (toggleLike today (_id u) post)));
                  ("isLiked", VBool liked)])) /\
   find (has_id i) (posts s') = Some (toggleLike today (_id u) post) /\
   likedBy (_id u) (toggleLike today (_id u) post) = liked /\
   (forall j, j <> i -> find (has_id j) (posts s') = find (has_id j) (posts s)) /\
   accounts s' = accounts s /\
   (likedBy (_id u) post = false ->
    find (has_id i) (posts (fst (likePost valid_id today' req s'))) = Some (preSave post))) /\
  (post_status post = "published" -> validate post <> [] ->
   fst (likePost valid_id today req s) = s /\
   exists res ds,
     continue_with (tail node_env iso) (settle req (snd (likePost valid_id today req s)))
     = Some (Ok res) /\
     status res = VNum 400 /\
     get (json res) "error" = Ok (VStr "Validation Error") /\
     get (json res) "details" = Ok (VArr ds) /\
     forall m, In (VStr m) ds <-> In m (map message (validate post))).
Proof.
  intros Hu Hp Hv Hd Hf.
  pose proof (find_has_id _ _ _ Hf) as Hid.
  assert (Hlike : forall t s0 p0,
             down (accounts s0) = None -> find (has_id i) (posts s0) = Some p0 ->
             post_status p0 = "published" -> validate p0 = [] ->
             likePost valid_id t req s0
             = (mkStore (accounts s0)
                  (map (fun d => if has_id (post_id (toggleLike t (_id u) p0)) d
                                 then toggleLike t (_id u) p0 else d) (posts s0)),
                Ok (mkRes (VNum 200)
                      (VObj [("message",
                              VStr (if likedBy (_id u) (toggleLike t (_id u) p0)
                                    then "Post liked" else "Post unliked"));
                             ("likeCount", VNum (likeCount (toggleLike t (_id u) p0)));
                             ("isLiked", VBool (likedBy (_id u) (toggleLike t (_id u) p0)))])))).
  { intros t s0 p0 Hd0 Hf0 Hs0 Hval.
    unfold likePost, mbind, Post_findById, Post_save, lift, caller, throw, ret.
    rewrite Hp, Hv, Hd0, Hf0, Hs0, Hu. cbn [String.eqb Ascii.eqb Bool.eqb negb].
    rewrite save_valid by (now rewrite validate_toggled).
    rewrite Hd0. reflexivity. }
  split; [|split].
  - intros Hs.
    assert (Hrun : likePost valid_id today req s
                   = (s, Throw (AppError "Cannot like unpublished post" 400 VNull))).
    { unfold likePost, mbind, Post_findById, throw.
      rewrite Hp, Hv, Hd, Hf.
      destruct (String.eqb_spec (post_status post) "published"); [contradiction|].
      reflexivity. }
    rewrite Hrun. cbn [fst snd]. split; [reflexivity|].
    destruct (app_error_answer node_env iso req "Cannot like unpublished post" 400
                VNull) as (res & Hr & Hst & He & Hdet); [reflexivity|].
    exists res. repeat split; assumption.
  - intros Hs Hval s' liked. subst s'. rewrite (Hlike today s post Hd Hf Hs Hval).
    cbn [fst snd posts accounts].
    pose proof (toggleLike_id today (_id u) post) as Hid'.
    rewrite toggleLike_flips. fold liked.
    split; [reflexivity|].
    split; [apply (find_written i _ post); congruence|].
    split; [reflexivity|].
    split; [intros j Hj; apply (find_beside i); congruence|].
    split; [reflexivity|].
    intros Hnot.
    rewrite (Hlike today' _ (toggleLike today (_id u) post)).
    + cbn [fst posts].
      rewrite toggleLike_twice by assumption.
      apply (find_written i _ (toggleLike today (_id u) post)).
      * unfold preSave. cbn. exact Hid.
      * apply (find_written i _ post); congruence.
    + exact Hd.
    + cbn [posts]. apply (find_written i _ post); congruence.
    + unfold toggleLike, toggled. now destruct (find _ (likes post)).
    + unfold toggleLike. apply validate_preSave. now rewrite validate_toggled.
  - intros Hs Hval.
    assert (Hrun : likePost valid_id today req s
                   = (s, Throw (ValidationError (validate post)))).
    { unfold likePost, mbind, Post_findById, Post_save, lift, caller, throw, ret.
      rewrite Hp, Hv, Hd, Hf, Hs, Hu. cbn [String.eqb Ascii.eqb Bool.eqb negb].
      rewrite save_invalid by (now rewrite validate_toggled).
      now rewrite validate_toggled. }
    rewrite Hrun. cbn [fst snd]. split; [reflexivity|].
    apply validation_answer.
Qed.

(** X27: [GET /api/posts/:id] for a stored post whose author's account is
    stored.  A post that is not published is answered, to anyone but its
    author and the admins, exactly as a post that does not exist (404 'Post
    not found', nothing written); its author and the admins get it without
    a view being counted.  A published post is served to its author as it
    is, nothing being written.  For every other reader the view is counted
    by a save: when the post with its counter raised passes the schema, the
    stored counter goes up by one and the reply shows the new count; when
    the schema rejects it, nothing is written and the answer is 400
    'Validation Error' with the messages of the failing paths. *)
Theorem getPost_visibility (req : Request) (s : Store) (i : string)
    (post : PostDoc) (writer : UserDoc) :
  param "id" (params req) = Some i -> valid_id i = true ->
  down (accounts s) = None -> find (has_id i) (posts s) = Some post ->
  find (fun a => String.eqb (_id a) (author post)) (users (accounts s)) = Some writer ->
  let by_author :=
    match user req with Some u => String.eqb (_id writer) (_id u) | None => false end in
  let by_admin :=
    match user req with Some u => String.eqb (role u) "admin" | None => false end in
  let missing := (s, Throw (AppError "Post not found" 404 VNull)) in
  (exists res,
     continue_with (tail node_env iso) (settle req (snd missing)) = Some (Ok res) /\
     status res = VNum 404 /\
     get (json res) "error" = Ok (VStr "Post not found") /\
     get (json res) "details" = Ok VUndefined) /\
  (post_status post <> "published" -> by_author = false -> by_admin = false ->
   getPost valid_id render req s = missing) /\
  (forall req' j, param "id" (params req') = Some j -> valid_id j = true ->
                  find (has_id j) (posts s) = None ->
                  getPost valid_id render req' s = missing) /\
  (post_status post <> "published" -> by_author = true \/ by_admin = true ->
   getPost valid_id render req s
   = (s, Ok (mkRes (VNum 200) (VObj [("post", render post)])))) /\
  (post_status post = "published" -> by_author = false ->
   validate (viewed post) = [] ->
   snd (getPost valid_id render req s)
   = Ok (mkRes (VNum 200) (VObj [("post", render (incrementViews post))])) /\
   find (has_id i) (posts (fst (getPost valid_id render req s)))
   = Some (incrementViews post) /\
   views (incrementViews post) = (views post + 1)%Z /\
   (forall j, j <> i ->
      find (has_id j) (posts (fst (getPost valid_id render req s)))
      = find (has_id j) (posts s)) /\
   accounts (fst (getPost valid_id render req s)) = accounts s) /\
  (post_status post = "published" -> by_author = false ->
   validate (viewed post) <> [] ->
   fst (getPost valid_id render req s) = s /\
   exists res ds,
     continue_with (tail node_env iso)
                   (settle req (snd (getPost valid_id render req s)))
     = Some (Ok res) /\
     status res = VNum 400 /\
     get (json res) "error" = Ok (VStr "Validation Error") /\
     get (json res) "details" = Ok (VArr ds) /\
     forall m, In (VStr m) ds <-> In m (map message (validate (viewed post)))) /\
  (post_status post = "published" -> by_author = true ->
   getPost valid_id render req s
   = (s, Ok (mkRes (VNum 200) (VObj [("post", render post)])))).
Proof.
  intros Hp Hv Hd Hf Hw by_author by_admin missing.
  pose proof (find_has_id _ _ _ Hf) as Hid.
  assert (Hstep : getPost valid_id render req s
                  = (populated <~ populate_author post ;;
                     hidden <~ (if negb (String.eqb (post_status post) "published")
                                then
                                  match user req with
                                  | None => ret true
                                  | Some u =>
                                      if negb (String.eqb (role u) "admin")
                                      then a <~ lift (author_id populated) ;;
                                           ret (negb (String.eqb a (_id u)))
                                      else ret false
                                  end
                                else ret false) ;;
                     if (hidden : bool)
                     then throw (AppError "Post not found" 404 VNull)
                     else
                       counts <~ (if String.eqb (post_status post) "published"
                                  then
                                    match user req with
                                    | None => ret true
                                    | Some u =>
                                        a <~ lift (author_id populated) ;;
                                        ret (negb (String.eqb a (_id u)))
                                    end
                                  else ret false) ;;
                       post <~ (if (counts : bool)
                                then Post_save (viewed post)
                                else ret post) ;;
                       ret (mkRes (VNum 200) (VObj [("post", render post)]))) s).
  { unfold getPost, mbind at 1, Post_findById. now rewrite Hp, Hv, Hd, Hf. }
  assert (Hcount : post_status post = "published" -> by_author = false ->
                   getPost valid_id render req s
                   = (p <~ Post_save (viewed post) ;;
                      ret (mkRes (VNum 200) (VObj [("post", render p)]))) s).
  { intros Hs Ha. rewrite Hstep.
    unfold mbind, populate_author, lift, author_id, throw, ret.
    rewrite Hw, Hs. cbn [String.eqb Ascii.eqb Bool.eqb negb].
    subst by_author by_admin.
    destruct (user req) as [u|]; [rewrite Ha|]; reflexivity. }
  split; [|split; [|split; [|split; [|split; [|split]]]]].
  - destruct (app_error_answer node_env iso req "Post not found" 404 VNull)
      as (res & Hr & Hst & He & Hdet); [reflexivity|].
    exists res. repeat split; assumption.
  - intros Hs Ha Hadm. rewrite Hstep.
    unfold mbind, populate_author, lift, author_id, throw, ret. rewrite Hw.
    destruct (String.eqb_spec (post_status post) "published"); [contradiction|].
    cbn [negb]. subst by_author by_admin.
    destruct (user req) as [u|]; [|reflexivity].
    rewrite Hadm, Ha. reflexivity.
  - intros req' j Hp' Hv' Hf'.
    unfold getPost, mbind, Post_findById, throw. now rewrite Hp', Hv', Hd, Hf'.
  - intros Hs Hor. rewrite Hstep.
    unfold mbind, populate_author, lift, author_id, throw, ret. rewrite Hw.
    destruct (String.eqb_spec (post_status post) "published"); [contradiction|].
    cbn [negb]. subst by_author by_admin.
    destruct (user req) as [u|]; [|now destruct Hor].
    destruct (String.eqb (role u) "admin"); [reflexivity|].
    destruct Hor as [Ha|Ha]; [|discriminate]. rewrite Ha. reflexivity.
  - intros Hs Ha Hval. rewrite (Hcount Hs Ha).
    unfold mbind, Post_save, ret. rewrite (save_valid _ Hval), Hd.
    fold (incrementViews post). cbn [fst snd posts accounts].
    assert (Hid' : post_id (incrementViews post) = i) by exact Hid.
    split; [reflexivity|].
    split; [apply (find_written i _ post); assumption|].
    split; [reflexivity|].
    split; [intros j Hj; apply (find_beside i); assumption|reflexivity].
  - intros Hs Ha Hval. rewrite (Hcount Hs Ha).
    unfold mbind, Post_save, ret. rewrite (save_invalid _ Hval).
    cbn [fst snd]. split; [reflexivity|]. apply validation_answer.
  - intros Hs Ha. rewrite Hstep.
    unfold mbind, populate_author, lift, author_id, throw, ret. rewrite Hw, Hs.
    cbn [String.eqb Ascii.eqb Bool.eqb negb]. subst by_author.
    destruct (user req) as [u|]; [|discriminate]. rewrite Ha. reflexivity.
Qed.

(** X28: [GET /api/posts/:id] for a stored published post whose author's
    account is no longer stored ([populate] leaves [post.author] null).  An
    anonymous reader of a post that passes the schema with its counter
    raised is served and the view is counted; for any request with an
    identity attached the comparison [post.author._id] throws a TypeError,
    which the translator answers with status 500 'Internal Server Error',
    and nothing is written. *)
Theorem getPost_orphaned_post (req : Request) (s : Store) (i : string) (post : PostDoc) :
  param "id" (params req) = Some i -> valid_id i = true ->
  down (accounts s) = None -> find (has_id i) (posts s) = Some post ->
  find (fun a => String.eqb (_id a) (author post)) (users (accounts s)) = None ->
  post_status post = "published" ->
  (user req = None -> validate (viewed post) = [] ->
   snd (getPost valid_id render req s)
   = Ok (mkRes (VNum 200) (VObj [("post", render (incrementViews post))])) /\
   find (has_id i) (posts (fst (getPost valid_id render req s)))
   = Some (incrementViews post)) /\
  (user req <> None ->
   fst (getPost valid_id render req s) = s /\
   exists res,
     continue_with (tail node_env iso) (settle req (snd (getPost valid_id render req s)))
     = Some (Ok res) /\
     status res = VNum 500 /\
     get (json res) "error" = Ok (VStr "Internal Server Error")).
Proof.
  intros Hp Hv Hd Hf Hw Hs.
  pose proof (find_has_id _ _ _ Hf) as Hid.
  unfold getPost, mbind, Post_findById, populate_author, lift, author_id, throw, ret,
    Post_save.
  rewrite Hp, Hv, Hd, Hf, Hw, Hs. cbn [String.eqb Ascii.eqb Bool.eqb negb].
  split.
  - intros Hu Hval. rewrite Hu, (save_valid _ Hval), Hd.
    fold (incrementViews post). cbn [fst snd posts].
    split; [reflexivity|]. apply (find_written i _ post); assumption.
  - intros Hu. destruct (user req) as [u|]; [|contradiction].
    cbn [fst snd]. split; [reflexivity|].
    destruct (classified_answer node_env iso req
                (TypeError "Cannot read properties of null (reading '_id')")
                (VNum 500) (VStr "Internal Server Error") VNull eq_refl eq_refl)
      as (res & Hr & Hst & He & _).
    exists res. repeat split; assumption.
Qed.

(** X29: [DELETE /api/users/:id].  Whatever the request and the store, the
    accounts that carry the caller's own id are all still stored afterwards
    and no post is touched (the posts of a deleted author stay behind); an
    admin naming their own stored account is answered 400 'Cannot delete
    your own account'. *)
Theorem deleteUser_spares_the_caller (req : Request) (s : Store) (u : UserDoc) :
  user req = Some u ->
  (forall x, In x (users (accounts s)) -> _id x = _id u ->
             In x (users (accounts (fst (deleteUser valid_id req s))))) /\
  posts (fst (deleteUser valid_id req s)) = posts s /\
  (forall me, param "id" (params req) = Some (_id u) -> valid_id (_id u) = true ->
              down (accounts s) = None ->
              find (fun a => String.eqb (_id a) (_id u)) (users (accounts s)) = Some me ->
              fst (deleteUser valid_id req s) = s /\
              exists res,
                continue_with (tail node_env iso)
                              (settle req (snd (deleteUser valid_id req s)))
                = Some (Ok res) /\
                status res = VNum 400 /\
                get (json res) "error" = Ok (VStr "Cannot delete your own account")).
Proof.
  intros Hu.
  assert (Hkeep : forall (f : UserDoc -> bool) l x,
             In x l -> f x = false -> In x (remove_first f l)).
  { intros f l x. induction l as [|a l IH]; simpl; [tauto|].
    intros [->|Hin] Hx.
    - rewrite Hx. now left.
    - destruct (f a); [exact Hin|]. right. now apply IH. }
  unfold deleteUser, mbind, Users_findById, Users_findByIdAndDelete, User_findById,
    lift, caller, throw, ret.
  rewrite Hu.
  split; [|split].
  - intros x Hin Hx.
    destruct (param "id" (params req)) as [i|]; cbn [fst].
    2:{ destruct (down (accounts s)); exact Hin. }
    destruct (valid_id i); [|exact Hin].
    destruct (down (accounts s)) eqn:Hd; [exact Hin|].
    destruct (find (fun u0 => String.eqb (_id u0) i) (users (accounts s)))
      as [target|] eqn:Hf; [|exact Hin].
    apply find_some in Hf as [_ Ht]. apply String.eqb_eq in Ht.
    destruct (String.eqb_spec (_id target) (_id u)) as [He|He]; [exact Hin|].
    rewrite Hd. cbn [fst accounts users]. apply Hkeep; [exact Hin|].
    apply String.eqb_neq. congruence.
  - destruct (param "id" (params req)) as [i|]; cbn [fst].
    2:{ destruct (down (accounts s)); reflexivity. }
    destruct (valid_id i); [|reflexivity].
    destruct (down (accounts s)) eqn:Hd; [reflexivity|].
    destruct (find (fun u0 => String.eqb (_id u0) i) (users (accounts s)))
      as [target|]; [|reflexivity].
    destruct (String.eqb (_id target) (_id u)); [reflexivity|].
    now rewrite Hd.
  - intros me Hp Hv Hd Hf. rewrite Hp, Hv, Hd, Hf.
    pose proof (find_some _ _ Hf) as [_ Hme]. rewrite Hme.
    cbn [fst snd]. split; [reflexivity|].
    destruct (app_error_answer node_env iso req "Cannot delete your own account"
                400 VNull) as (res & Hr & Hst & He & _); [reflexivity|].
    exists res. repeat split; assumption.
Qed.

(** X30: an id the storage layer cannot cast.  Each of the four handlers
    throws the CastError before anything is read or written, whether or not
    the storage layer is reachable, and the translator answers 400 'Invalid
    resource ID format' with details 'The provided ID is not a valid
    MongoDB ObjectId'. *)
Theorem malformed_id_answered_400 (today : string) (req : Request) (s : Store)
    (i : string) (handler : Request -> M Store Response) :
  param "id" (params req) = Some i -> valid_id i = false ->
  In handler [getPost valid_id render; deletePost valid_id;
              likePost valid_id today; deleteUser valid_id] ->
  handler req s = (s, Throw (CastError i)) /\
  exists res,
    route node_env iso (fun _ => []) handler req s = (s, Some (Ok res)) /\
    status res = VNum 400 /\
    get (json res) "error" = Ok (VStr "Invalid resource ID format") /\
    get (json res) "details"
    = Ok (VStr "The provided ID is not a valid MongoDB ObjectId").
Proof.
  intros Hp Hv Hin.
  assert (Hh : handler req s = (s, Throw (CastError i))).
  { destruct Hin as [<-|[<-|[<-|[<-|[]]]]];
      unfold getPost, deletePost, likePost, deleteUser, mbind, Post_findById,
        Users_findById; now rewrite Hp, Hv. }
  split; [exact Hh|].
  unfold route. cbn [chain]. rewrite Hh.
  destruct (classified_answer node_env iso req (CastError i) (VNum 400)
              (VStr "Invalid resource ID format")
              (VStr "The provided ID is not a valid MongoDB ObjectId") eq_refl eq_refl)
    as (res & Hr & Hst & He & Hdet).
  exists res. rewrite Hr. repeat split; assumption.
Qed.

End Routes.

Lemma deletePost_decides_witness :
  (exists res,
     route None "2024-01-01T00:00:00.000Z"
           (fun db => [auth RefJwt.lib sample_config db 3600])
           (deletePost hex_id)
           (signed "DELETE" "/api/posts/" "70a3" alice_token) library
     = (library, Some (Ok res)) /\
     status res = VNum 403 /\
     get (json res) "error" = Ok (VStr "Access denied") /\
     get (json res) "details" = Ok (VStr "You can only delete your own posts")) /\
  (exists before after,
     posts library = (before ++ essay :: after)%list /\
     forallb (fun q => negb (has_id "70a1" q)) before = true /\
     route None "2024-01-01T00:00:00.000Z"
           (fun db => [auth RefJwt.lib sample_config db 3600])
           (deletePost hex_id)
           (signed "DELETE" "/api/posts/" "70a1" alice_token) library
     = (mkStore (accounts library) (before ++ after),
        Some (Ok (mkRes (VNum 200)
                    (VObj [("message", VStr "Post deleted successfully")]))))).
Proof.
  split.
  - refine (proj1 (deletePost_decides hex_id None "2024-01-01T00:00:00.000Z"
                     (fun db => [auth RefJwt.lib sample_config db 3600])
                     (signed "DELETE" "/api/posts/" "70a3" alice_token)
                     _ library (set_password None alice) "70a3" memo
                     _ _ _ _ _ _) _ _);
      try (vm_compute; reflexivity); vm_compute; discriminate.
  - refine (proj2 (deletePost_decides hex_id None "2024-01-01T00:00:00.000Z"
                     (fun db => [auth RefJwt.lib sample_config db 3600])
                     (signed "DELETE" "/api/posts/" "70a1" alice_token)
                     _ library (set_password None alice) "70a1" essay
                     _ _ _ _ _ _) _);
      try (vm_compute; reflexivity). right. reflexivity.
Defined.


Lemma likePost_toggles_witness :
  fst (likePost hex_id "d1" (asking (Some alice) "70a2") library) = library /\
  snd (likePost hex_id "d1" (asking (Some alice) "70a1") library)
  = Ok (mkRes (VNum 200)
          (VObj [("message", VStr "Post liked"); ("likeCount", VNum 2);
                 ("isLiked", VBool true)])) /\
  fst (likePost hex_id "d1" (asking (Some alice) "70a3") library) = library.
Proof.
  split; [|split].
  - refine (proj1 (proj1 (likePost_toggles hex_id None "2024-01-01T00:00:00.000Z"
                            "d1" "d2" (asking (Some alice) "70a2")
                            library alice "70a2" notes _ _ _ _ _) _));
      try reflexivity. discriminate.
  - refine (proj1 (proj1 (proj2 (likePost_toggles hex_id None "2024-01-01T00:00:00.000Z"
                                   "d1" "d2" (asking (Some alice) "70a1")
                                   library alice "70a1" essay _ _ _ _ _)) _ _));
      reflexivity.
  - refine (proj1 (proj2 (proj2 (likePost_toggles hex_id None "2024-01-01T00:00:00.000Z"
                                   "d1" "d2" (asking (Some alice) "70a3")
                                   library alice "70a3" memo _ _ _ _ _)) _ _));
      try reflexivity. discriminate.
Defined.

Lemma getPost_visibility_witness :
  getPost hex_id render_post (asking (Some dormant) "70a2") library
  = (library, Throw (AppError "Post not found" 404 VNull)) /\
  getPost hex_id render_post (asking (Some alice) "70a2") library
  = (library, Ok (mkRes (VNum 200) (VObj [("post", render_post notes)]))) /\
  views (incrementViews essay) = 8%Z /\
  fst (getPost hex_id render_post (asking None "70a3") library) = library.
Proof.
  pose proof (getPost_visibility hex_id render_post None "2024-01-01T00:00:00.000Z"
                (asking (Some dormant) "70a2")
                library "70a2" notes alice eq_refl eq_refl eq_refl eq_refl eq_refl)
    as (_ & H1 & _).
  pose proof (getPost_visibility hex_id render_post None "2024-01-01T00:00:00.000Z"
                (asking (Some alice) "70a2")
                library "70a2" notes alice eq_refl eq_refl eq_refl eq_refl eq_refl)
    as (_ & _ & _ & H2 & _).
  pose proof (getPost_visibility hex_id render_post None "2024-01-01T00:00:00.000Z"
                (asking None "70a1")
                library "70a1" essay alice eq_refl eq_refl eq_refl eq_refl eq_refl)
    as (_ & _ & _ & _ & H3 & _).
  pose proof (getPost_visibility hex_id render_post None "2024-01-01T00:00:00.000Z"
                (asking None "70a3")
                library "70a3" memo root eq_refl eq_refl eq_refl eq_refl eq_refl)
    as (_ & _ & _ & _ & _ & H4 & _).
  split; [apply H1; [discriminate|reflexivity|reflexivity]|].
  split; [apply H2; [discriminate|now left]|].
  split.
  - destruct (H3 eq_refl eq_refl eq_refl) as (_ & _ & Hv & _). exact Hv.
  - apply H4; [reflexivity|reflexivity|discriminate].
Defined.

Lemma getPost_orphaned_post_witness :
  snd (getPost hex_id render_post (asking None "70a4") library)
  = Ok (mkRes (VNum 200) (VObj [("post", render_post (incrementViews orphan))])) /\
  exists res,
    continue_with (tail None "2024-01-01T00:00:00.000Z")
      (settle (asking (Some alice) "70a4")
              (snd (getPost hex_id render_post (asking (Some alice) "70a4") library)))
    = Some (Ok res) /\
    status res = VNum 500 /\
    get (json res) "error" = Ok (VStr "Internal Server Error").
Proof.
  split.
  - exact (proj1 (proj1 (getPost_orphaned_post hex_id render_post None
                           "2024-01-01T00:00:00.000Z" (asking None "70a4") library
                           "70a4" orphan eq_refl eq_refl eq_refl eq_refl eq_refl eq_refl)
                        eq_refl eq_refl)).
  - refine (proj2 (proj2 (getPost_orphaned_post hex_id render_post None
                            "2024-01-01T00:00:00.000Z" (asking (Some alice) "70a4")
                            library "70a4" orphan
                            eq_refl eq_refl eq_refl eq_refl eq_refl eq_refl) _)).
    discriminate.
Defined.

Lemma deleteUser_spares_the_caller_witness :
  In root (users (accounts (fst (deleteUser hex_id (asking (Some root) (_id alice))
                                            library)))) /\
  posts (fst (deleteUser hex_id (asking (Some root) (_id alice)) library))
  = posts library.
Proof.
  pose proof (deleteUser_spares_the_caller hex_id None "2024-01-01T00:00:00.000Z"
                (asking (Some root) (_id alice)) library root eq_refl)
    as (H1 & H2 & _).
  split; [apply H1; [now left|reflexivity]|exact H2].
Defined.

Lemma malformed_id_answered_400_witness :
  likePost hex_id "d1" (asking (Some alice) "not-an-id") library
  = (library, Throw (CastError "not-an-id")).
Proof.
  refine (proj1 (malformed_id_answered_400 hex_id render_post None
                   "2024-01-01T00:00:00.000Z" "d1" (asking (Some alice) "not-an-id")
                   library "not-an-id" (likePost hex_id "d1") eq_refl eq_refl _)).
  right. right. now left.
Defined.
End BlogFacts.
